(** * Geeta University venue booking: the booking store, the conflict checker,
    the booking lifecycle and the selection wizard.

    Two implementations of the feature live in the repository:
    - [VariantA]: src/components/VenueBookingSystem.tsx (three venues, a
      weekly calendar, bookings mirrored to local storage, soft cancel);
    - [VariantB]: the second VenueBookingSystem component (six venues, a
      booking dialog, approve / reject / delete, the [useAuth] session).

    React state is modelled by explicit state passing: a handler is a
    function from the component state to the component state, and a user
    action is an event handled in the state of the last render. *)

From Stdlib Require Import Ascii String List NArith ZArith Bool Permutation Lia.
Import ListNotations.

Set Warnings "-register-all".

(** ** JavaScript strings *)

Module JS.

(** A JavaScript string is a sequence of UTF-16 code units. *)
Definition jsstring := list N.

(** A string literal of the source (ASCII only). *)
Definition lit (s : string) : jsstring := map N_of_ascii (list_ascii_of_string s).

(** [a === b] on strings. *)
Fixpoint strictEq (a b : jsstring) : bool :=
  match a, b with
  | [], [] => true
  | x :: a', y :: b' => N.eqb x y && strictEq a' b'
  | _, _ => false
  end.

(** Truthiness of a string: every string but the empty one. *)
Definition truthy (s : jsstring) : bool :=
  match s with
  | [] => false
  | _ :: _ => true
  end.

(** ECMAScript WhiteSpace and LineTerminator code points, the ones
    [String.prototype.trim] strips. *)
Definition isWhiteSpace (c : N) : bool :=
  ((9 <=? c) && (c <=? 13) || (c =? 32) || (c =? 160) || (c =? 5760)
   || (8192 <=? c) && (c <=? 8202) || (c =? 8232) || (c =? 8233)
   || (c =? 8239) || (c =? 8287) || (c =? 12288) || (c =? 65279))%N.

Fixpoint trimStart (s : jsstring) : jsstring :=
  match s with
  | [] => []
  | c :: r => if isWhiteSpace c then trimStart r else s
  end.

Definition trimEnd (s : jsstring) : jsstring := rev (trimStart (rev s)).

(** [s.trim()] *)
Definition trim (s : jsstring) : jsstring := trimEnd (trimStart s).

End JS.

Import JS.

(** ** [JSON.parse] *)

Module JSON.

(** A parsed JSON text. A number keeps its lexeme (its value as a double is
    never needed); an object keeps its members in source order, a later
    member of the same name overriding an earlier one. *)
Inductive json :=
| JNull
| JBool (b : bool)
| JNumber (lexeme : jsstring)
| JString (s : jsstring)
| JArray (elements : list json)
| JObject (members : list (jsstring * json)).

Inductive Parse (A : Type) :=
| Ok (a : A) (rest : jsstring)
| SyntaxError
| OutOfFuel.
Arguments Ok {A} a rest.
Arguments SyntaxError {A}.
Arguments OutOfFuel {A}.

(** JSONWhiteSpace: tab, line feed, carriage return, space. *)
Definition isJSONWhiteSpace (c : N) : bool :=
  ((c =? 9) || (c =? 10) || (c =? 13) || (c =? 32))%N.

Fixpoint skipWs (s : jsstring) : jsstring :=
  match s with
  | [] => []
  | c :: r => if isJSONWhiteSpace c then skipWs r else s
  end.

(** Consumes the code units of [l] from the front of [s]. *)
Fixpoint eatLit (l s : jsstring) : option jsstring :=
  match l, s with
  | [], _ => Some s
  | x :: l', y :: s' => if N.eqb x y then eatLit l' s' else None
  | _ :: _, [] => None
  end.

Definition isDigit (c : N) : bool := ((48 <=? c) && (c <=? 57))%N.

Definition hexVal (c : N) : option N :=
  if isDigit c then Some (c - 48)%N
  else if ((97 <=? c) && (c <=? 102))%N then Some (c - 87)%N
  else if ((65 <=? c) && (c <=? 70))%N then Some (c - 55)%N
  else None.

Definition hex4 (a b c d : N) : option N :=
  match hexVal a, hexVal b, hexVal c, hexVal d with
  | Some x, Some y, Some z, Some w => Some (((x * 16 + y) * 16 + z) * 16 + w)%N
  | _, _, _, _ => None
  end.

(** The code unit a single-character escape stands for. *)
Definition escapeOf (e : N) : option N :=
  if (e =? 34)%N then Some 34%N           (* quote *)
  else if (e =? 92)%N then Some 92%N      (* backslash *)
  else if (e =? 47)%N then Some 47%N      (* slash *)
  else if (e =? 98)%N then Some 8%N       (* b *)
  else if (e =? 102)%N then Some 12%N     (* f *)
  else if (e =? 110)%N then Some 10%N     (* n *)
  else if (e =? 114)%N then Some 13%N     (* r *)
  else if (e =? 116)%N then Some 9%N      (* t *)
  else None.

Definition consChar (c : N) (p : option (jsstring * jsstring)) :
    option (jsstring * jsstring) :=
  match p with
  | Some (str, rest) => Some (c :: str, rest)
  | None => None
  end.

(** The characters of a JSONString after its opening quote, up to and
    including the closing quote. *)
Fixpoint parseChars (s : jsstring) : option (jsstring * jsstring) :=
  match s with
  | [] => None
  | c :: r =>
      if (c =? 34)%N then Some ([], r)
      else if (c =? 92)%N then
        match r with
        | [] => None
        | e :: r' =>
            if (e =? 117)%N then
              match r' with
              | h1 :: h2 :: h3 :: h4 :: r'' =>
                  match hex4 h1 h2 h3 h4 with
                  | Some u => consChar u (parseChars r'')
                  | None => None
                  end
              | _ => None
              end
            else
              match escapeOf e with
              | Some u => consChar u (parseChars r')
              | None => None
              end
        end
      else if (c <? 32)%N then None
      else consChar c (parseChars r)
  end.

Fixpoint spanDigits (s : jsstring) : jsstring * jsstring :=
  match s with
  | [] => ([], [])
  | c :: r => if isDigit c then let (ds, rest) := spanDigits r in (c :: ds, rest)
              else ([], s)
  end.

(** One or more digits. *)
Definition digits1 (s : jsstring) : option (jsstring * jsstring) :=
  match spanDigits s with
  | ([], _) => None
  | p => Some p
  end.

(** JSONNumber: an optional minus sign, then 0 or a digit 1-9 followed by
    digits, then an optional fraction (a dot and one or more digits), then
    an optional exponent (e or E, an optional sign, one or more digits). *)
Definition parseNumber (s : jsstring) : option (jsstring * jsstring) :=
  let (sign, s1) := match s with
                    | c :: r => if (c =? 45)%N then ([c], r) else ([], s)
                    | [] => ([], s)
                    end in
  match s1 with
  | [] => None
  | d :: r =>
      if isDigit d then
        let (int, s2) := if (d =? 48)%N then ([d], r)
                         else let (ds, rest) := spanDigits r in (d :: ds, rest) in
        let frac := match s2 with
                    | c :: r2 =>
                        if (c =? 46)%N then
                          match digits1 r2 with
                          | Some (ds, rest) => Some (c :: ds, rest)
                          | None => None
                          end
                        else Some ([], s2)
                    | [] => Some ([], s2)
                    end in
        match frac with
        | None => None
        | Some (fr, s3) =>
            match s3 with
            | c :: r3 =>
                if ((c =? 101) || (c =? 69))%N then
                  let (sg, r4) := match r3 with
                                  | g :: r' => if ((g =? 43) || (g =? 45))%N
                                               then ([g], r') else ([], r3)
                                  | [] => ([], r3)
                                  end in
                  match digits1 r4 with
                  | Some (ds, rest) => Some (sign ++ int ++ fr ++ c :: sg ++ ds, rest)
                  | None => None
                  end
                else Some (sign ++ int ++ fr, s3)
            | [] => Some (sign ++ int ++ fr, s3)
            end
        end
      else None
  end.

Definition literal (l : jsstring) (v : json) (s : jsstring) : Parse json :=
  match eatLit l s with
  | Some rest => Ok v rest
  | None => SyntaxError
  end.

(** One JSONValue, given the parsers of the rest of an array and of the
    rest of an object. *)
Definition valueStep (elements : jsstring -> Parse (list json))
    (members : jsstring -> Parse (list (jsstring * json)))
    (s : jsstring) : Parse json :=
  match skipWs s with
  | [] => SyntaxError
  | c :: r =>
      if (c =? 123)%N then                       (* { *)
        match skipWs r with
        | [] => SyntaxError
        | c' :: r' =>
            if (c' =? 125)%N then Ok (JObject []) r'
            else match members r with
                 | Ok ms rest => Ok (JObject ms) rest
                 | SyntaxError => SyntaxError
                 | OutOfFuel => OutOfFuel
                 end
        end
      else if (c =? 91)%N then                   (* [ *)
        match skipWs r with
        | [] => SyntaxError
        | c' :: r' =>
            if (c' =? 93)%N then Ok (JArray []) r'
            else match elements r with
                 | Ok vs rest => Ok (JArray vs) rest
                 | SyntaxError => SyntaxError
                 | OutOfFuel => OutOfFuel
                 end
        end
      else if (c =? 34)%N then
        match parseChars r with
        | Some (str, rest) => Ok (JString str) rest
        | None => SyntaxError
        end
      else if (c =? 110)%N then literal (lit "null") JNull (c :: r)
      else if (c =? 116)%N then literal (lit "true") (JBool true) (c :: r)
      else if (c =? 102)%N then literal (lit "false") (JBool false) (c :: r)
      else match parseNumber (c :: r) with
           | Some (lexeme, rest) => Ok (JNumber lexeme) rest
           | None => SyntaxError
           end
  end.

(** The elements of an array after its opening bracket or a comma, up to
    and including the closing bracket. *)
Definition elementsStep (value : jsstring -> Parse json)
    (elements : jsstring -> Parse (list json))
    (s : jsstring) : Parse (list json) :=
  match value s with
  | Ok v r =>
      match skipWs r with
      | [] => SyntaxError
      | c :: r' =>
          if (c =? 44)%N then
            match elements r' with
            | Ok vs rest => Ok (v :: vs) rest
            | SyntaxError => SyntaxError
            | OutOfFuel => OutOfFuel
            end
          else if (c =? 93)%N then Ok [v] r'
          else SyntaxError
      end
  | SyntaxError => SyntaxError
  | OutOfFuel => OutOfFuel
  end.

(** The members of an object after its opening brace or a comma, up to and
    including the closing brace. *)
Definition membersStep (value : jsstring -> Parse json)
    (members : jsstring -> Parse (list (jsstring * json)))
    (s : jsstring) : Parse (list (jsstring * json)) :=
  match skipWs s with
  | [] => SyntaxError
  | q :: r =>
      if (q =? 34)%N then
        match parseChars r with
        | None => SyntaxError
        | Some (key, r1) =>
            match skipWs r1 with
            | [] => SyntaxError
            | c :: r2 =>
                if (c =? 58)%N then
                  match value r2 with
                  | Ok v r3 =>
                      match skipWs r3 with
                      | [] => SyntaxError
                      | c' :: r4 =>
                          if (c' =? 44)%N then
                            match members r4 with
                            | Ok ms rest => Ok ((key, v) :: ms) rest
                            | SyntaxError => SyntaxError
                            | OutOfFuel => OutOfFuel
                            end
                          else if (c' =? 125)%N then Ok [(key, v)] r4
                          else SyntaxError
                      end
                  | SyntaxError => SyntaxError
                  | OutOfFuel => OutOfFuel
                  end
                else SyntaxError
            end
        end
      else SyntaxError
  end.

Fixpoint parseValue (fuel : nat) (s : jsstring) {struct fuel} : Parse json :=
  match fuel with
  | O => OutOfFuel
  | S fuel' => valueStep (parseElements fuel') (parseMembers fuel') s
  end
with parseElements (fuel : nat) (s : jsstring) {struct fuel} : Parse (list json) :=
  match fuel with
  | O => OutOfFuel
  | S fuel' => elementsStep (parseValue fuel') (parseElements fuel') s
  end
with parseMembers (fuel : nat) (s : jsstring) {struct fuel}
    : Parse (list (jsstring * json)) :=
  match fuel with
  | O => OutOfFuel
  | S fuel' => membersStep (parseValue fuel') (parseMembers fuel') s
  end.

(** The completion of [JSON.parse(text)]. *)
Inductive Completion :=
| Returns (v : json)
| ThrowsSyntaxError
| Diverges.

(** [JSON.parse(text)]: one value between optional white space. The fuel
    is enough for every text ([JSON_parse_total] below). *)
Definition JSON_parse (text : jsstring) : Completion :=
  match parseValue (2 * length text + 1) text with
  | Ok v rest =>
      match skipWs rest with
      | [] => Returns v
      | _ :: _ => ThrowsSyntaxError
      end
  | SyntaxError => ThrowsSyntaxError
  | OutOfFuel => Diverges
  end.

(** What a parser started with enough fuel does: it never runs out of it,
    and what it leaves is shorter than what it was given. *)
Definition consumes {A : Type} (s : jsstring) (p : Parse A) : Prop :=
  match p with
  | Ok _ rest => length rest < length s
  | SyntaxError => True
  | OutOfFuel => False
  end.

End JSON.

Import JSON.

(** ** Variant A: src/components/VenueBookingSystem.tsx *)

Module VariantA.

Inductive Status := Pending | Approved | Cancelled.

Definition Status_eqb (a b : Status) : bool :=
  match a, b with
  | Pending, Pending | Approved, Approved | Cancelled, Cancelled => true
  | _, _ => false
  end.

Module Booking.
Record t := mk {
  id : jsstring;
  venueId : jsstring;
  venueName : jsstring;
  date : jsstring;
  timeSlot : jsstring;
  bookerName : jsstring;
  department : jsstring;
  purpose : jsstring;
  status : Status;
  createdAt : jsstring
}.

(** [{ ...booking, status: s }] *)
Definition withStatus (s : Status) (b : t) : t :=
  mk (id b) (venueId b) (venueName b) (date b) (timeSlot b) (bookerName b)
     (department b) (purpose b) s (createdAt b).
End Booking.

Module Venue.
Record t := mk {
  id : jsstring;
  name : jsstring;
  description : jsstring;
  capacity : jsstring;
  location : jsstring;
  features : list jsstring
}.
End Venue.

Module Form.
Record t := mk {
  bookerName : jsstring;
  department : jsstring;
  purpose : jsstring
}.
End Form.

(** The notices raised through [toast]. *)
Inductive Toast :=
| TimeSlotUnavailable
| IncompleteInformation
| BookingSubmitted
| BookingCancelled.

(** The component state ([weekDates], used for display only, is left out;
    [toasts] is the state of the [useToast] hook). *)
Record State := mkState {
  activeTab : jsstring;
  selectedVenue : option Venue.t;
  selectedDate : jsstring;
  selectedTimeSlot : jsstring;
  bookings : list Booking.t;
  showBookingForm : bool;
  bookingForm : Form.t;
  toasts : list Toast
}.

Definition MOCK_USER_name : jsstring := lit "Dr. Rajesh Kumar".
Definition MOCK_USER_department : jsstring := lit "Computer Science".

Definition initialState : State :=
  mkState (lit "booking") None [] [] [] false
          (Form.mk MOCK_USER_name MOCK_USER_department []) [].

Definition setActiveTab (x : jsstring) (st : State) : State :=
  mkState x (selectedVenue st) (selectedDate st) (selectedTimeSlot st)
          (bookings st) (showBookingForm st) (bookingForm st) (toasts st).
Definition setSelectedVenue (x : option Venue.t) (st : State) : State :=
  mkState (activeTab st) x (selectedDate st) (selectedTimeSlot st)
          (bookings st) (showBookingForm st) (bookingForm st) (toasts st).
Definition setSelectedDate (x : jsstring) (st : State) : State :=
  mkState (activeTab st) (selectedVenue st) x (selectedTimeSlot st)
          (bookings st) (showBookingForm st) (bookingForm st) (toasts st).
Definition setSelectedTimeSlot (x : jsstring) (st : State) : State :=
  mkState (activeTab st) (selectedVenue st) (selectedDate st) x
          (bookings st) (showBookingForm st) (bookingForm st) (toasts st).
(** [setBookings(prev => f(prev))] *)
Definition setBookings (f : list Booking.t -> list Booking.t) (st : State) : State :=
  mkState (activeTab st) (selectedVenue st) (selectedDate st) (selectedTimeSlot st)
          (f (bookings st)) (showBookingForm st) (bookingForm st) (toasts st).
Definition setShowBookingForm (x : bool) (st : State) : State :=
  mkState (activeTab st) (selectedVenue st) (selectedDate st) (selectedTimeSlot st)
          (bookings st) x (bookingForm st) (toasts st).
Definition setBookingForm (f : Form.t -> Form.t) (st : State) : State :=
  mkState (activeTab st) (selectedVenue st) (selectedDate st) (selectedTimeSlot st)
          (bookings st) (showBookingForm st) (f (bookingForm st)) (toasts st).
Definition toast (x : Toast) (st : State) : State :=
  mkState (activeTab st) (selectedVenue st) (selectedDate st) (selectedTimeSlot st)
          (bookings st) (showBookingForm st) (bookingForm st) (toasts st ++ [x]).

(** Lines 168-174, the mount effect. [savedBookings] is what
    [localStorage.getItem] returns ([None] for [null]); the result is the
    value the bookings state holds after the effect ([useState([])] starts
    it as the empty array), or the error [JSON.parse] throws, which the
    effect does not catch. *)
Definition loadBookings (savedBookings : option jsstring) : Completion :=
  match savedBookings with
  | Some text => if truthy text then JSON_parse text else Returns (JArray [])
  | None => Returns (JArray [])
  end.

(** Lines 186-194: [bookings.some(...)]. *)
Definition isTimeSlotBooked (bookings : list Booking.t)
    (venueId date timeSlot : jsstring) : bool :=
  existsb (fun booking =>
             strictEq (Booking.venueId booking) venueId
             && strictEq (Booking.date booking) date
             && strictEq (Booking.timeSlot booking) timeSlot
             && negb (Status_eqb (Booking.status booking) Cancelled))
          bookings.

(** Lines 199-204. *)
Definition handleVenueSelect (venue : Venue.t) (st : State) : State :=
  setShowBookingForm false
    (setSelectedTimeSlot []
      (setSelectedDate []
        (setSelectedVenue (Some venue) st))).

(** Lines 209-214; [dateStr] is the value computed on line 210,
    [date.toISOString().split('T')[0]]. *)
Definition handleDateSelect (dateStr : jsstring) (st : State) : State :=
  setShowBookingForm false
    (setSelectedTimeSlot []
      (setSelectedDate dateStr st)).

(** Lines 219-232. *)
Definition handleTimeSlotSelect (timeSlotId : jsstring) (st : State) : State :=
  match selectedVenue st with
  | Some venue =>
      if truthy (selectedDate st) then
        if isTimeSlotBooked (bookings st) (Venue.id venue) (selectedDate st) timeSlotId
        then toast TimeSlotUnavailable st
        else setShowBookingForm true (setSelectedTimeSlot timeSlotId st)
      else st
  | None => st
  end.

(** Lines 237-273. [newId] is the value of [generateBookingId()] and [now]
    the value of [new Date().toISOString()] at the call. *)
Definition handleBookingSubmit (newId now : jsstring) (st : State) : State :=
  match selectedVenue st with
  | Some venue =>
      if negb (truthy (selectedDate st))
         || negb (truthy (selectedTimeSlot st))
         || negb (truthy (trim (Form.purpose (bookingForm st))))
      then toast IncompleteInformation st
      else
        let newBooking :=
          Booking.mk newId (Venue.id venue) (Venue.name venue)
                     (selectedDate st) (selectedTimeSlot st)
                     (Form.bookerName (bookingForm st))
                     (Form.department (bookingForm st))
                     (Form.purpose (bookingForm st))
                     Pending now in
        toast BookingSubmitted
          (setSelectedTimeSlot []
            (setShowBookingForm false
              (setBookingForm
                 (fun _ => Form.mk (Form.bookerName (bookingForm st))
                                   (Form.department (bookingForm st)) [])
                 (setBookings (fun prev => prev ++ [newBooking]) st))))
  | None => toast IncompleteInformation st
  end.

(** Lines 278-291. *)
Definition cancelIn (bookingId : jsstring) (prev : list Booking.t) : list Booking.t :=
  map (fun booking =>
         if strictEq (Booking.id booking) bookingId
         then Booking.withStatus Cancelled booking
         else booking)
      prev.

Definition handleCancelBooking (bookingId : jsstring) (st : State) : State :=
  toast BookingCancelled (setBookings (cancelIn bookingId) st).

(** Line 548: the cancel control of a booking card is rendered only for a
    pending booking. *)
Definition cancelControlShown (booking : Booking.t) : bool :=
  Status_eqb (Booking.status booking) Pending.

(** Lines 492 and 513-557: a click on the cancel control of the card of the
    booking at position [index] of the store. The card is rendered for the
    bookings of the mock user only. *)
Definition clickCancel (index : nat) (st : State) : State :=
  match nth_error (bookings st) index with
  | Some booking =>
      if strictEq (Booking.bookerName booking) MOCK_USER_name
         && cancelControlShown booking
      then handleCancelBooking (Booking.id booking) st
      else st
  | None => st
  end.

(** The user actions of the component, each with its handler. *)
Inductive Event :=
| VenueSelect (venue : Venue.t)
| DateSelect (dateStr : jsstring)
| TimeSlotSelect (timeSlotId : jsstring)
| EditBookerName (value : jsstring)
| EditDepartment (value : jsstring)
| EditPurpose (value : jsstring)
| BookingSubmit (newId now : jsstring)
| CloseBookingForm
| CancelBooking (bookingId : jsstring)
| TabChange (value : jsstring).

Definition handle (ev : Event) (st : State) : State :=
  match ev with
  | VenueSelect venue => handleVenueSelect venue st
  | DateSelect dateStr => handleDateSelect dateStr st
  | TimeSlotSelect timeSlotId => handleTimeSlotSelect timeSlotId st
  | EditBookerName v =>
      setBookingForm (fun prev => Form.mk v (Form.department prev) (Form.purpose prev)) st
  | EditDepartment v =>
      setBookingForm (fun prev => Form.mk (Form.bookerName prev) v (Form.purpose prev)) st
  | EditPurpose v =>
      setBookingForm (fun prev => Form.mk (Form.bookerName prev) (Form.department prev) v) st
  | BookingSubmit newId now => handleBookingSubmit newId now st
  | CloseBookingForm => setShowBookingForm false st
  | CancelBooking bookingId => handleCancelBooking bookingId st
  | TabChange v => setActiveTab v st
  end.

(** The state after a sequence of user actions, oldest first. *)
Definition run (evs : list Event) (st : State) : State :=
  fold_left (fun s ev => handle ev s) evs st.

(** *** The consistency rule of the booking store *)

(** The (venue, date, slot) triple a booking occupies. *)
Definition slotKey (b : Booking.t) : jsstring * jsstring * jsstring :=
  (Booking.venueId b, Booking.date b, Booking.timeSlot b).

(** No two bookings at distinct positions of the store, both with a status
    other than Cancelled, occupy the same triple. *)
Definition uniqueActive (bs : list Booking.t) : Prop :=
  forall i j b1 b2,
    i <> j ->
    nth_error bs i = Some b1 ->
    nth_error bs j = Some b2 ->
    Booking.status b1 <> Cancelled ->
    Booking.status b2 <> Cancelled ->
    slotKey b1 <> slotKey b2.

(** The same rule as a check that runs on a store. *)
Fixpoint uniqueActiveb (bs : list Booking.t) : bool :=
  match bs with
  | [] => true
  | b :: rest =>
      (Status_eqb (Booking.status b) Cancelled
       || negb (isTimeSlotBooked rest (Booking.venueId b) (Booking.date b)
                                 (Booking.timeSlot b)))
      && uniqueActiveb rest
  end.

(** What the wizard keeps true between two user actions: the store is
    consistent, and a selected slot is a free slot of the selected venue
    and date. *)
Definition wizardInv (st : State) : Prop :=
  uniqueActive (bookings st)
  /\ (selectedTimeSlot st <> [] ->
      exists venue, selectedVenue st = Some venue
        /\ isTimeSlotBooked (bookings st) (Venue.id venue) (selectedDate st)
                            (selectedTimeSlot st) = false).

(** *** Static data and sample sessions *)

(** Lines 57-82. *)
Definition VENUES : list Venue.t :=
  [ Venue.mk (lit "auditorium") (lit "Main Auditorium")
      (lit "Large capacity auditorium perfect for conferences, seminars, and major events")
      (lit "500 seats") (lit "Main Building, Ground Floor")
      (map lit [ "Air Conditioning"; "Projector"; "Sound System"; "Stage";
                 "Microphones" ]%string);
    Venue.mk (lit "e-block-seminar") (lit "E Block Seminar Hall")
      (lit "Modern seminar hall ideal for workshops, presentations, and departmental meetings")
      (lit "100 seats") (lit "E Block, 2nd Floor")
      (map lit [ "Air Conditioning"; "Projector"; "Whiteboard"; "Wi-Fi";
                 "Video Conferencing" ]%string);
    Venue.mk (lit "d-block-seminar") (lit "D Block Seminar Hall")
      (lit "Versatile seminar hall suitable for training sessions and academic events")
      (lit "80 seats") (lit "D Block, 1st Floor")
      (map lit [ "Air Conditioning"; "Smart Board"; "Audio System"; "Wi-Fi" ]%string) ].

Definition mainAuditorium : Venue.t := hd (Venue.mk [] [] [] [] [] []) VENUES.

(** The ids of [TIME_SLOTS], lines 85-95. *)
Definition TIME_SLOT_ids : list jsstring :=
  map lit [ "9-10"; "10-11"; "11-12"; "12-13"; "13-14"; "14-15"; "15-16";
            "16-17"; "17-18" ]%string.

(** The mock user books the auditorium for one morning. *)
Definition boardMeetingSession : list Event :=
  [ VenueSelect mainAuditorium;
    DateSelect (lit "2027-03-10");
    TimeSlotSelect (lit "9-10");
    EditPurpose (lit "Board Meeting");
    BookingSubmit (lit "booking_1804672800000_k3x9q2m1z")
                  (lit "2027-03-09T10:00:00.000Z") ].

(** A store, as local storage may hold it, with one approved booking. *)
Definition approvedBooking : Booking.t :=
  Booking.mk (lit "booking_1804672800000_k3x9q2m1z") (lit "auditorium")
             (lit "Main Auditorium") (lit "2027-03-10") (lit "9-10")
             MOCK_USER_name MOCK_USER_department (lit "Board Meeting")
             Approved (lit "2027-03-09T10:00:00.000Z").

Definition approvedStore : State :=
  setBookings (fun _ => [approvedBooking]) initialState.


End VariantA.

(** ** Variant B: the dialog-based VenueBookingSystem component *)

Module VariantB.

Inductive Status := pending | approved | rejected.

Definition Status_eqb (a b : Status) : bool :=
  match a, b with
  | pending, pending | approved, approved | rejected, rejected => true
  | _, _ => false
  end.

(** The parameter type ['approved' | 'rejected'] of [updateBookingStatus]. *)
Inductive Decision := Approve | Reject.

Definition statusOf (d : Decision) : Status :=
  match d with
  | Approve => approved
  | Reject => rejected
  end.

Inductive VenueType := classroom | auditorium | lab | conference | outdoor.

Inductive UserType := faculty | hod.

Definition UserType_eqb (a b : UserType) : bool :=
  match a, b with
  | faculty, faculty | hod, hod => true
  | _, _ => false
  end.

(** The session of hooks/useAuth.tsx. *)
Module User.
Record t := mk {
  username : jsstring;
  userType : UserType
}.
End User.

(** [attendees] and [capacity] are JavaScript numbers that the component
    only stores and displays; they are carried as integers. *)
Module Booking.
Record t := mk {
  id : jsstring;
  venueId : jsstring;
  venueName : jsstring;
  date : jsstring;
  timeSlot : jsstring;
  purpose : jsstring;
  bookedBy : jsstring;
  status : Status;
  attendees : Z;
  requirements : jsstring;
  contactEmail : jsstring;
  department : jsstring
}.

(** [{ ...booking, status }] *)
Definition withStatus (s : Status) (b : t) : t :=
  mk (id b) (venueId b) (venueName b) (date b) (timeSlot b) (purpose b)
     (bookedBy b) s (attendees b) (requirements b) (contactEmail b)
     (department b).
End Booking.

Module Venue.
Record t := mk {
  id : jsstring;
  name : jsstring;
  capacity : Z;
  location : jsstring;
  amenities : list jsstring;
  image : jsstring;
  type : VenueType
}.
End Venue.

Module BookingFormData.
Record t := mk {
  purpose : jsstring;
  attendees : Z;
  requirements : jsstring;
  contactEmail : jsstring;
  department : jsstring
}.
End BookingFormData.

(** The component state that the booking logic reads or writes (the search
    and filter state of the venue grid and the active tab are left out). *)
Record State := mkState {
  user : option User.t;
  bookings : list Booking.t;
  selectedVenue : option Venue.t;
  selectedDate : jsstring;
  selectedTimeSlot : jsstring;
  isBookingDialogOpen : bool
}.

Definition setBookings (f : list Booking.t -> list Booking.t) (st : State) : State :=
  mkState (user st) (f (bookings st)) (selectedVenue st) (selectedDate st)
          (selectedTimeSlot st) (isBookingDialogOpen st).
Definition setSelectedVenue (x : option Venue.t) (st : State) : State :=
  mkState (user st) (bookings st) x (selectedDate st)
          (selectedTimeSlot st) (isBookingDialogOpen st).
Definition setSelectedDate (x : jsstring) (st : State) : State :=
  mkState (user st) (bookings st) (selectedVenue st) x
          (selectedTimeSlot st) (isBookingDialogOpen st).
Definition setSelectedTimeSlot (x : jsstring) (st : State) : State :=
  mkState (user st) (bookings st) (selectedVenue st) (selectedDate st)
          x (isBookingDialogOpen st).
Definition setIsBookingDialogOpen (x : bool) (st : State) : State :=
  mkState (user st) (bookings st) (selectedVenue st) (selectedDate st)
          (selectedTimeSlot st) x.

(** Lines 109-138: the two bookings the store starts with. *)
Definition seedBookings : list Booking.t :=
  [ Booking.mk (lit "1") (lit "1") (lit "Main Auditorium") (lit "2024-01-15")
      (lit "09:00-11:00") (lit "Annual Function") (lit "Dr. Smith") approved
      300 (lit "Stage decoration, sound system") (lit "dr.smith@geeta.edu")
      (lit "Cultural Committee");
    Booking.mk (lit "2") (lit "2") (lit "Conference Hall") (lit "2024-01-16")
      (lit "14:00-16:00") (lit "Department Meeting") (lit "Prof. Johnson") pending
      25 (lit "Projector, refreshments") (lit "prof.johnson@geeta.edu")
      (lit "Computer Science") ].

Definition initialState (u : option User.t) : State :=
  mkState u seedBookings None [] [] false.

(** Lines 160-163. *)
Definition timeSlots : list jsstring :=
  map lit [ "09:00-10:00"; "10:00-11:00"; "11:00-12:00"; "12:00-13:00";
            "13:00-14:00"; "14:00-15:00"; "15:00-16:00"; "16:00-17:00";
            "17:00-18:00" ]%string.

(** Lines 183-190. *)
Definition isTimeSlotBooked (bookings : list Booking.t)
    (venueId date timeSlot : jsstring) : bool :=
  existsb (fun booking =>
             strictEq (Booking.venueId booking) venueId
             && strictEq (Booking.date booking) date
             && strictEq (Booking.timeSlot booking) timeSlot
             && negb (Status_eqb (Booking.status booking) rejected))
          bookings.

(** Lines 192-195. *)
Definition handleBookVenue (venue : Venue.t) (st : State) : State :=
  setIsBookingDialogOpen true (setSelectedVenue (Some venue) st).

(** [user?.username || 'Unknown User'] *)
Definition bookedByOf (u : option User.t) : jsstring :=
  match u with
  | Some usr => if truthy (User.username usr) then User.username usr
                else lit "Unknown User"
  | None => lit "Unknown User"
  end.

(** Lines 197-221. [nowId] is the value of [Date.now().toString()] at the
    call; [form.reset()] acts on the form library's state only. *)
Definition onSubmitBooking (nowId : jsstring) (data : BookingFormData.t)
    (st : State) : State :=
  match selectedVenue st with
  | Some venue =>
      if negb (truthy (selectedDate st)) || negb (truthy (selectedTimeSlot st))
      then st
      else
        let newBooking :=
          Booking.mk nowId (Venue.id venue) (Venue.name venue)
                     (selectedDate st) (selectedTimeSlot st)
                     (BookingFormData.purpose data)
                     (bookedByOf (user st))
                     pending
                     (BookingFormData.attendees data)
                     (BookingFormData.requirements data)
                     (BookingFormData.contactEmail data)
                     (BookingFormData.department data) in
        setSelectedTimeSlot []
          (setSelectedDate []
            (setSelectedVenue None
              (setIsBookingDialogOpen false
                (setBookings (fun prev => prev ++ [newBooking]) st))))
  | None => st
  end.

(** Lines 223-229. *)
Definition updateIn (bookingId : jsstring) (s : Decision)
    (prev : list Booking.t) : list Booking.t :=
  map (fun booking =>
         if strictEq (Booking.id booking) bookingId
         then Booking.withStatus (statusOf s) booking
         else booking)
      prev.

Definition updateBookingStatus (bookingId : jsstring) (s : Decision)
    (st : State) : State :=
  setBookings (updateIn bookingId s) st.

(** Lines 231-233. *)
Definition deleteIn (bookingId : jsstring) (prev : list Booking.t) : list Booking.t :=
  filter (fun booking => negb (strictEq (Booking.id booking) bookingId)) prev.

Definition deleteBooking (bookingId : jsstring) (st : State) : State :=
  setBookings (deleteIn bookingId) st.

(** Line 539: the approve and reject controls of a booking card are
    rendered only for a department head and a pending booking. *)
Definition statusControlsShown (u : option User.t) (booking : Booking.t) : bool :=
  match u with
  | Some usr => UserType_eqb (User.userType usr) hod
                && Status_eqb (Booking.status booking) pending
  | None => false
  end.

(** Lines 626-651: the slot buttons are rendered when a venue and a date
    are selected, and a click selects the slot unless it is booked:
    [!isBooked && setSelectedTimeSlot(slot)]. *)
Definition clickTimeSlot (slot : jsstring) (st : State) : State :=
  match selectedVenue st with
  | Some venue =>
      if truthy (selectedDate st) then
        if isTimeSlotBooked (bookings st) (Venue.id venue) (selectedDate st) slot
        then st
        else setSelectedTimeSlot slot st
      else st
  | None => st
  end.

(** Lines 493 and 539-559: a click on the approve or reject control of the
    card at position [index] of [bookings.map(...)]. *)
Definition clickStatusControl (index : nat) (s : Decision) (st : State) : State :=
  match nth_error (bookings st) index with
  | Some booking =>
      if statusControlsShown (user st) booking
      then updateBookingStatus (Booking.id booking) s st
      else st
  | None => st
  end.

(** Line 561: [booking.bookedBy === user?.username || user?.userType === 'hod']. *)
Definition deleteControlShown (u : option User.t) (booking : Booking.t) : bool :=
  match u with
  | Some usr => strictEq (Booking.bookedBy booking) (User.username usr)
                || UserType_eqb (User.userType usr) hod
  | None => false
  end.

(** Lines 561-571: a click on the delete control of the card at [index]. *)
Definition clickDelete (index : nat) (st : State) : State :=
  match nth_error (bookings st) index with
  | Some booking =>
      if deleteControlShown (user st) booking
      then deleteBooking (Booking.id booking) st
      else st
  | None => st
  end.

(** The user actions on the booking dialog and the bookings list. The date
    input, the slot buttons and the form are inside the dialog (line 583,
    [open={isBookingDialogOpen}]): they are there only while it is open. *)
Inductive Event :=
| BookVenue (venue : Venue.t)
| DateChange (value : jsstring)
| TimeSlotClick (slot : jsstring)
| DialogOpenChange (open : bool)
| SubmitBooking (nowId : jsstring) (data : BookingFormData.t)
| StatusClick (index : nat) (s : Decision)
| DeleteClick (index : nat).

Definition inDialog (handler : State -> State) (st : State) : State :=
  if isBookingDialogOpen st then handler st else st.

Definition handle (ev : Event) (st : State) : State :=
  match ev with
  | BookVenue venue => handleBookVenue venue st
  | DateChange v => inDialog (setSelectedDate v) st
  | TimeSlotClick slot => inDialog (clickTimeSlot slot) st
  | DialogOpenChange o => setIsBookingDialogOpen o st
  | SubmitBooking nowId data => inDialog (onSubmitBooking nowId data) st
  | StatusClick index s => clickStatusControl index s st
  | DeleteClick index => clickDelete index st
  end.

(** The state after a sequence of user actions, oldest first. *)
Definition run (evs : list Event) (st : State) : State :=
  fold_left (fun s ev => handle ev s) evs st.

(** *** The consistency rule of the booking store *)

(** The (venue, date, slot) triple a booking occupies. *)
Definition slotKey (b : Booking.t) : jsstring * jsstring * jsstring :=
  (Booking.venueId b, Booking.date b, Booking.timeSlot b).

(** No two bookings at distinct positions of the store, both with a status
    other than rejected, occupy the same triple. *)
Definition uniqueActive (bs : list Booking.t) : Prop :=
  forall i j b1 b2,
    i <> j ->
    nth_error bs i = Some b1 ->
    nth_error bs j = Some b2 ->
    Booking.status b1 <> rejected ->
    Booking.status b2 <> rejected ->
    slotKey b1 <> slotKey b2.

(** The same rule as a check that runs on a store. *)
Fixpoint uniqueActiveb (bs : list Booking.t) : bool :=
  match bs with
  | [] => true
  | b :: rest =>
      (Status_eqb (Booking.status b) rejected
       || negb (isTimeSlotBooked rest (Booking.venueId b) (Booking.date b)
                                 (Booking.timeSlot b)))
      && uniqueActiveb rest
  end.

(** *** Sample sessions *)

(** The first venue of the catalog, lines 53-61. *)
Definition mainAuditorium : Venue.t :=
  Venue.mk (lit "1") (lit "Main Auditorium") 500 (lit "Academic Block A")
           (map lit [ "Projector"; "Sound System"; "AC"; "Stage" ]%string)
           (lit "/api/placeholder/400/250") auditorium.

Definition facultyUser : User.t := User.mk (lit "prof.rao") faculty.

Definition boardMeeting : BookingFormData.t :=
  BookingFormData.mk (lit "Board Meeting") 12 [] (lit "prof.rao@geeta.edu")
                     (lit "Physics").



(** A venue, a date and a free slot are selected in the dialog. *)
Definition readyToSubmit : State :=
  run [ BookVenue mainAuditorium;
        DateChange (lit "2027-03-10");
        TimeSlotClick (lit "09:00-10:00") ]
      (initialState (Some facultyUser)).

(** A slot is booked; then, in a second dialog, the same slot is picked on
    a free day and the date is changed back to the booked day before the
    form is submitted. *)
Definition staleSlotSession : list Event :=
  [ BookVenue mainAuditorium;
    DateChange (lit "2027-03-10");
    TimeSlotClick (lit "09:00-10:00");
    SubmitBooking (lit "1804672800000") boardMeeting;
    BookVenue mainAuditorium;
    DateChange (lit "2027-03-11");
    TimeSlotClick (lit "09:00-10:00");
    DateChange (lit "2027-03-10");
    SubmitBooking (lit "1804672860000") boardMeeting ].

End VariantB.

(** ** Local storage *)

(** The Web Storage area: a map from keys to string values (with no
    quota: [setItem] always stores). *)
Module Storage.
Definition t := jsstring -> option jsstring.

Definition empty : t := fun _ => None.

(** [localStorage.getItem(key)]: [None] stands for [null]. *)
Definition getItem (key : jsstring) (storage : t) : option jsstring := storage key.

Definition setItem (key value : jsstring) (storage : t) : t :=
  fun k => if strictEq k key then Some value else storage k.

Definition removeItem (key : jsstring) (storage : t) : t :=
  fun k => if strictEq k key then None else storage k.
End Storage.

(** ** Variant A: what is rendered, and the persistence of the store *)

Module WizardA.
Import VariantA.

(** Lines 398-399: [isBooked] of a slot button. *)
Definition slotIsBooked (slotId : jsstring) (st : State) : bool :=
  match selectedVenue st with
  | Some venue =>
      if truthy (selectedDate st)
      then isTimeSlotBooked (bookings st) (Venue.id venue) (selectedDate st) slotId
      else false
  | None => false
  end.

(** Line 410: [disabled={isBooked || !selectedDate}]. *)
Definition slotDisabled (slotId : jsstring) (st : State) : bool :=
  slotIsBooked slotId st || negb (truthy (selectedDate st)).

(** Line 623: the slot buttons are rendered when a venue and a date are
    selected. *)
Definition slotsRendered (st : State) : bool :=
  match selectedVenue st with
  | Some _ => truthy (selectedDate st)
  | None => false
  end.

(** Line 409: a click on a slot button,
    [!isBooked && handleTimeSlotSelect(slot.id)]; a button that is not
    rendered or is disabled takes no click. *)
Definition clickSlotButton (slotId : jsstring) (st : State) : State :=
  if slotsRendered st && negb (slotDisabled slotId st) then
    if slotIsBooked slotId st then st else handleTimeSlotSelect slotId st
  else st.

(** Line 492: the bookings listed under My Bookings. *)
Definition userBookings (bs : list Booking.t) : list Booking.t :=
  filter (fun booking => strictEq (Booking.bookerName booking) MOCK_USER_name) bs.

(** Everything of a booking but its status. *)
Definition frame (b : Booking.t) : list jsstring :=
  [ Booking.id b; Booking.venueId b; Booking.venueName b; Booking.date b;
    Booking.timeSlot b; Booking.bookerName b; Booking.department b;
    Booking.purpose b; Booking.createdAt b ].

(** The submission goes through: a venue, a date and a slot are selected
    and the purpose is not blank. *)
Definition complete (st : State) : bool :=
  match selectedVenue st with
  | Some _ => truthy (selectedDate st) && truthy (selectedTimeSlot st)
              && truthy (trim (Form.purpose (bookingForm st)))
  | None => false
  end.

(** The slot ids that the slot buttons pass are not empty (lines 85-95). *)
Definition slotIdGiven (ev : Event) : Prop :=
  match ev with
  | TimeSlotSelect timeSlotId => timeSlotId <> []
  | _ => True
  end.

(** The form is shown for a selected slot only. *)
Definition formImpliesSlot (st : State) : Prop :=
  showBookingForm st = true -> selectedTimeSlot st <> [].

(** A selected slot comes with a selected venue and a selected date. *)
Definition slotImpliesVenueDate (st : State) : Prop :=
  selectedTimeSlot st <> [] -> selectedVenue st <> None /\ selectedDate st <> [].

End WizardA.

Module Persistence.
Import VariantA.

(** The key of lines 169 and 180. *)
Definition BOOKINGS_KEY : jsstring := lit "geeta_university_bookings".

Definition statusName (s : Status) : jsstring :=
  match s with
  | Pending => lit "Pending"
  | Approved => lit "Approved"
  | Cancelled => lit "Cancelled"
  end.

(** The properties of a booking object, in the order of the object literal
    of lines 249-260 (the spread of line 282 keeps it). *)
Definition properties (b : Booking.t) : list (jsstring * jsstring) :=
  [ (lit "id", Booking.id b);
    (lit "venueId", Booking.venueId b);
    (lit "venueName", Booking.venueName b);
    (lit "date", Booking.date b);
    (lit "timeSlot", Booking.timeSlot b);
    (lit "bookerName", Booking.bookerName b);
    (lit "department", Booking.department b);
    (lit "purpose", Booking.purpose b);
    (lit "status", statusName (Booking.status b));
    (lit "createdAt", Booking.createdAt b) ].

(** The JavaScript value of an object whose properties are strings, and of
    the bookings array. *)
Definition objectValue (ps : list (jsstring * jsstring)) : json :=
  JObject (map (fun p => (fst p, JString (snd p))) ps).

Definition bookingsValue (bs : list Booking.t) : json :=
  JArray (map (fun b => objectValue (properties b)) bs).

(** *** [JSON.stringify] on an array of objects of strings *)

Definition isLeadingSurrogate (c : N) : bool := ((55296 <=? c) && (c <=? 56319))%N.
Definition isTrailingSurrogate (c : N) : bool := ((56320 <=? c) && (c <=? 57343))%N.

(** A lower-case hexadecimal digit. *)
Definition hexDigit (n : N) : N := if (n <? 10)%N then (48 + n)%N else (87 + n)%N.

(** UnicodeEscape: a backslash, u and four hexadecimal digits. *)
Definition unicodeEscape (c : N) : jsstring :=
  [ 92; 117; hexDigit (c / 4096); hexDigit ((c / 256) mod 16);
    hexDigit ((c / 16) mod 16); hexDigit (c mod 16) ]%N.

(** QuoteJSONString on one code unit that is no leading surrogate. *)
Definition quoteUnit (c : N) : jsstring :=
  if (c =? 8)%N then [92; 98]%N
  else if (c =? 9)%N then [92; 116]%N
  else if (c =? 10)%N then [92; 110]%N
  else if (c =? 12)%N then [92; 102]%N
  else if (c =? 13)%N then [92; 114]%N
  else if (c =? 34)%N then [92; 34]%N
  else if (c =? 92)%N then [92; 92]%N
  else if (c <? 32)%N || isTrailingSurrogate c then unicodeEscape c
  else [c].

(** QuoteJSONString between its quotes: a surrogate pair is copied, a
    surrogate on its own is escaped. *)
Fixpoint quoteBody (s : jsstring) : jsstring :=
  match s with
  | [] => []
  | c :: r =>
      if isLeadingSurrogate c then
        match r with
        | d :: r' =>
            if isTrailingSurrogate d then c :: d :: quoteBody r'
            else unicodeEscape c ++ quoteBody r
        | [] => unicodeEscape c
        end
      else quoteUnit c ++ quoteBody r
  end.

Definition quote (s : jsstring) : jsstring := (34 :: quoteBody s ++ [34])%N.

(** The items of a list, each followed by [rest] of the text, with commas
    between them and [close] after the last. *)
Fixpoint separated {A : Type} (item : A -> jsstring) (close : N)
    (xs : list A) (rest : jsstring) : jsstring :=
  match xs with
  | [] => close :: rest
  | [x] => item x ++ close :: rest
  | x :: xs' => item x ++ 44%N :: separated item close xs' rest
  end.

Definition stringifyProperty (p : jsstring * jsstring) : jsstring :=
  quote (fst p) ++ 58%N :: quote (snd p).

Definition stringifyObject (ps : list (jsstring * jsstring)) : jsstring :=
  123%N :: separated stringifyProperty 125%N ps [].

(** [JSON.stringify(bookings)] *)
Definition stringifyBookings (bs : list Booking.t) : jsstring :=
  91%N :: separated (fun b => stringifyObject (properties b)) 93%N bs [].

(** Lines 179-181, the effect that mirrors the store. *)
Definition saveBookings (bs : list Booking.t) (storage : Storage.t) : Storage.t :=
  Storage.setItem BOOKINGS_KEY (stringifyBookings bs) storage.

(** Lines 169-172 on a storage area. *)
Definition loadFrom (storage : Storage.t) : Completion :=
  loadBookings (Storage.getItem BOOKINGS_KEY storage).

End Persistence.

(** ** The session hook, hooks/useAuth.tsx *)

Module Auth.

(** The user of line 23: [userType] is the stored string, cast and not
    checked (line 19). *)
Module User.
Record t := mk {
  username : jsstring;
  userType : jsstring
}.
End User.

Record State := mkState {
  isAuthenticated : bool;
  user : option User.t;
  isLoading : bool
}.

(** Lines 10-12. *)
Definition initialState : State := mkState false None true.

(** Lines 16-29. *)
Definition checkAuth (storage : Storage.t) (st : State) : State :=
  let authStatus := Storage.getItem (lit "isAuthenticated") storage in
  let userName := Storage.getItem (lit "userName") storage in
  let userType := Storage.getItem (lit "userType") storage in
  match authStatus, userName, userType with
  | Some a, Some n, Some t =>
      if strictEq a (lit "true") && truthy n && truthy t
      then mkState true (Some (User.mk n t)) false
      else mkState (isAuthenticated st) (user st) false
  | _, _, _ => mkState (isAuthenticated st) (user st) false
  end.

(** Lines 34-41: the storage and the state after [logout], and the page
    the window is sent to. *)
Definition logout (storage : Storage.t) (st : State)
    : Storage.t * State * jsstring :=
  (Storage.removeItem (lit "userType")
     (Storage.removeItem (lit "userName")
        (Storage.removeItem (lit "isAuthenticated") storage)),
   mkState false None (isLoading st),
   lit "/login").

(** The user as variant B reads it: the component compares [userType]
    with ['hod'] only. *)
Definition sessionUser (st : State) : option VariantB.User.t :=
  match user st with
  | Some u => Some (VariantB.User.mk (User.username u)
                      (if strictEq (User.userType u) (lit "hod")
                       then VariantB.hod else VariantB.faculty))
  | None => None
  end.

End Auth.

(** ** [JSON.parse] without fuel *)

Module JSONFuel.

(** The parsers with the fuel their text needs. *)
Definition parseV (s : jsstring) : Parse json := parseValue (2 * length s + 1) s.
Definition parseE (s : jsstring) : Parse (list json) :=
  parseElements (2 * length s + 2) s.
Definition parseM (s : jsstring) : Parse (list (jsstring * json)) :=
  parseMembers (2 * length s + 2) s.

(** [q] answers as [p] wherever [p] has fuel enough to answer. *)
Definition refines {A : Type} (p q : jsstring -> Parse A) : Prop :=
  forall s, p s <> OutOfFuel -> q s = p s.

End JSONFuel.

(** ** Variant B: the venue grid *)

Module CatalogB.
Import VariantB.

Definition typeName (t : VenueType) : jsstring :=
  match t with
  | classroom => lit "classroom"
  | auditorium => lit "auditorium"
  | lab => lit "lab"
  | conference => lit "conference"
  | outdoor => lit "outdoor"
  end.

(** Lines 52-107. *)
Definition venues : list Venue.t :=
  [ Venue.mk (lit "1") (lit "Main Auditorium") 500 (lit "Academic Block A")
      (map lit [ "Projector"; "Sound System"; "AC"; "Stage" ]%string)
      (lit "/api/placeholder/400/250") auditorium;
    Venue.mk (lit "2") (lit "Conference Hall") 50 (lit "Administrative Block")
      (map lit [ "Projector"; "Whiteboard"; "AC"; "WiFi" ]%string)
      (lit "/api/placeholder/400/250") conference;
    Venue.mk (lit "3") (lit "Computer Lab 1") 40 (lit "IT Block")
      (map lit [ "Computers"; "Projector"; "AC"; "WiFi" ]%string)
      (lit "/api/placeholder/400/250") lab;
    Venue.mk (lit "4") (lit "Classroom 101") 60 (lit "Academic Block B")
      (map lit [ "Projector"; "Whiteboard"; "AC" ]%string)
      (lit "/api/placeholder/400/250") classroom;
    Venue.mk (lit "5") (lit "Sports Ground") 200 (lit "Sports Complex")
      (map lit [ "Open Air"; "Lighting"; "Seating" ]%string)
      (lit "/api/placeholder/400/250") outdoor;
    Venue.mk (lit "6") (lit "Seminar Hall") 100 (lit "Academic Block C")
      (map lit [ "Projector"; "Sound System"; "AC"; "Stage" ]%string)
      (lit "/api/placeholder/400/250") auditorium ].

(** [sub] is at the front of [s]. *)
Fixpoint startsWith (s sub : jsstring) : bool :=
  match sub, s with
  | [], _ => true
  | x :: sub', y :: s' => N.eqb x y && startsWith s' sub'
  | _ :: _, [] => false
  end.

(** [s.includes(sub)] *)
Fixpoint includes (s sub : jsstring) : bool :=
  startsWith s sub
  || match s with
     | [] => false
     | _ :: r => includes r sub
     end.

Section Filter.

(** [String.prototype.toLowerCase], the Unicode lower-casing of the
    engine. *)
Variable toLowerCase : jsstring -> jsstring.

(** Lines 174-181: the predicate of the filter. *)
Definition venueMatches (searchTerm filterType : jsstring) (filterCapacity : Z)
    (venue : Venue.t) : bool :=
  let matchesSearch :=
    includes (toLowerCase (Venue.name venue)) (toLowerCase searchTerm)
    || includes (toLowerCase (Venue.location venue)) (toLowerCase searchTerm) in
  let matchesType :=
    strictEq filterType (lit "all") || strictEq (typeName (Venue.type venue)) filterType in
  let matchesCapacity :=
    Z.eqb filterCapacity 0 || Z.leb filterCapacity (Venue.capacity venue) in
  matchesSearch && matchesType && matchesCapacity.

Definition filteredVenues (searchTerm filterType : jsstring) (filterCapacity : Z)
    (vs : list Venue.t) : list Venue.t :=
  filter (venueMatches searchTerm filterType filterCapacity) vs.

End Filter.

(** Lower-casing on the ASCII letters, as [toLowerCase] does it on a
    string of ASCII characters. *)
Definition lowerASCII (s : jsstring) : jsstring :=
  map (fun c => if ((65 <=? c) && (c <=? 90))%N then (c + 32)%N else c) s.

End CatalogB.

(** ** Sample states *)

Module Samples.

(** Variant A: a venue, a date, a slot and a purpose are entered. *)
Definition readyA : VariantA.State :=
  VariantA.run [ VariantA.VenueSelect VariantA.mainAuditorium;
                 VariantA.DateSelect (lit "2027-03-10");
                 VariantA.TimeSlotSelect (lit "9-10");
                 VariantA.EditPurpose (lit "Board Meeting") ]
               VariantA.initialState.

(** Variant A: the same under another booker name. *)
Definition readyOtherNameA : VariantA.State :=
  VariantA.handle (VariantA.EditBookerName (lit "Prof. Rao")) readyA.

(** Variant A: the store holds the board meeting, pending. *)
Definition bookedA : VariantA.State :=
  VariantA.run VariantA.boardMeetingSession VariantA.initialState.

(** The booking of that store. *)
Definition boardMeetingBooking : VariantA.Booking.t :=
  VariantA.Booking.withStatus VariantA.Pending VariantA.approvedBooking.

(** Variant B: a department head is logged in. *)
Definition hodUser : VariantB.User.t := VariantB.User.mk (lit "dr.mehta") VariantB.hod.

Definition hodB : VariantB.State := VariantB.initialState (Some hodUser).

Definition facultyB : VariantB.State :=
  VariantB.initialState (Some VariantB.facultyUser).

(** The first booking of the initial store, made by Dr. Smith. *)
Definition smithBooking : VariantB.Booking.t :=
  hd (VariantB.Booking.mk [] [] [] [] [] [] [] VariantB.pending 0 [] [] [])
     VariantB.seedBookings.

(** A storage area with a session in it. *)
Definition sessionStorage : Storage.t :=
  Storage.setItem (lit "userType") (lit "hod")
    (Storage.setItem (lit "userName") (lit "dr.mehta")
       (Storage.setItem (lit "isAuthenticated") (lit "true") Storage.empty)).

End Samples.

(** ** Facts about JavaScript strings *)

Lemma strictEq_true_iff (a b : jsstring) : strictEq a b = true <-> a = b.
Proof.
  revert b; induction a as [|x a IH]; intros [|y b]; simpl; split;
    try discriminate; try reflexivity.
  - intros H. apply andb_true_iff in H as [Hxy Hab].
    apply N.eqb_eq in Hxy. apply IH in Hab. congruence.
  - intros H. injection H as -> ->. rewrite N.eqb_refl. simpl. now apply IH.
Qed.

Lemma strictEq_refl (a : jsstring) : strictEq a a = true.
Proof. now apply strictEq_true_iff. Qed.

Lemma strictEq_false_iff (a b : jsstring) : strictEq a b = false <-> a <> b.
Proof.
  rewrite <- strictEq_true_iff. destruct (strictEq a b); split; congruence.
Qed.


Lemma truthy_true_iff (s : jsstring) : truthy s = true <-> s <> [].
Proof. destruct s; simpl; split; congruence. Qed.



(** ** Facts about [JSON.parse] *)

Lemma skipWs_length (s : jsstring) : length (skipWs s) <= length s.
Proof.
  induction s as [|c r IH]; simpl; [lia|].
  destruct (isJSONWhiteSpace c); simpl; lia.
Qed.

Lemma skipWs_cons (s : jsstring) c r : skipWs s = c :: r -> length r < length s.
Proof.
  intros H. pose proof (skipWs_length s) as L. rewrite H in L. simpl in L. lia.
Qed.

Lemma eatLit_length (l s r : jsstring) :
  eatLit l s = Some r -> length r + length l = length s.
Proof.
  revert s; induction l as [|x l IH]; intros [|y s]; simpl; intros H;
    try discriminate; try (injection H as <-; simpl; lia).
  destruct (N.eqb x y); [|discriminate]. apply IH in H. lia.
Qed.

Lemma consChar_Some c p str r :
  consChar c p = Some (str, r) -> exists str', p = Some (str', r).
Proof.
  destruct p as [[str' r']|]; simpl; [|discriminate].
  intros H; injection H as _ <-. now exists str'.
Qed.

Lemma parseChars_length (s : jsstring) : forall str r,
  parseChars s = Some (str, r) -> length r < length s.
Proof.
  assert (G : forall n s, length s <= n -> forall str r,
             parseChars s = Some (str, r) -> length r < length s).
  { clear s. induction n as [|n IH]; intros s Hn str r H.
    - destruct s; [discriminate H | simpl in Hn; lia].
    - destruct s as [|c s]; [discriminate H|]. simpl in Hn, H.
      destruct (N.eqb c 34).
      { injection H as _ <-. simpl; lia. }
      destruct (N.eqb c 92).
      + destruct s as [|e s]; [discriminate H|].
        destruct (N.eqb e 117).
        * destruct s as [|h1 [|h2 [|h3 [|h4 s]]]]; try discriminate H.
          destruct (hex4 h1 h2 h3 h4); [|discriminate H].
          apply consChar_Some in H as [str' H].
          apply IH in H; simpl in *; lia.
        * destruct (escapeOf e); [|discriminate H].
          apply consChar_Some in H as [str' H].
          apply IH in H; simpl in *; lia.
      + destruct (N.ltb c 32); [discriminate H|].
        apply consChar_Some in H as [str' H].
        apply IH in H; simpl in *; lia. }
  intros str r. now apply (G (length s)).
Qed.

Lemma spanDigits_length (s : jsstring) :
  length (snd (spanDigits s)) <= length s.
Proof.
  induction s as [|c r IH]; simpl; [lia|].
  destruct (isDigit c); simpl; [|lia].
  destruct (spanDigits r); simpl in *; lia.
Qed.

Lemma digits1_length (s ds r : jsstring) :
  digits1 s = Some (ds, r) -> length r <= length s.
Proof.
  unfold digits1. pose proof (spanDigits_length s) as L.
  destruct (spanDigits s) as [[|d ds'] r']; [discriminate|].
  intros H; injection H as _ <-. exact L.
Qed.

Lemma parseNumber_length (s lexeme r : jsstring) :
  parseNumber s = Some (lexeme, r) -> length r < length s.
Proof.
  unfold parseNumber.
  set (p := match s with
            | c :: r0 => if N.eqb c 45 then ([c], r0) else ([], s)
            | [] => ([], s)
            end).
  assert (Hp : length (snd p) <= length s).
  { subst p. destruct s as [|c r0]; simpl; [lia|].
    destruct (N.eqb c 45); simpl; lia. }
  destruct p as [sign s1]. simpl in Hp.
  destruct s1 as [|d r1]; [discriminate|].
  destruct (isDigit d); [|discriminate].
  set (q := if N.eqb d 48 then ([d], r1)
            else let (ds, rest) := spanDigits r1 in (d :: ds, rest)).
  assert (Hq : length (snd q) <= length r1).
  { subst q. destruct (N.eqb d 48); simpl; [lia|].
    pose proof (spanDigits_length r1). destruct (spanDigits r1); simpl in *; lia. }
  destruct q as [int s2]. simpl in Hq, Hp.
  set (f := match s2 with
            | c :: r2 =>
                if N.eqb c 46 then
                  match digits1 r2 with
                  | Some (ds, rest) => Some (c :: ds, rest)
                  | None => None
                  end
                else Some ([], s2)
            | [] => Some ([], s2)
            end).
  assert (Hf : forall fr s3, f = Some (fr, s3) -> length s3 <= length s2).
  { subst f. intros fr s3. destruct s2 as [|c r2].
    - intros H; injection H as _ <-. simpl; lia.
    - destruct (N.eqb c 46).
      + destruct (digits1 r2) as [[ds rest]|] eqn:E; [|discriminate].
        intros H; injection H as _ <-. apply digits1_length in E. simpl; lia.
      + intros H; injection H as _ <-. simpl; lia. }
  destruct f as [[fr s3]|]; [|discriminate].
  specialize (Hf _ _ eq_refl).
  destruct s3 as [|c r3].
  - intros H; injection H as _ <-. simpl in *; lia.
  - destruct (N.eqb c 101 || N.eqb c 69).
    + set (g := match r3 with
                | g :: r' => if (N.eqb g 43 || N.eqb g 45) then ([g], r') else ([], r3)
                | [] => ([], r3)
                end).
      assert (Hg : length (snd g) <= length r3).
      { subst g. destruct r3 as [|g r']; simpl; [lia|].
        destruct (N.eqb g 43 || N.eqb g 45); simpl; lia. }
      destruct g as [sg r4]. simpl in Hg.
      destruct (digits1 r4) as [[ds rest]|] eqn:E; [|discriminate].
      intros H; injection H as _ <-. apply digits1_length in E. simpl in *; lia.
    + intros H; injection H as _ <-. simpl in *; lia.
Qed.

Lemma parse_fuel (fuel : nat) :
  (forall s, 2 * length s + 1 <= fuel -> consumes s (parseValue fuel s))
  /\ (forall s, 2 * length s + 2 <= fuel -> consumes s (parseElements fuel s))
  /\ (forall s, 2 * length s + 2 <= fuel -> consumes s (parseMembers fuel s)).
Proof.
  induction fuel as [|fuel (IHv & IHe & IHm)].
  - repeat split; intros s H; lia.
  - repeat split; intros s Hf; simpl.
    + (* a value *)
      unfold valueStep. destruct (skipWs s) as [|c r] eqn:Hs; [exact I|].
      apply skipWs_cons in Hs.
      destruct (N.eqb c 123).
      { destruct (skipWs r) as [|c' r'] eqn:Hr; [exact I|].
        apply skipWs_cons in Hr.
        destruct (N.eqb c' 125); [simpl; lia|].
        assert (Hm : consumes r (parseMembers fuel r)) by (apply IHm; lia).
        destruct (parseMembers fuel r); simpl in *; auto; lia. }
      destruct (N.eqb c 91).
      { destruct (skipWs r) as [|c' r'] eqn:Hr; [exact I|].
        apply skipWs_cons in Hr.
        destruct (N.eqb c' 93); [simpl; lia|].
        assert (He : consumes r (parseElements fuel r)) by (apply IHe; lia).
        destruct (parseElements fuel r); simpl in *; auto; lia. }
      destruct (N.eqb c 34).
      { destruct (parseChars r) as [[str rest]|] eqn:E; [|exact I].
        apply parseChars_length in E. simpl; lia. }
      assert (Hl : forall l v, l <> [] -> consumes s (literal l v (c :: r))).
      { intros l v Hne. unfold literal.
        destruct (eatLit l (c :: r)) as [rest|] eqn:E; [|exact I].
        apply eatLit_length in E. destruct l; [congruence|]. simpl in *; lia. }
      destruct (N.eqb c 110); [apply Hl; discriminate|].
      destruct (N.eqb c 116); [apply Hl; discriminate|].
      destruct (N.eqb c 102); [apply Hl; discriminate|].
      destruct (parseNumber (c :: r)) as [[lexeme rest]|] eqn:E; [|exact I].
      apply parseNumber_length in E. simpl in *; lia.
    + (* the elements of an array *)
      unfold elementsStep.
      assert (Hv : consumes s (parseValue fuel s)) by (apply IHv; lia).
      destruct (parseValue fuel s) as [v r| |]; simpl in Hv; auto.
      destruct (skipWs r) as [|c r'] eqn:Hr; [exact I|].
      apply skipWs_cons in Hr.
      destruct (N.eqb c 44).
      { assert (He : consumes r' (parseElements fuel r')) by (apply IHe; lia).
        destruct (parseElements fuel r'); simpl in *; auto; lia. }
      destruct (N.eqb c 93); simpl; [lia|exact I].
    + (* the members of an object *)
      unfold membersStep. destruct (skipWs s) as [|q r] eqn:Hs; [exact I|].
      apply skipWs_cons in Hs.
      destruct (N.eqb q 34); [|exact I].
      destruct (parseChars r) as [[key r1]|] eqn:E; [|exact I].
      apply parseChars_length in E.
      destruct (skipWs r1) as [|c r2] eqn:H1; [exact I|].
      apply skipWs_cons in H1.
      destruct (N.eqb c 58); [|exact I].
      assert (Hv : consumes r2 (parseValue fuel r2)) by (apply IHv; lia).
      destruct (parseValue fuel r2) as [v r3| |]; simpl in Hv; auto.
      destruct (skipWs r3) as [|c' r4] eqn:H3; [exact I|].
      apply skipWs_cons in H3.
      destruct (N.eqb c' 44).
      { assert (Hm : consumes r4 (parseMembers fuel r4)) by (apply IHm; lia).
        destruct (parseMembers fuel r4); simpl in *; auto; lia. }
      destruct (N.eqb c' 125); simpl; [lia|exact I].
Qed.

(** [JSON.parse] returns or throws on every text. *)
Lemma JSON_parse_total (text : jsstring) : JSON_parse text <> Diverges.
Proof.
  unfold JSON_parse.
  pose proof (proj1 (parse_fuel (2 * length text + 1)) text (le_n _)) as H.
  destruct (parseValue (2 * length text + 1) text); simpl in H.
  - destruct (skipWs rest); discriminate.
  - discriminate.
  - contradiction.
Qed.

(** ** Variant A: the conflict checker and the lifecycle operations *)

Module FactsA.
Import VariantA.

Lemma Status_eqb_true_iff (a b : Status) : Status_eqb a b = true <-> a = b.
Proof. destruct a, b; simpl; split; congruence. Qed.

Lemma Status_eqb_false_iff (a b : Status) : Status_eqb a b = false <-> a <> b.
Proof. destruct a, b; simpl; split; congruence. Qed.

(** What the predicate under [some] says of one booking. *)
Lemma occupies_true_iff (b : Booking.t) (v d t : jsstring) :
  strictEq (Booking.venueId b) v && strictEq (Booking.date b) d
    && strictEq (Booking.timeSlot b) t
    && negb (Status_eqb (Booking.status b) Cancelled) = true
  <-> Booking.venueId b = v /\ Booking.date b = d /\ Booking.timeSlot b = t
      /\ Booking.status b <> Cancelled.
Proof.
  rewrite !andb_true_iff, !strictEq_true_iff, negb_true_iff, Status_eqb_false_iff.
  tauto.
Qed.

Lemma isTimeSlotBooked_true_iff (bs : list Booking.t) (v d t : jsstring) :
  isTimeSlotBooked bs v d t = true
  <-> exists b, In b bs /\ Booking.venueId b = v /\ Booking.date b = d
                /\ Booking.timeSlot b = t /\ Booking.status b <> Cancelled.
Proof.
  unfold isTimeSlotBooked. rewrite existsb_exists.
  split; intros (b & Hin & H); exists b; split; auto; now apply occupies_true_iff.
Qed.

Lemma isTimeSlotBooked_app (bs bs' : list Booking.t) (v d t : jsstring) :
  isTimeSlotBooked (bs ++ bs') v d t
  = isTimeSlotBooked bs v d t || isTimeSlotBooked bs' v d t.
Proof. unfold isTimeSlotBooked. apply existsb_app. Qed.

End FactsA.

(** ** Variant B: the conflict checker and the lifecycle operations *)

Module FactsB.
Import VariantB.

Lemma Status_eqb_true_iff_B (a b : Status) : Status_eqb a b = true <-> a = b.
Proof. destruct a, b; simpl; split; congruence. Qed.

Lemma Status_eqb_false_iff_B (a b : Status) : Status_eqb a b = false <-> a <> b.
Proof. destruct a, b; simpl; split; congruence. Qed.

Lemma occupies_true_iff_B (b : Booking.t) (v d t : jsstring) :
  strictEq (Booking.venueId b) v && strictEq (Booking.date b) d
    && strictEq (Booking.timeSlot b) t
    && negb (Status_eqb (Booking.status b) rejected) = true
  <-> Booking.venueId b = v /\ Booking.date b = d /\ Booking.timeSlot b = t
      /\ Booking.status b <> rejected.
Proof.
  rewrite !andb_true_iff, !strictEq_true_iff, negb_true_iff, Status_eqb_false_iff_B.
  tauto.
Qed.

Lemma isTimeSlotBooked_true_iff_B (bs : list Booking.t) (v d t : jsstring) :
  isTimeSlotBooked bs v d t = true
  <-> exists b, In b bs /\ Booking.venueId b = v /\ Booking.date b = d
                /\ Booking.timeSlot b = t /\ Booking.status b <> rejected.
Proof.
  unfold isTimeSlotBooked. rewrite existsb_exists.
  split; intros (b & Hin & H); exists b; split; auto; now apply occupies_true_iff_B.
Qed.

End FactsB.

(** ** Variant A: the store stays consistent *)

Module InvariantA.
Import VariantA FactsA.

Lemma cancelIn_nth_error (bookingId : jsstring) (bs : list Booking.t) (i : nat) :
  nth_error (cancelIn bookingId bs) i
  = option_map (fun b => if strictEq (Booking.id b) bookingId
                         then Booking.withStatus Cancelled b else b)
               (nth_error bs i).
Proof. unfold cancelIn. apply nth_error_map. Qed.

(** A booking still active after a cancellation is a booking that the
    cancellation left as it was. *)
Lemma cancelIn_active (bookingId : jsstring) (bs : list Booking.t) (i : nat)
    (b' : Booking.t) :
  nth_error (cancelIn bookingId bs) i = Some b' ->
  Booking.status b' <> Cancelled ->
  nth_error bs i = Some b'.
Proof.
  rewrite cancelIn_nth_error. destruct (nth_error bs i) as [b|]; simpl; [|discriminate].
  destruct (strictEq (Booking.id b) bookingId); intros H; injection H as <-.
  - simpl. congruence.
  - reflexivity.
Qed.

Lemma uniqueActive_nil : uniqueActive [].
Proof. intros i j b1 b2 _ H. destruct i; discriminate H. Qed.

Lemma uniqueActive_cancelIn (bookingId : jsstring) (bs : list Booking.t) :
  uniqueActive bs -> uniqueActive (cancelIn bookingId bs).
Proof.
  intros U i j b1 b2 Hij H1 H2 A1 A2.
  apply (U i j); auto; eapply cancelIn_active; eauto.
Qed.

Lemma isTimeSlotBooked_cancelIn (bookingId : jsstring) (bs : list Booking.t)
    (v d t : jsstring) :
  isTimeSlotBooked bs v d t = false ->
  isTimeSlotBooked (cancelIn bookingId bs) v d t = false.
Proof.
  intros F. destruct (isTimeSlotBooked (cancelIn bookingId bs) v d t) eqn:E; [|reflexivity].
  apply isTimeSlotBooked_true_iff in E as (b' & Hin & Hv & Hd & Ht & Hs).
  apply In_nth_error in Hin as [i Hi]. apply cancelIn_active in Hi; [|exact Hs].
  rewrite <- F. symmetry. apply isTimeSlotBooked_true_iff.
  exists b'. repeat split; auto. eapply nth_error_In; eauto.
Qed.

(** Appending a booking on a free triple keeps the store consistent. *)
Lemma uniqueActive_snoc (bs : list Booking.t) (nb : Booking.t) :
  uniqueActive bs ->
  isTimeSlotBooked bs (Booking.venueId nb) (Booking.date nb) (Booking.timeSlot nb) = false ->
  uniqueActive (bs ++ [nb]).
Proof.
  intros U F.
  assert (Free : forall k b, nth_error bs k = Some b -> Booking.status b <> Cancelled ->
                             slotKey b <> slotKey nb).
  { intros k b Hk Hs Heq. unfold slotKey in Heq. injection Heq as Hv Hd Ht.
    assert (T : isTimeSlotBooked bs (Booking.venueId nb) (Booking.date nb)
                                 (Booking.timeSlot nb) = true).
    { apply isTimeSlotBooked_true_iff. exists b. repeat split; auto.
      eapply nth_error_In; eauto. }
    congruence. }
  assert (Last : forall k b, nth_error (bs ++ [nb]) k = Some b -> length bs <= k ->
                             k = length bs /\ b = nb).
  { intros k b Hk Hle. rewrite nth_error_app2 in Hk by exact Hle.
    destruct (k - length bs) as [|m] eqn:E; simpl in Hk.
    - injection Hk as <-. split; [lia|reflexivity].
    - destruct m; discriminate Hk. }
  intros i j b1 b2 Hij H1 H2 A1 A2.
  destruct (Nat.lt_ge_cases i (length bs)) as [Li|Li];
    destruct (Nat.lt_ge_cases j (length bs)) as [Lj|Lj].
  - rewrite nth_error_app1 in H1, H2 by assumption. now apply (U i j).
  - rewrite nth_error_app1 in H1 by assumption.
    apply Last in H2 as [_ ->]; [|exact Lj]. now apply (Free i).
  - rewrite nth_error_app1 in H2 by assumption.
    apply Last in H1 as [_ ->]; [|exact Li].
    intros Heq. symmetry in Heq. revert Heq. now apply (Free j).
  - apply Last in H1 as [-> _]; [|exact Li]. apply Last in H2 as [-> _]; [|exact Lj].
    congruence.
Qed.

(** The check [uniqueActiveb] decides the rule [uniqueActive]. *)
Lemma uniqueActiveb_true_iff (bs : list Booking.t) :
  uniqueActiveb bs = true <-> uniqueActive bs.
Proof.
  induction bs as [|b rest IH]; simpl.
  - split; auto using uniqueActive_nil.
  - rewrite andb_true_iff, orb_true_iff, negb_true_iff, Status_eqb_true_iff, IH.
    split.
    + intros [Hb U] i j b1 b2 Hij H1 H2 A1 A2.
      assert (Head : forall k x, nth_error rest k = Some x ->
                Booking.status b <> Cancelled -> Booking.status x <> Cancelled ->
                slotKey x <> slotKey b).
      { intros k x Hk Ab Ax Heq. destruct Hb as [Hb|Hb]; [congruence|].
        unfold slotKey in Heq. injection Heq as Hv Hd Ht.
        assert (T : isTimeSlotBooked rest (Booking.venueId b) (Booking.date b)
                                     (Booking.timeSlot b) = true).
        { apply isTimeSlotBooked_true_iff. exists x. repeat split; auto.
          eapply nth_error_In; eauto. }
        congruence. }
      destruct i as [|i], j as [|j]; simpl in H1, H2.
      * congruence.
      * injection H1 as <-. intros Heq. symmetry in Heq. revert Heq.
        now apply (Head j).
      * injection H2 as <-. now apply (Head i).
      * apply (U i j); auto.
    + intros U. split.
      * destruct (Booking.status b) eqn:Sb; auto; right;
          (destruct (isTimeSlotBooked rest (Booking.venueId b) (Booking.date b)
                                      (Booking.timeSlot b)) eqn:E; [|reflexivity]);
          apply isTimeSlotBooked_true_iff in E as (x & Hin & Hv & Hd & Ht & Hs);
          apply In_nth_error in Hin as [k Hk];
          exfalso; apply (U 0 (S k) b x); simpl; auto; try congruence;
          unfold slotKey; congruence.
      * intros i j b1 b2 Hij H1 H2. apply (U (S i) (S j)); simpl; auto.
Qed.

(** Every user action keeps [wizardInv]. *)
Lemma handle_wizardInv (ev : Event) (st : State) :
  wizardInv st -> wizardInv (handle ev st).
Proof.
  intros [U Sel]. destruct ev; simpl; try (split; assumption).
  - (* venue selected: no slot is selected any more *)
    split; [exact U|]. simpl; congruence.
  - split; [exact U|]. simpl; congruence.
  - (* slot selected: it is selected only when it is free *)
    unfold handleTimeSlotSelect. destruct (selectedVenue st) as [venue|] eqn:Hv.
    + destruct (truthy (selectedDate st)).
      * destruct (isTimeSlotBooked (bookings st) (Venue.id venue) (selectedDate st)
                                   timeSlotId) eqn:Hb.
        -- split; [exact U|]. simpl. rewrite Hv. exact Sel.
        -- split; [exact U|]. simpl. intros _. exists venue. now rewrite Hv.
      * split; [exact U|]. rewrite Hv. exact Sel.
    + split; [exact U|]. rewrite Hv. exact Sel.
  - (* form submitted: the new booking takes the selected, free slot *)
    unfold handleBookingSubmit. destruct (selectedVenue st) as [venue|] eqn:Hv.
    + destruct (negb (truthy (selectedDate st)) || negb (truthy (selectedTimeSlot st))
                || negb (truthy (trim (Form.purpose (bookingForm st))))) eqn:G.
      * split; [exact U|]. simpl. rewrite Hv. exact Sel.
      * apply orb_false_iff in G as [G _]. apply orb_false_iff in G as [_ G].
        apply negb_false_iff, truthy_true_iff in G.
        destruct (Sel G) as (venue' & Hv' & Free).
        injection Hv' as <-.
        split; simpl; [|congruence].
        apply uniqueActive_snoc; [exact U|exact Free].
    + split; [exact U|]. simpl. rewrite Hv. exact Sel.
  - (* cancellation frees slots, it takes none *)
    split; simpl.
    + now apply uniqueActive_cancelIn.
    + intros Hs. destruct (Sel Hs) as (venue & Hv & Free).
      exists venue. split; [exact Hv|]. now apply isTimeSlotBooked_cancelIn.
Qed.

Lemma run_wizardInv (evs : list Event) (st : State) :
  wizardInv st -> wizardInv (run evs st).
Proof.
  unfold run. revert st. induction evs as [|ev evs IH]; simpl; intros st H.
  - exact H.
  - apply IH. now apply handle_wizardInv.
Qed.

(** In variant A the store is consistent after every sequence of user
    actions that starts from a consistent store with no slot selected, and so
    after every sequence that starts from the empty store. *)
Theorem variantA_store_consistent (evs : list Event) (st : State) :
  uniqueActive (bookings st) ->
  selectedTimeSlot st = [] ->
  uniqueActive (bookings (run evs st)).
Proof.
  intros U S. apply (run_wizardInv evs). split; [exact U|]. congruence.
Qed.

Lemma variantA_store_consistent_from_empty (evs : list Event) :
  uniqueActive (bookings (run evs initialState)).
Proof. apply variantA_store_consistent; [apply uniqueActive_nil|reflexivity]. Qed.

(** The scenario of the specification: a booking on an empty store is
    pending; the same slot cannot be selected again, so a second submission
    is refused; after the cancellation the slot can be booked again. *)
Example book_refuse_cancel_rebook :
  let booked := run boardMeetingSession initialState in
  let again := run [ TimeSlotSelect (lit "9-10"); EditPurpose (lit "Review");
                     BookingSubmit (lit "booking_2") (lit "2027-03-09T10:05:00.000Z") ]
                   booked in
  let cancelled := run [ CancelBooking (lit "booking_1804672800000_k3x9q2m1z") ] again in
  let rebooked := run [ TimeSlotSelect (lit "9-10");
                        BookingSubmit (lit "booking_3") (lit "2027-03-09T10:10:00.000Z") ]
                      cancelled in
  map Booking.status (bookings booked) = [Pending]
  /\ bookings again = bookings booked
  /\ map Booking.status (bookings cancelled) = [Cancelled]
  /\ map Booking.status (bookings rebooked) = [Cancelled; Pending].
Proof. vm_compute. repeat split. Qed.

End InvariantA.

(** ** The lifecycle operations on a store *)

Module LifecycleA.
Import VariantA.

(** No booking of the store has the id. *)
Lemma cancelIn_absent (bookingId : jsstring) (bs : list Booking.t) :
  (forall b, In b bs -> Booking.id b <> bookingId) -> cancelIn bookingId bs = bs.
Proof.
  unfold cancelIn. induction bs as [|b bs IH]; simpl; intros H; [reflexivity|].
  assert (E : strictEq (Booking.id b) bookingId = false).
  { apply strictEq_false_iff. apply H. now left. }
  rewrite E. f_equal. apply IH. intros x Hx. apply H. now right.
Qed.

Lemma withStatus_same (b : Booking.t) : Booking.withStatus (Booking.status b) b = b.
Proof. now destruct b. Qed.

End LifecycleA.

Module LifecycleB.
Import VariantB.

Lemma setBookings_fixed (f : list Booking.t -> list Booking.t) (st : State) :
  f (bookings st) = bookings st -> setBookings f st = st.
Proof. destruct st as [u bs v d t o]. unfold setBookings; simpl. now intros ->. Qed.

Lemma updateIn_nth_error (bookingId : jsstring) (s : Decision)
    (bs : list Booking.t) (i : nat) :
  nth_error (updateIn bookingId s bs) i
  = option_map (fun b => if strictEq (Booking.id b) bookingId
                         then Booking.withStatus (statusOf s) b else b)
               (nth_error bs i).
Proof. unfold updateIn. apply nth_error_map. Qed.

Lemma updateIn_absent (bookingId : jsstring) (s : Decision) (bs : list Booking.t) :
  (forall b, In b bs -> Booking.id b <> bookingId) -> updateIn bookingId s bs = bs.
Proof.
  unfold updateIn. induction bs as [|b bs IH]; simpl; intros H; [reflexivity|].
  assert (E : strictEq (Booking.id b) bookingId = false).
  { apply strictEq_false_iff. apply H. now left. }
  rewrite E. f_equal. apply IH. intros x Hx. apply H. now right.
Qed.

Lemma deleteIn_absent (bookingId : jsstring) (bs : list Booking.t) :
  (forall b, In b bs -> Booking.id b <> bookingId) -> deleteIn bookingId bs = bs.
Proof.
  unfold deleteIn. induction bs as [|b bs IH]; simpl; intros H; [reflexivity|].
  assert (E : strictEq (Booking.id b) bookingId = false).
  { apply strictEq_false_iff. apply H. now left. }
  rewrite E. simpl. f_equal. apply IH. intros x Hx. apply H. now right.
Qed.

Lemma uniqueActive_seedBookings : uniqueActive seedBookings.
Proof.
  intros i j b1 b2 Hij H1 H2 _ _.
  destruct i as [|[|i]], j as [|[|j]]; simpl in H1, H2;
    try congruence;
    try (destruct i; discriminate H1);
    try (destruct j; discriminate H2);
    injection H1 as <-; injection H2 as <-; discriminate.
Qed.

End LifecycleB.

(** ** The properties of the specification *)

(** C2. In both variants [isTimeSlotBooked] answers true exactly when some
    booking of the store matches the venue id, the date and the time slot
    and has a status other than the negative terminal one (Cancelled in
    variant A, rejected in variant B). *)
Theorem isTimeSlotBooked_iff_active_match :
  (forall (bs : list VariantA.Booking.t) (venueId date timeSlot : jsstring),
      VariantA.isTimeSlotBooked bs venueId date timeSlot = true
      <-> exists b, In b bs
            /\ VariantA.Booking.venueId b = venueId
            /\ VariantA.Booking.date b = date
            /\ VariantA.Booking.timeSlot b = timeSlot
            /\ VariantA.Booking.status b <> VariantA.Cancelled)
  /\ (forall (bs : list VariantB.Booking.t) (venueId date timeSlot : jsstring),
      VariantB.isTimeSlotBooked bs venueId date timeSlot = true
      <-> exists b, In b bs
            /\ VariantB.Booking.venueId b = venueId
            /\ VariantB.Booking.date b = date
            /\ VariantB.Booking.timeSlot b = timeSlot
            /\ VariantB.Booking.status b <> VariantB.rejected).
Proof.
  split; intros bs venueId date timeSlot.
  - unfold VariantA.isTimeSlotBooked. rewrite existsb_exists.
    split; intros (b & Hin & H); exists b; (split; [exact Hin|]);
      now apply FactsA.occupies_true_iff.
  - unfold VariantB.isTimeSlotBooked. rewrite existsb_exists.
    split; intros (b & Hin & H); exists b; (split; [exact Hin|]);
      now apply FactsB.occupies_true_iff_B.
Qed.

(** C8. In both variants [isTimeSlotBooked] gives the same answer on two
    stores that are permutations of each other: the answer depends on which
    bookings the store holds, not on their order. (The checker returns a
    boolean only; the store it reads is not changed.) *)
Theorem isTimeSlotBooked_order_independent
    (bsA bsA' : list VariantA.Booking.t) (bsB bsB' : list VariantB.Booking.t)
    (venueId date timeSlot : jsstring) :
  Permutation bsA bsA' ->
  Permutation bsB bsB' ->
  VariantA.isTimeSlotBooked bsA venueId date timeSlot
    = VariantA.isTimeSlotBooked bsA' venueId date timeSlot
  /\ VariantB.isTimeSlotBooked bsB venueId date timeSlot
    = VariantB.isTimeSlotBooked bsB' venueId date timeSlot.
Proof.
  intros HA HB. split.
  - unfold VariantA.isTimeSlotBooked.
    induction HA as [|b l l' _ IH|a b l|l l' l'' _ IH1 _ IH2]; simpl.
    + reflexivity.
    + now rewrite IH.
    + rewrite !orb_assoc. f_equal. apply orb_comm.
    + now rewrite IH1.
  - unfold VariantB.isTimeSlotBooked.
    induction HB as [|b l l' _ IH|a b l|l l' l'' _ IH1 _ IH2]; simpl.
    + reflexivity.
    + now rewrite IH.
    + rewrite !orb_assoc. f_equal. apply orb_comm.
    + now rewrite IH1.
Qed.

Lemma isTimeSlotBooked_order_independent_witness :
  Permutation [VariantA.approvedBooking;
               VariantA.Booking.withStatus VariantA.Cancelled VariantA.approvedBooking]
              [VariantA.Booking.withStatus VariantA.Cancelled VariantA.approvedBooking;
               VariantA.approvedBooking]
  /\ Permutation VariantB.seedBookings (rev VariantB.seedBookings)
  /\ (VariantA.isTimeSlotBooked
        [VariantA.approvedBooking;
         VariantA.Booking.withStatus VariantA.Cancelled VariantA.approvedBooking]
        (lit "auditorium") (lit "2027-03-10") (lit "9-10")
      = VariantA.isTimeSlotBooked
          [VariantA.Booking.withStatus VariantA.Cancelled VariantA.approvedBooking;
           VariantA.approvedBooking]
          (lit "auditorium") (lit "2027-03-10") (lit "9-10")
      /\ VariantB.isTimeSlotBooked VariantB.seedBookings
           (lit "auditorium") (lit "2027-03-10") (lit "9-10")
         = VariantB.isTimeSlotBooked (rev VariantB.seedBookings)
             (lit "auditorium") (lit "2027-03-10") (lit "9-10")).
Proof.
  split; [apply perm_swap|]. split; [apply perm_swap|].
  apply isTimeSlotBooked_order_independent; apply perm_swap.
Defined.

(** C5. [handleCancelBooking] keeps the length and the order of the store;
    the booking at each position keeps its id, venueId, venueName, date,
    timeSlot, bookerName, department, purpose and createdAt; its status is
    the old one or Cancelled; and a booking with another id is unchanged. *)
Theorem handleCancelBooking_changes_status_only
    (bookingId : jsstring) (st : VariantA.State) :
  length (VariantA.bookings (VariantA.handleCancelBooking bookingId st))
    = length (VariantA.bookings st)
  /\ forall i b,
      nth_error (VariantA.bookings st) i = Some b ->
      exists b',
        nth_error (VariantA.bookings (VariantA.handleCancelBooking bookingId st)) i
          = Some b'
        /\ VariantA.Booking.id b' = VariantA.Booking.id b
        /\ VariantA.Booking.venueId b' = VariantA.Booking.venueId b
        /\ VariantA.Booking.venueName b' = VariantA.Booking.venueName b
        /\ VariantA.Booking.date b' = VariantA.Booking.date b
        /\ VariantA.Booking.timeSlot b' = VariantA.Booking.timeSlot b
        /\ VariantA.Booking.bookerName b' = VariantA.Booking.bookerName b
        /\ VariantA.Booking.department b' = VariantA.Booking.department b
        /\ VariantA.Booking.purpose b' = VariantA.Booking.purpose b
        /\ VariantA.Booking.createdAt b' = VariantA.Booking.createdAt b
        /\ (VariantA.Booking.status b' = VariantA.Booking.status b
            \/ VariantA.Booking.status b' = VariantA.Cancelled)
        /\ (VariantA.Booking.id b <> bookingId -> b' = b).
Proof.
  simpl. split.
  - unfold VariantA.cancelIn. apply length_map.
  - intros i b Hi. rewrite InvariantA.cancelIn_nth_error, Hi. simpl.
    destruct (strictEq (VariantA.Booking.id b) bookingId) eqn:E.
    + exists (VariantA.Booking.withStatus VariantA.Cancelled b).
      apply strictEq_true_iff in E. simpl. repeat split; auto. congruence.
    + exists b. repeat split; auto.
Qed.

Lemma handleCancelBooking_changes_status_only_witness :
  nth_error (VariantA.bookings VariantA.approvedStore) 0 = Some VariantA.approvedBooking
  /\ exists b',
       nth_error
         (VariantA.bookings
            (VariantA.handleCancelBooking (lit "booking_1804672800000_k3x9q2m1z")
               VariantA.approvedStore)) 0 = Some b'
       /\ VariantA.Booking.venueId b' = lit "auditorium"
       /\ VariantA.Booking.date b' = lit "2027-03-10"
       /\ VariantA.Booking.timeSlot b' = lit "9-10"
       /\ VariantA.Booking.purpose b' = lit "Board Meeting".
Proof.
  split; [reflexivity|].
  destruct (proj2 (handleCancelBooking_changes_status_only
                     (lit "booking_1804672800000_k3x9q2m1z") VariantA.approvedStore)
                  0 VariantA.approvedBooking eq_refl)
    as (b' & H & _ & Hv & _ & Hd & Ht & _ & _ & Hp & _).
  exists b'. split; [exact H|]. split; [exact Hv|]. split; [exact Hd|].
  split; [exact Ht|exact Hp].
Defined.

(** C10. When no booking of the store has the given id, cancel (variant A)
    leaves the bookings list as it is, and the status change and the delete
    (variant B) leave the whole state as it is. *)
Theorem unknown_id_changes_no_booking
    (stA : VariantA.State) (stB : VariantB.State) (bookingId : jsstring)
    (s : VariantB.Decision) :
  (forall b, In b (VariantA.bookings stA) -> VariantA.Booking.id b <> bookingId) ->
  (forall b, In b (VariantB.bookings stB) -> VariantB.Booking.id b <> bookingId) ->
  VariantA.bookings (VariantA.handleCancelBooking bookingId stA) = VariantA.bookings stA
  /\ VariantB.updateBookingStatus bookingId s stB = stB
  /\ VariantB.deleteBooking bookingId stB = stB.
Proof.
  intros HA HB. repeat split.
  - simpl. now apply LifecycleA.cancelIn_absent.
  - apply LifecycleB.setBookings_fixed. now apply LifecycleB.updateIn_absent.
  - apply LifecycleB.setBookings_fixed. now apply LifecycleB.deleteIn_absent.
Qed.

Lemma unknown_id_changes_no_booking_witness :
  (forall b, In b (VariantA.bookings
                     (VariantA.run VariantA.boardMeetingSession VariantA.initialState)) ->
             VariantA.Booking.id b <> lit "3")
  /\ (forall b, In b (VariantB.bookings (VariantB.initialState None)) ->
                VariantB.Booking.id b <> lit "3")
  /\ (VariantA.bookings
        (VariantA.handleCancelBooking (lit "3")
           (VariantA.run VariantA.boardMeetingSession VariantA.initialState))
      = VariantA.bookings
          (VariantA.run VariantA.boardMeetingSession VariantA.initialState)
      /\ VariantB.updateBookingStatus (lit "3") VariantB.Reject
           (VariantB.initialState None) = VariantB.initialState None
      /\ VariantB.deleteBooking (lit "3") (VariantB.initialState None)
         = VariantB.initialState None).
Proof.
  assert (HA : forall b,
             In b (VariantA.bookings
                     (VariantA.run VariantA.boardMeetingSession VariantA.initialState)) ->
             VariantA.Booking.id b <> lit "3").
  { intros b [<-|[]]. vm_compute. discriminate. }
  assert (HB : forall b, In b (VariantB.bookings (VariantB.initialState None)) ->
                         VariantB.Booking.id b <> lit "3").
  { intros b [<-|[<-|[]]]; vm_compute; discriminate. }
  split; [exact HA|]. split; [exact HB|].
  exact (unknown_id_changes_no_booking
           (VariantA.run VariantA.boardMeetingSession VariantA.initialState)
           (VariantB.initialState None) (lit "3") VariantB.Reject HA HB).
Defined.

(** C3, as the code has it. [updateBookingStatus] sets the status of every
    booking with the given id to the given status, whatever the status was,
    and leaves a booking with another id as it is. What keeps a terminal
    booking from changing is the rendering: the approve and reject controls
    are on the card of a pending booking only, so that a click on the card
    of a booking that is not pending changes nothing. *)
Theorem updateBookingStatus_unguarded_controls_gated
    (bookingId : jsstring) (s : VariantB.Decision) (st : VariantB.State)
    (i : nat) (b : VariantB.Booking.t) :
  nth_error (VariantB.bookings st) i = Some b ->
  (VariantB.Booking.id b = bookingId ->
     nth_error (VariantB.bookings (VariantB.updateBookingStatus bookingId s st)) i
     = Some (VariantB.Booking.withStatus (VariantB.statusOf s) b))
  /\ (VariantB.Booking.id b <> bookingId ->
     nth_error (VariantB.bookings (VariantB.updateBookingStatus bookingId s st)) i
     = Some b)
  /\ (VariantB.Booking.status b <> VariantB.pending ->
     VariantB.clickStatusControl i s st = st).
Proof.
  intros Hi. repeat split.
  - intros E. apply strictEq_true_iff in E. simpl.
    now rewrite LifecycleB.updateIn_nth_error, Hi; simpl; rewrite E.
  - intros E. apply strictEq_false_iff in E. simpl.
    now rewrite LifecycleB.updateIn_nth_error, Hi; simpl; rewrite E.
  - intros T. unfold VariantB.clickStatusControl. rewrite Hi.
    unfold VariantB.statusControlsShown. destruct (VariantB.user st); [|reflexivity].
    apply FactsB.Status_eqb_false_iff_B in T. rewrite T.
    now rewrite andb_false_r.
Qed.

Lemma updateBookingStatus_unguarded_controls_gated_witness :
  nth_error (VariantB.bookings (VariantB.initialState None)) 0
    = hd_error VariantB.seedBookings
  /\ nth_error
       (VariantB.bookings
          (VariantB.updateBookingStatus (lit "1") VariantB.Reject
             (VariantB.initialState None))) 0
     = option_map (VariantB.Booking.withStatus VariantB.rejected)
                  (hd_error VariantB.seedBookings)
  /\ VariantB.clickStatusControl 0 VariantB.Reject (VariantB.initialState None)
     = VariantB.initialState None.
Proof.
  split; [reflexivity|].
  pose proof (updateBookingStatus_unguarded_controls_gated (lit "1") VariantB.Reject
                (VariantB.initialState None) 0 _ eq_refl) as (Hsame & _ & Hgate).
  split.
  - apply Hsame. reflexivity.
  - apply Hgate. simpl. discriminate.
Defined.

(** C3, as stated, fails: a reject call on the approved booking of the
    initial store makes it rejected. *)
Lemma updateBookingStatus_rejects_approved :
  map VariantB.Booking.status (VariantB.bookings (VariantB.initialState None))
    = [VariantB.approved; VariantB.pending]
  /\ map VariantB.Booking.status
       (VariantB.bookings
          (VariantB.updateBookingStatus (lit "1") VariantB.Reject
             (VariantB.initialState None)))
     = [VariantB.rejected; VariantB.pending].
Proof. split; reflexivity. Qed.

(** C4, as the code has it. [handleCancelBooking] sets the status of every
    booking with the given id to Cancelled, whatever the status was, and
    leaves a booking with another id as it is. The restriction to pending
    bookings is made by the rendering: the cancel control is on the card of
    a pending booking only, so that a click on the card of a booking that is
    not pending changes nothing. *)
Theorem handleCancelBooking_unguarded_control_gated
    (bookingId : jsstring) (st : VariantA.State) (i : nat) (b : VariantA.Booking.t) :
  nth_error (VariantA.bookings st) i = Some b ->
  (VariantA.Booking.id b = bookingId ->
     nth_error (VariantA.bookings (VariantA.handleCancelBooking bookingId st)) i
     = Some (VariantA.Booking.withStatus VariantA.Cancelled b))
  /\ (VariantA.Booking.id b <> bookingId ->
     nth_error (VariantA.bookings (VariantA.handleCancelBooking bookingId st)) i
     = Some b)
  /\ (VariantA.Booking.status b <> VariantA.Pending ->
     VariantA.clickCancel i st = st).
Proof.
  intros Hi. repeat split.
  - intros E. apply strictEq_true_iff in E. simpl.
    now rewrite InvariantA.cancelIn_nth_error, Hi; simpl; rewrite E.
  - intros E. apply strictEq_false_iff in E. simpl.
    now rewrite InvariantA.cancelIn_nth_error, Hi; simpl; rewrite E.
  - intros T. unfold VariantA.clickCancel. rewrite Hi.
    unfold VariantA.cancelControlShown.
    apply FactsA.Status_eqb_false_iff in T. rewrite T.
    now rewrite andb_false_r.
Qed.

Lemma handleCancelBooking_unguarded_control_gated_witness :
  nth_error (VariantA.bookings VariantA.approvedStore) 0
    = Some VariantA.approvedBooking
  /\ nth_error
       (VariantA.bookings
          (VariantA.handleCancelBooking (VariantA.Booking.id VariantA.approvedBooking)
             VariantA.approvedStore)) 0
     = Some (VariantA.Booking.withStatus VariantA.Cancelled VariantA.approvedBooking)
  /\ VariantA.clickCancel 0 VariantA.approvedStore = VariantA.approvedStore.
Proof.
  split; [reflexivity|].
  pose proof (handleCancelBooking_unguarded_control_gated
                (VariantA.Booking.id VariantA.approvedBooking)
                VariantA.approvedStore 0 _ eq_refl) as (Hsame & _ & Hgate).
  split.
  - apply Hsame. reflexivity.
  - apply Hgate. simpl. discriminate.
Defined.

(** C4, as stated, fails: cancelling by its id an approved booking changes
    the store, the booking becomes Cancelled. *)
Lemma handleCancelBooking_cancels_approved :
  map VariantA.Booking.status (VariantA.bookings VariantA.approvedStore)
    = [VariantA.Approved]
  /\ map VariantA.Booking.status
       (VariantA.bookings
          (VariantA.handleCancelBooking (VariantA.Booking.id VariantA.approvedBooking)
             VariantA.approvedStore))
     = [VariantA.Cancelled]
  /\ VariantA.bookings
       (VariantA.handleCancelBooking (VariantA.Booking.id VariantA.approvedBooking)
          VariantA.approvedStore)
     <> VariantA.bookings VariantA.approvedStore.
Proof. split; [reflexivity|]. split; [reflexivity|discriminate]. Qed.




(** C7, as the code has it. With no value at the bookings key, or the empty
    string, the bookings state stays the empty list. Any other value goes to
    [JSON.parse] with no error handling and no check of the shape: when the
    text is valid JSON the parsed value, whatever it is, becomes the bookings
    state, and when it is not the load throws the syntax error. *)
Theorem loadBookings_absent_or_parsed :
  VariantA.loadBookings None = Returns (JArray [])
  /\ VariantA.loadBookings (Some []) = Returns (JArray [])
  /\ (forall text v, JSON_parse text = Returns v ->
                     VariantA.loadBookings (Some text) = Returns v)
  /\ (forall text, text <> [] -> JSON_parse text = ThrowsSyntaxError ->
                   VariantA.loadBookings (Some text) = ThrowsSyntaxError)
  /\ (forall savedBookings, VariantA.loadBookings savedBookings <> Diverges).
Proof.
  split; [reflexivity|]. split; [reflexivity|]. split; [|split].
  - intros [|c text] v H; [discriminate H|exact H].
  - intros [|c text] Hne H; [congruence|exact H].
  - intros [[|c text]|]; simpl; try discriminate. apply JSON_parse_total.
Qed.

Lemma loadBookings_absent_or_parsed_witness :
  JSON_parse (lit "[]") = Returns (JArray [])
  /\ VariantA.loadBookings (Some (lit "[]")) = Returns (JArray [])
  /\ lit "[1,]" <> []
  /\ JSON_parse (lit "[1,]") = ThrowsSyntaxError
  /\ VariantA.loadBookings (Some (lit "[1,]")) = ThrowsSyntaxError.
Proof.
  destruct loadBookings_absent_or_parsed as (_ & _ & Hparsed & Hthrown & _).
  split; [reflexivity|]. split; [apply Hparsed; reflexivity|].
  split; [discriminate|]. split; [reflexivity|].
  apply Hthrown; [discriminate|reflexivity].
Defined.

(** C7, as stated, fails: a stored value that is no JSON text makes the load
    throw, and a stored JSON value that is no array becomes the bookings
    state; neither gives the empty list. *)
Lemma loadBookings_malformed_not_empty :
  VariantA.loadBookings (Some (lit "not json")) = ThrowsSyntaxError
  /\ VariantA.loadBookings (Some (lit "{}")) = Returns (JObject [])
  /\ VariantA.loadBookings (Some (lit "not json")) <> Returns (JArray [])
  /\ VariantA.loadBookings (Some (lit "{}")) <> Returns (JArray []).
Proof.
  split; [reflexivity|]. split; [reflexivity|]. split; vm_compute; discriminate.
Qed.

(** C9, as the code has it. In variant A the venue selection sets the
    selected venue, empties the selected date and the selected slot and
    closes the booking form. In variant B it sets the selected venue and
    opens the booking dialog. Neither touches the store. *)
Theorem venue_selection_effect
    (venueA : VariantA.Venue.t) (stA : VariantA.State)
    (venueB : VariantB.Venue.t) (stB : VariantB.State) :
  (VariantA.selectedVenue (VariantA.handleVenueSelect venueA stA) = Some venueA
   /\ VariantA.selectedDate (VariantA.handleVenueSelect venueA stA) = []
   /\ VariantA.selectedTimeSlot (VariantA.handleVenueSelect venueA stA) = []
   /\ VariantA.showBookingForm (VariantA.handleVenueSelect venueA stA) = false
   /\ VariantA.bookings (VariantA.handleVenueSelect venueA stA) = VariantA.bookings stA)
  /\ (VariantB.selectedVenue (VariantB.handleBookVenue venueB stB) = Some venueB
      /\ VariantB.isBookingDialogOpen (VariantB.handleBookVenue venueB stB) = true
      /\ VariantB.bookings (VariantB.handleBookVenue venueB stB) = VariantB.bookings stB).
Proof. split; repeat (split; try reflexivity). Qed.

(** C9, as stated, fails in variant B: after the venue selection the dialog
    is open, and the date and the slot selected before are still selected. *)
Lemma handleBookVenue_opens_dialog_keeps_date :
  VariantB.isBookingDialogOpen
    (VariantB.handleBookVenue VariantB.mainAuditorium VariantB.readyToSubmit) = true
  /\ VariantB.selectedDate
       (VariantB.handleBookVenue VariantB.mainAuditorium VariantB.readyToSubmit)
     = lit "2027-03-10"
  /\ VariantB.selectedTimeSlot
       (VariantB.handleBookVenue VariantB.mainAuditorium VariantB.readyToSubmit)
     = lit "09:00-10:00".
Proof. split; [reflexivity|]. split; reflexivity. Qed.

(** C1 on variant B. The initial store is consistent, and the session
    [staleSlotSession], in which a slot picked on a free day stays selected
    when the date is changed to a day on which it is booked, ends with two
    pending bookings on one (venue, date, slot). *)
Theorem variantB_stale_slot_books_twice :
  VariantB.uniqueActive (VariantB.bookings (VariantB.initialState (Some VariantB.facultyUser)))
  /\ VariantB.uniqueActiveb
       (VariantB.bookings
          (VariantB.run VariantB.staleSlotSession
             (VariantB.initialState (Some VariantB.facultyUser)))) = false
  /\ ~ VariantB.uniqueActive
         (VariantB.bookings
            (VariantB.run VariantB.staleSlotSession
               (VariantB.initialState (Some VariantB.facultyUser))))
  /\ exists b1 b2,
       nth_error (VariantB.bookings
                    (VariantB.run VariantB.staleSlotSession
                       (VariantB.initialState (Some VariantB.facultyUser)))) 2 = Some b1
       /\ nth_error (VariantB.bookings
                       (VariantB.run VariantB.staleSlotSession
                          (VariantB.initialState (Some VariantB.facultyUser)))) 3 = Some b2
       /\ VariantB.Booking.status b1 = VariantB.pending
       /\ VariantB.Booking.status b2 = VariantB.pending
       /\ VariantB.slotKey b1 = VariantB.slotKey b2.
Proof.
  split; [apply LifecycleB.uniqueActive_seedBookings|].
  split; [vm_compute; reflexivity|].
  assert (E : exists b1 b2,
       nth_error (VariantB.bookings
                    (VariantB.run VariantB.staleSlotSession
                       (VariantB.initialState (Some VariantB.facultyUser)))) 2 = Some b1
       /\ nth_error (VariantB.bookings
                       (VariantB.run VariantB.staleSlotSession
                          (VariantB.initialState (Some VariantB.facultyUser)))) 3 = Some b2
       /\ VariantB.Booking.status b1 = VariantB.pending
       /\ VariantB.Booking.status b2 = VariantB.pending
       /\ VariantB.slotKey b1 = VariantB.slotKey b2).
  { eexists. eexists. split; [vm_compute; reflexivity|].
    split; [vm_compute; reflexivity|]. split; [reflexivity|]. split; reflexivity. }
  split; [|exact E].
  destruct E as (b1 & b2 & H1 & H2 & S1 & S2 & K). intros U.
  apply (U 2 3 b1 b2); auto; congruence.
Qed.

(** ** [JSON.parse]: the fuel does not matter *)

Module JSONFuelFacts.
Import JSONFuel.

Lemma consumes_not_OutOfFuel {A : Type} (s : jsstring) (p : Parse A) :
  consumes s p -> p <> OutOfFuel.
Proof. destruct p; simpl; intros H; [discriminate|discriminate|contradiction]. Qed.

Lemma parseValue_S (f : nat) (s : jsstring) :
  parseValue (S f) s = valueStep (parseElements f) (parseMembers f) s.
Proof. reflexivity. Qed.

Lemma parseElements_S (f : nat) (s : jsstring) :
  parseElements (S f) s = elementsStep (parseValue f) (parseElements f) s.
Proof. reflexivity. Qed.

Lemma parseMembers_S (f : nat) (s : jsstring) :
  parseMembers (S f) s = membersStep (parseValue f) (parseMembers f) s.
Proof. reflexivity. Qed.

Lemma valueStep_refines el el' mem mem' :
  refines el el' -> refines mem mem' ->
  refines (valueStep el mem) (valueStep el' mem').
Proof.
  intros He Hm s. unfold valueStep.
  destruct (skipWs s) as [|c r]; [reflexivity|].
  destruct (N.eqb c 123).
  { destruct (skipWs r) as [|c' r']; [reflexivity|].
    destruct (N.eqb c' 125); [reflexivity|].
    intros H. rewrite (Hm r); [reflexivity|].
    intros E. rewrite E in H. now apply H. }
  destruct (N.eqb c 91); [|reflexivity].
  destruct (skipWs r) as [|c' r']; [reflexivity|].
  destruct (N.eqb c' 93); [reflexivity|].
  intros H. rewrite (He r); [reflexivity|].
  intros E. rewrite E in H. now apply H.
Qed.

Lemma elementsStep_refines val val' el el' :
  refines val val' -> refines el el' ->
  refines (elementsStep val el) (elementsStep val' el').
Proof.
  intros Hv He s. unfold elementsStep. intros H.
  rewrite (Hv s); [|intros E; rewrite E in H; now apply H].
  destruct (val s) as [v r| |]; try reflexivity.
  destruct (skipWs r) as [|c r']; [reflexivity|].
  destruct (N.eqb c 44); [|reflexivity].
  rewrite (He r'); [reflexivity|].
  intros E. rewrite E in H. now apply H.
Qed.

Lemma membersStep_refines val val' mem mem' :
  refines val val' -> refines mem mem' ->
  refines (membersStep val mem) (membersStep val' mem').
Proof.
  intros Hv Hm s. unfold membersStep.
  destruct (skipWs s) as [|q r]; [reflexivity|].
  destruct (N.eqb q 34); [|reflexivity].
  destruct (parseChars r) as [[key r1]|]; [|reflexivity].
  destruct (skipWs r1) as [|c r2]; [reflexivity|].
  destruct (N.eqb c 58); [|reflexivity].
  intros H.
  rewrite (Hv r2); [|intros E; rewrite E in H; now apply H].
  destruct (val r2) as [v r3| |]; try reflexivity.
  destruct (skipWs r3) as [|c' r4]; [reflexivity|].
  destruct (N.eqb c' 44); [|reflexivity].
  rewrite (Hm r4); [reflexivity|].
  intros E. rewrite E in H. now apply H.
Qed.

(** One more unit of fuel changes no answer. *)
Lemma parse_mono (f : nat) :
  refines (parseValue f) (parseValue (S f))
  /\ refines (parseElements f) (parseElements (S f))
  /\ refines (parseMembers f) (parseMembers (S f)).
Proof.
  induction f as [|f (IHv & IHe & IHm)].
  - repeat split; intros s H; now contradiction H.
  - repeat split; intros s H.
    + rewrite (parseValue_S (S f)), (parseValue_S f).
      apply valueStep_refines; assumption.
    + rewrite (parseElements_S (S f)), (parseElements_S f).
      apply elementsStep_refines; assumption.
    + rewrite (parseMembers_S (S f)), (parseMembers_S f).
      apply membersStep_refines; assumption.
Qed.

Lemma parseValue_stable (f : nat) (s : jsstring) :
  2 * length s + 1 <= f -> parseValue f s = parseV s.
Proof.
  unfold parseV. induction 1 as [|f Hle IH]; [reflexivity|].
  rewrite <- IH. apply (proj1 (parse_mono f)).
  apply consumes_not_OutOfFuel with (s := s). now apply parse_fuel.
Qed.

Lemma parseElements_stable (f : nat) (s : jsstring) :
  2 * length s + 2 <= f -> parseElements f s = parseE s.
Proof.
  unfold parseE. induction 1 as [|f Hle IH]; [reflexivity|].
  rewrite <- IH. apply (proj1 (proj2 (parse_mono f))).
  apply consumes_not_OutOfFuel with (s := s). now apply parse_fuel.
Qed.

Lemma parseMembers_stable (f : nat) (s : jsstring) :
  2 * length s + 2 <= f -> parseMembers f s = parseM s.
Proof.
  unfold parseM. induction 1 as [|f Hle IH]; [reflexivity|].
  rewrite <- IH. apply (proj2 (proj2 (parse_mono f))).
  apply consumes_not_OutOfFuel with (s := s). now apply parse_fuel.
Qed.

Lemma parseV_consumes (s : jsstring) : consumes s (parseV s).
Proof. apply parse_fuel. lia. Qed.

(** The equations of the three parsers. *)
Lemma parseV_eq (s : jsstring) : parseV s = valueStep parseE parseM s.
Proof.
  unfold parseV. replace (2 * length s + 1) with (S (2 * length s)) by lia.
  rewrite parseValue_S. unfold valueStep.
  destruct (skipWs s) as [|c r] eqn:Hs; [reflexivity|].
  apply skipWs_cons in Hs.
  rewrite (parseElements_stable (2 * length s) r) by lia.
  rewrite (parseMembers_stable (2 * length s) r) by lia.
  reflexivity.
Qed.

Lemma parseE_eq (s : jsstring) : parseE s = elementsStep parseV parseE s.
Proof.
  unfold parseE at 1. replace (2 * length s + 2) with (S (2 * length s + 1)) by lia.
  rewrite parseElements_S. unfold elementsStep.
  fold (parseV s). pose proof (parseV_consumes s) as C.
  destruct (parseV s) as [v r| |]; try reflexivity. simpl in C.
  destruct (skipWs r) as [|c r'] eqn:Hr; [reflexivity|].
  apply skipWs_cons in Hr.
  rewrite (parseElements_stable (2 * length s + 1) r') by lia.
  reflexivity.
Qed.

Lemma parseM_eq (s : jsstring) : parseM s = membersStep parseV parseM s.
Proof.
  unfold parseM at 1. replace (2 * length s + 2) with (S (2 * length s + 1)) by lia.
  rewrite parseMembers_S. unfold membersStep.
  destruct (skipWs s) as [|q r] eqn:Hs; [reflexivity|].
  apply skipWs_cons in Hs.
  destruct (N.eqb q 34); [|reflexivity].
  destruct (parseChars r) as [[key r1]|] eqn:Hk; [|reflexivity].
  apply parseChars_length in Hk.
  destruct (skipWs r1) as [|c r2] eqn:H1; [reflexivity|].
  apply skipWs_cons in H1.
  destruct (N.eqb c 58); [|reflexivity].
  rewrite (parseValue_stable (2 * length s + 1) r2) by lia.
  pose proof (parseV_consumes r2) as C.
  destruct (parseV r2) as [v r3| |]; try reflexivity. simpl in C.
  destruct (skipWs r3) as [|c' r4] eqn:H3; [reflexivity|].
  apply skipWs_cons in H3.
  rewrite (parseMembers_stable (2 * length s + 1) r4) by lia.
  reflexivity.
Qed.

Lemma JSON_parse_eq (text : jsstring) :
  JSON_parse text
  = match parseV text with
    | Ok v rest => match skipWs rest with
                   | [] => Returns v
                   | _ :: _ => ThrowsSyntaxError
                   end
    | SyntaxError => ThrowsSyntaxError
    | OutOfFuel => Diverges
    end.
Proof. reflexivity. Qed.

End JSONFuelFacts.

(** ** Variant A: what is saved is what is loaded *)

Module PersistenceFacts.
Import VariantA Persistence JSONFuel JSONFuelFacts.

Lemma hexVal_hexDigit (n : N) : (n < 16)%N -> hexVal (hexDigit n) = Some n.
Proof.
  intros H. unfold hexDigit, hexVal, isDigit.
  destruct (N.ltb_spec n 10) as [L|L].
  - replace ((48 <=? 48 + n) && (48 + n <=? 57))%N with true.
    + f_equal. lia.
    + symmetry. apply andb_true_iff. split; apply N.leb_le; lia.
  - replace ((48 <=? 87 + n) && (87 + n <=? 57))%N with false.
    + replace ((97 <=? 87 + n) && (87 + n <=? 102))%N with true.
      * f_equal. lia.
      * symmetry. apply andb_true_iff. split; apply N.leb_le; lia.
    + symmetry. apply andb_false_iff. right. apply N.leb_gt. lia.
Qed.

Lemma hex4_escape (c : N) :
  (c < 65536)%N ->
  hex4 (hexDigit (c / 4096)) (hexDigit ((c / 256) mod 16))
       (hexDigit ((c / 16) mod 16)) (hexDigit (c mod 16)) = Some c.
Proof.
  intros H. unfold hex4.
  assert (H3 : (c / 4096 < 16)%N) by (apply N.Div0.div_lt_upper_bound; lia).
  assert (H2 : ((c / 256) mod 16 < 16)%N) by (apply N.mod_lt; lia).
  assert (H1 : ((c / 16) mod 16 < 16)%N) by (apply N.mod_lt; lia).
  assert (H0 : (c mod 16 < 16)%N) by (apply N.mod_lt; lia).
  rewrite !hexVal_hexDigit by assumption. f_equal.
  pose proof (N.div_mod c 16 ltac:(lia)) as E0.
  pose proof (N.div_mod (c / 16) 16 ltac:(lia)) as E1.
  pose proof (N.div_mod (c / 256) 16 ltac:(lia)) as E2.
  replace (c / 16 / 16)%N with (c / 256)%N in E1
    by (rewrite N.Div0.div_div; reflexivity).
  replace (c / 256 / 16)%N with (c / 4096)%N in E2
    by (rewrite N.Div0.div_div; reflexivity).
  lia.
Qed.

Lemma parseChars_literal (c : N) (text : jsstring) :
  c <> 34%N -> c <> 92%N -> (32 <= c)%N ->
  parseChars (c :: text) = consChar c (parseChars text).
Proof.
  intros H1 H2 H3. simpl.
  apply N.eqb_neq in H1, H2. rewrite H1, H2.
  replace (c <? 32)%N with false; [reflexivity|].
  symmetry. now apply N.ltb_ge.
Qed.

Lemma parseChars_unicodeEscape (c : N) (text : jsstring) :
  (c < 65536)%N ->
  parseChars (unicodeEscape c ++ text) = consChar c (parseChars text).
Proof.
  intros H. unfold unicodeEscape. cbn [app parseChars].
  change (92 =? 34)%N with false. change (92 =? 92)%N with true.
  change (117 =? 117)%N with true. cbv iota.
  now rewrite hex4_escape.
Qed.

Lemma parseChars_quoteUnit (c : N) (text : jsstring) :
  isLeadingSurrogate c = false ->
  parseChars (quoteUnit c ++ text) = consChar c (parseChars text).
Proof.
  intros Hl. unfold quoteUnit.
  destruct (N.eqb_spec c 8) as [->|N8]; [reflexivity|].
  destruct (N.eqb_spec c 9) as [->|N9]; [reflexivity|].
  destruct (N.eqb_spec c 10) as [->|N10]; [reflexivity|].
  destruct (N.eqb_spec c 12) as [->|N12]; [reflexivity|].
  destruct (N.eqb_spec c 13) as [->|N13]; [reflexivity|].
  destruct (N.eqb_spec c 34) as [->|N34]; [reflexivity|].
  destruct (N.eqb_spec c 92) as [->|N92]; [reflexivity|].
  destruct ((c <? 32)%N || isTrailingSurrogate c) eqn:E.
  - apply parseChars_unicodeEscape.
    apply orb_true_iff in E as [E|E].
    + apply N.ltb_lt in E. lia.
    + unfold isTrailingSurrogate in E. apply andb_true_iff in E as [_ E].
      apply N.leb_le in E. lia.
  - apply orb_false_iff in E as [E _]. apply N.ltb_ge in E.
    now apply parseChars_literal.
Qed.

(** Reading back a quoted string gives the string. *)
Lemma parseChars_quoteBody (s rest : jsstring) :
  parseChars (quoteBody s ++ 34%N :: rest) = Some (s, rest).
Proof.
  assert (G : forall n s, length s <= n ->
                parseChars (quoteBody s ++ 34%N :: rest) = Some (s, rest)).
  { clear s. induction n as [|n IH]; intros s Hn.
    - destruct s; [reflexivity|simpl in Hn; lia].
    - destruct s as [|c r]; [reflexivity|]. simpl in Hn. cbn [quoteBody].
      destruct (isLeadingSurrogate c) eqn:Hl.
      + assert (Hc : (55296 <= c <= 56319)%N).
        { unfold isLeadingSurrogate in Hl. apply andb_true_iff in Hl as [A B].
          apply N.leb_le in A, B. lia. }
        destruct r as [|d r'].
        * rewrite parseChars_unicodeEscape by lia. reflexivity.
        * destruct (isTrailingSurrogate d) eqn:Ht.
          -- assert (Hd : (56320 <= d <= 57343)%N).
             { unfold isTrailingSurrogate in Ht. apply andb_true_iff in Ht as [A B].
               apply N.leb_le in A, B. lia. }
             cbn [app]. rewrite parseChars_literal by lia.
             rewrite parseChars_literal by lia.
             rewrite IH by (simpl in Hn; lia). reflexivity.
          -- rewrite <- app_assoc, parseChars_unicodeEscape by lia.
             rewrite IH by lia. reflexivity.
      + rewrite <- app_assoc, parseChars_quoteUnit by assumption.
        rewrite IH by lia. reflexivity. }
  now apply (G (length s)).
Qed.

Lemma quote_app (s rest : jsstring) :
  quote s ++ rest = 34%N :: quoteBody s ++ 34%N :: rest.
Proof. unfold quote. simpl. now rewrite <- app_assoc. Qed.

Lemma parseV_quote (s rest : jsstring) :
  parseV (quote s ++ rest) = Ok (JString s) rest.
Proof.
  rewrite quote_app, parseV_eq. unfold valueStep. cbn [skipWs].
  change (isJSONWhiteSpace 34) with false. cbv iota.
  change (34 =? 123)%N with false. change (34 =? 91)%N with false.
  change (34 =? 34)%N with true. cbv iota.
  now rewrite parseChars_quoteBody.
Qed.

Lemma separated_app {A : Type} (item : A -> jsstring) (close : N) (xs : list A)
    (r rest : jsstring) :
  separated item close xs r ++ rest = separated item close xs (r ++ rest).
Proof.
  induction xs as [|x [|y xs] IH]; simpl.
  - reflexivity.
  - now rewrite <- app_assoc.
  - rewrite <- app_assoc. simpl. f_equal. f_equal. exact IH.
Qed.

(** The properties of an object, read back. *)
Lemma parseM_properties (p : jsstring * jsstring) (ps : list (jsstring * jsstring))
    (rest : jsstring) :
  parseM (separated stringifyProperty 125%N (p :: ps) rest)
  = Ok (map (fun q => (fst q, JString (snd q))) (p :: ps)) rest.
Proof.
  revert p. induction ps as [|p' ps IH]; intros [k v].
  - cbn [separated]. unfold stringifyProperty. simpl fst; simpl snd.
    rewrite <- app_assoc, quote_app, parseM_eq. unfold membersStep.
    cbn [skipWs]. change (isJSONWhiteSpace 34) with false. cbv iota.
    change (34 =? 34)%N with true. cbv iota.
    rewrite parseChars_quoteBody. cbn [app skipWs].
    change (isJSONWhiteSpace 58) with false. cbv iota.
    change (58 =? 58)%N with true. cbv iota.
    rewrite parseV_quote. cbn [skipWs].
    change (isJSONWhiteSpace 125) with false. cbv iota.
    change (125 =? 44)%N with false. change (125 =? 125)%N with true.
    reflexivity.
  - change (separated stringifyProperty 125%N ((k, v) :: p' :: ps) rest)
      with (stringifyProperty (k, v)
              ++ 44%N :: separated stringifyProperty 125%N (p' :: ps) rest).
    unfold stringifyProperty at 1. simpl fst; simpl snd.
    rewrite <- app_assoc, quote_app, parseM_eq. unfold membersStep.
    cbn [skipWs]. change (isJSONWhiteSpace 34) with false. cbv iota.
    change (34 =? 34)%N with true. cbv iota.
    rewrite parseChars_quoteBody. cbn [app skipWs].
    change (isJSONWhiteSpace 58) with false. cbv iota.
    change (58 =? 58)%N with true. cbv iota.
    rewrite parseV_quote. cbn [skipWs].
    change (isJSONWhiteSpace 44) with false. cbv iota.
    change (44 =? 44)%N with true. cbv iota.
    rewrite IH. reflexivity.
Qed.

(** An object of strings, read back. *)
Lemma parseV_stringifyObject (ps : list (jsstring * jsstring)) (rest : jsstring) :
  parseV (stringifyObject ps ++ rest) = Ok (objectValue ps) rest.
Proof.
  unfold stringifyObject. cbn [app]. rewrite separated_app. cbn [app].
  rewrite parseV_eq. unfold valueStep. cbn [skipWs].
  change (isJSONWhiteSpace 123) with false. cbv iota.
  change (123 =? 123)%N with true. cbv iota.
  destruct ps as [|[k v] ps].
  - reflexivity.
  - rewrite parseM_properties.
    destruct ps as [|p' ps];
      (cbn [separated]; unfold stringifyProperty at 1; simpl fst;
       rewrite <- app_assoc, quote_app; cbn [skipWs];
       change (isJSONWhiteSpace 34) with false; cbv iota;
       change (34 =? 125)%N with false; reflexivity).
Qed.

(** The elements of an array of objects of strings, read back. *)
Lemma parseE_objects (ps : list (jsstring * jsstring))
    (pss : list (list (jsstring * jsstring))) (rest : jsstring) :
  parseE (separated stringifyObject 93%N (ps :: pss) rest)
  = Ok (map objectValue (ps :: pss)) rest.
Proof.
  revert ps. induction pss as [|ps' pss IH]; intros ps.
  - cbn [separated]. rewrite parseE_eq. unfold elementsStep.
    rewrite parseV_stringifyObject. cbn [skipWs].
    change (isJSONWhiteSpace 93) with false. cbv iota.
    change (93 =? 44)%N with false. change (93 =? 93)%N with true.
    reflexivity.
  - change (separated stringifyObject 93%N (ps :: ps' :: pss) rest)
      with (stringifyObject ps ++ 44%N :: separated stringifyObject 93%N (ps' :: pss) rest).
    rewrite parseE_eq. unfold elementsStep.
    rewrite parseV_stringifyObject. cbn [skipWs].
    change (isJSONWhiteSpace 44) with false. cbv iota.
    change (44 =? 44)%N with true. cbv iota.
    rewrite IH. reflexivity.
Qed.

Lemma separated_map {A B : Type} (f : A -> B) (item : B -> jsstring) (close : N)
    (xs : list A) (rest : jsstring) :
  separated (fun x => item (f x)) close xs rest = separated item close (map f xs) rest.
Proof.
  induction xs as [|x [|y xs] IH]; simpl; try reflexivity.
  f_equal. f_equal. exact IH.
Qed.

(** [JSON.parse(JSON.stringify(bookings))] is the bookings array. *)
Lemma JSON_parse_stringifyBookings (bs : list Booking.t) :
  JSON_parse (stringifyBookings bs) = Returns (bookingsValue bs).
Proof.
  rewrite JSON_parse_eq. unfold stringifyBookings, bookingsValue.
  rewrite separated_map, <- (map_map properties objectValue).
  rewrite parseV_eq. unfold valueStep. cbn [skipWs].
  change (isJSONWhiteSpace 91) with false. cbv iota.
  change (91 =? 123)%N with false. change (91 =? 91)%N with true. cbv iota.
  destruct (map properties bs) as [|ps pss].
  - reflexivity.
  - rewrite parseE_objects.
    destruct pss as [|ps' pss];
      (cbn [separated]; unfold stringifyObject at 1; cbn [app skipWs];
       change (isJSONWhiteSpace 123) with false; cbv iota;
       change (123 =? 93)%N with false; reflexivity).
Qed.

End PersistenceFacts.

(** ** Variant A: how the store evolves *)

Module WizardAFacts.
Import VariantA WizardA FactsA InvariantA.

Lemma run_cons (ev : Event) (evs : list Event) (st : State) :
  run (ev :: evs) st = run evs (handle ev st).
Proof. reflexivity. Qed.

(** What one user action does to the store: nothing, one pending booking
    more at its end, or a cancellation. *)
Lemma bookings_handle (ev : Event) (st : State) :
  bookings (handle ev st) = bookings st
  \/ (exists nb, bookings (handle ev st) = bookings st ++ [nb]
                 /\ Booking.status nb = Pending)
  \/ (exists bookingId, bookings (handle ev st) = cancelIn bookingId (bookings st)).
Proof.
  destruct ev; simpl; auto.
  - unfold handleTimeSlotSelect.
    destruct (selectedVenue st); [|now left].
    destruct (truthy (selectedDate st)); [|now left].
    destruct (isTimeSlotBooked _ _ _ _); now left.
  - unfold handleBookingSubmit.
    destruct (selectedVenue st); [|now left].
    destruct (_ || _); [now left|].
    right; left. eexists. split; reflexivity.
  - right; right. now exists bookingId.
Qed.

Lemma isTimeSlotBooked_cancelIn_iff (bookingId : jsstring) (bs : list Booking.t)
    (v d t : jsstring) :
  isTimeSlotBooked (cancelIn bookingId bs) v d t = true
  <-> exists b, In b bs /\ Booking.id b <> bookingId
                /\ Booking.venueId b = v /\ Booking.date b = d
                /\ Booking.timeSlot b = t /\ Booking.status b <> Cancelled.
Proof.
  rewrite isTimeSlotBooked_true_iff. split.
  - intros (b' & Hin & Hv & Hd & Ht & Hs).
    apply In_nth_error in Hin as [i Hi].
    pose proof Hi as Hi'. apply cancelIn_active in Hi'; [|exact Hs].
    rewrite cancelIn_nth_error, Hi' in Hi. simpl in Hi.
    exists b'. split; [eapply nth_error_In; eauto|].
    repeat split; auto.
    destruct (strictEq (Booking.id b') bookingId) eqn:E.
    + injection Hi as Hi. rewrite <- Hi in Hs. simpl in Hs. congruence.
    + now apply strictEq_false_iff.
  - intros (b & Hin & Hid & Hv & Hd & Ht & Hs).
    exists b. split; [|auto].
    apply In_nth_error in Hin as [i Hi].
    apply nth_error_In with (n := i).
    rewrite cancelIn_nth_error, Hi. simpl.
    apply strictEq_false_iff in Hid. now rewrite Hid.
Qed.

Lemma cancelIn_cancelIn (a b : jsstring) (bs : list Booking.t) :
  cancelIn a (cancelIn b bs) = cancelIn b (cancelIn a bs).
Proof.
  unfold cancelIn. rewrite !map_map. apply map_ext. intros x.
  destruct (strictEq (Booking.id x) b) eqn:Eb;
    destruct (strictEq (Booking.id x) a) eqn:Ea; simpl;
    rewrite ?Ea, ?Eb; reflexivity.
Qed.

Lemma cancelIn_idempotent (a : jsstring) (bs : list Booking.t) :
  cancelIn a (cancelIn a bs) = cancelIn a bs.
Proof.
  unfold cancelIn. rewrite map_map. apply map_ext. intros x.
  destruct (strictEq (Booking.id x) a) eqn:Ea; simpl; now rewrite Ea.
Qed.

(** The guard of [handleBookingSubmit]. *)
Lemma handleBookingSubmit_complete (newId now : jsstring) (st : State) (venue : Venue.t) :
  selectedVenue st = Some venue ->
  complete st = true ->
  handleBookingSubmit newId now st
  = toast BookingSubmitted
      (setSelectedTimeSlot []
         (setShowBookingForm false
            (setBookingForm
               (fun _ => Form.mk (Form.bookerName (bookingForm st))
                                 (Form.department (bookingForm st)) [])
               (setBookings
                  (fun prev =>
                     prev ++ [Booking.mk newId (Venue.id venue) (Venue.name venue)
                                (selectedDate st) (selectedTimeSlot st)
                                (Form.bookerName (bookingForm st))
                                (Form.department (bookingForm st))
                                (Form.purpose (bookingForm st)) Pending now])
                  st)))).
Proof.
  intros Hv Hc. unfold complete in Hc. unfold handleBookingSubmit.
  rewrite Hv in *. apply andb_true_iff in Hc as [Hc Hp].
  apply andb_true_iff in Hc as [Hd Ht]. now rewrite Hd, Ht, Hp.
Qed.

Lemma handleBookingSubmit_incomplete (newId now : jsstring) (st : State) :
  complete st = false ->
  handleBookingSubmit newId now st = toast IncompleteInformation st.
Proof.
  unfold complete, handleBookingSubmit.
  destruct (selectedVenue st); [|reflexivity]. intros Hc.
  destruct (truthy (selectedDate st)); [|reflexivity].
  destruct (truthy (selectedTimeSlot st)); [|reflexivity].
  simpl in Hc. now rewrite Hc.
Qed.

(** Every user action keeps [slotImpliesVenueDate]. *)
Lemma handle_slotImpliesVenueDate (ev : Event) (st : State) :
  slotImpliesVenueDate st -> slotImpliesVenueDate (handle ev st).
Proof.
  unfold slotImpliesVenueDate. intros Inv.
  destruct ev; simpl; try exact Inv; try (simpl; congruence).
  - unfold handleTimeSlotSelect. destruct (selectedVenue st) as [venue|] eqn:Hv.
    + destruct (truthy (selectedDate st)) eqn:Hd.
      * destruct (isTimeSlotBooked _ _ _ _); simpl; rewrite Hv; [exact Inv|].
        intros _. split; [discriminate|]. now apply truthy_true_iff.
      * rewrite Hv. exact Inv.
    + rewrite Hv. exact Inv.
  - unfold handleBookingSubmit. destruct (selectedVenue st) as [venue|] eqn:Hv.
    + destruct (_ || _); simpl; [rewrite Hv; exact Inv|congruence].
    + simpl. rewrite Hv. exact Inv.
Qed.

Lemma run_slotImpliesVenueDate (evs : list Event) (st : State) :
  slotImpliesVenueDate st -> slotImpliesVenueDate (run evs st).
Proof.
  revert st. induction evs as [|ev evs IH]; intros st H; [exact H|].
  rewrite run_cons. apply IH. now apply handle_slotImpliesVenueDate.
Qed.

(** Cancelling an active booking of a consistent store frees its slot. *)
Lemma cancelIn_frees (bs : list Booking.t) (i : nat) (b : Booking.t) :
  uniqueActive bs ->
  nth_error bs i = Some b ->
  Booking.status b <> Cancelled ->
  isTimeSlotBooked (cancelIn (Booking.id b) bs)
    (Booking.venueId b) (Booking.date b) (Booking.timeSlot b) = false.
Proof.
  intros U Hi Hs.
  destruct (isTimeSlotBooked _ _ _ _) eqn:E; [|reflexivity].
  apply isTimeSlotBooked_cancelIn_iff in E as (x & Hin & Hid & Hv & Hd & Ht & Hx).
  apply In_nth_error in Hin as [j Hj].
  exfalso. apply (U j i x b); auto.
  - intros ->. rewrite Hi in Hj. injection Hj as <-. now apply Hid.
  - unfold slotKey. congruence.
Qed.

Lemma handle_formImpliesSlot (ev : Event) (st : State) :
  slotIdGiven ev -> formImpliesSlot st -> formImpliesSlot (handle ev st).
Proof.
  unfold formImpliesSlot. intros G Inv.
  destruct ev; simpl; try exact Inv; try (simpl; discriminate).
  - unfold handleTimeSlotSelect. destruct (selectedVenue st); [|exact Inv].
    destruct (truthy (selectedDate st)); [|exact Inv].
    destruct (isTimeSlotBooked _ _ _ _); simpl; [exact Inv|]. intros _. exact G.
  - unfold handleBookingSubmit. destruct (selectedVenue st); [|exact Inv].
    destruct (_ || _); simpl; [exact Inv|discriminate].
Qed.

End WizardAFacts.

(** ** The sample store *)

Module SamplesFacts.

Lemma bookedA_store :
  VariantA.bookings Samples.bookedA = [Samples.boardMeetingBooking].
Proof. vm_compute. reflexivity. Qed.

Lemma bookedA_consistent : VariantA.uniqueActive (VariantA.bookings Samples.bookedA).
Proof. apply InvariantA.uniqueActiveb_true_iff. vm_compute. reflexivity. Qed.

Lemma bookedA_first :
  nth_error (VariantA.bookings Samples.bookedA) 0 = Some Samples.boardMeetingBooking.
Proof. vm_compute. reflexivity. Qed.

End SamplesFacts.

(** ** Further properties of variant A *)

Module PersistenceRoundTrip.
Import VariantA Persistence.

Lemma statusName_inj (a b : Status) : statusName a = statusName b -> a = b.
Proof. destruct a, b; simpl; intros H; try reflexivity; discriminate H. Qed.

Lemma objectValue_properties_inj (b b' : Booking.t) :
  objectValue (properties b) = objectValue (properties b') -> b = b'.
Proof.
  destruct b, b'. unfold objectValue, properties. simpl. intros H.
  injection H as E1 E2 E3 E4 E5 E6 E7 E8 E9 E10.
  apply statusName_inj in E9. congruence.
Qed.

Lemma bookingsValue_inj (bs bs' : list Booking.t) :
  bookingsValue bs = bookingsValue bs' -> bs = bs'.
Proof.
  unfold bookingsValue. intros H.
  assert (M : map (fun b => objectValue (properties b)) bs
              = map (fun b => objectValue (properties b)) bs') by congruence.
  clear H. revert bs' M.
  induction bs as [|b bs IH]; intros [|b' bs'] M;
    try discriminate M; [reflexivity|].
  change (objectValue (properties b) :: map (fun x => objectValue (properties x)) bs
          = objectValue (properties b')
              :: map (fun x => objectValue (properties x)) bs') in M.
  assert (Hb : objectValue (properties b) = objectValue (properties b'))
    by congruence.
  assert (Hbs : map (fun x => objectValue (properties x)) bs
                = map (fun x => objectValue (properties x)) bs') by congruence.
  f_equal; [now apply objectValue_properties_inj|now apply IH].
Qed.

Lemma truthy_stringifyBookings (bs : list Booking.t) :
  truthy (stringifyBookings bs) = true.
Proof. reflexivity. Qed.

End PersistenceRoundTrip.

(** X1. The store that the save effect writes to local storage is the store
    that the mount effect reads back: the load returns the bookings array,
    with every field of every booking, and two stores that load alike are
    the same store. *)
Theorem saved_bookings_load_back
    (bs : list VariantA.Booking.t) (storage : Storage.t) :
  Persistence.loadFrom (Persistence.saveBookings bs storage)
    = Returns (Persistence.bookingsValue bs)
  /\ forall bs',
      Persistence.loadFrom (Persistence.saveBookings bs' storage)
        = Persistence.loadFrom (Persistence.saveBookings bs storage) ->
      bs' = bs.
Proof.
  assert (L : forall l, Persistence.loadFrom (Persistence.saveBookings l storage)
                        = Returns (Persistence.bookingsValue l)).
  { intros l. unfold Persistence.loadFrom, Persistence.saveBookings,
      Storage.getItem, Storage.setItem.
    rewrite strictEq_refl. unfold VariantA.loadBookings.
    rewrite PersistenceRoundTrip.truthy_stringifyBookings.
    apply PersistenceFacts.JSON_parse_stringifyBookings. }
  split; [apply L|].
  intros bs' H. rewrite !L in H.
  apply PersistenceRoundTrip.bookingsValue_inj. congruence.
Qed.

Lemma saved_bookings_load_back_witness :
  Persistence.loadFrom
    (Persistence.saveBookings (VariantA.bookings Samples.bookedA) Storage.empty)
  = Returns (Persistence.bookingsValue (VariantA.bookings Samples.bookedA)).
Proof.
  exact (proj1 (saved_bookings_load_back (VariantA.bookings Samples.bookedA)
                  Storage.empty)).
Defined.

(** X2. A submission takes a freshly selected slot: a second submission in a
    row, or a submission right after a date or a venue was selected, adds
    no booking. *)
Theorem submit_needs_a_fresh_slot
    (st : VariantA.State) (newId now newId' now' dateStr : jsstring)
    (venue : VariantA.Venue.t) :
  VariantA.bookings
    (VariantA.handleBookingSubmit newId' now'
       (VariantA.handleBookingSubmit newId now st))
  = VariantA.bookings (VariantA.handleBookingSubmit newId now st)
  /\ VariantA.bookings
       (VariantA.handleBookingSubmit newId now (VariantA.handleDateSelect dateStr st))
     = VariantA.bookings st
  /\ VariantA.bookings
       (VariantA.handleBookingSubmit newId now (VariantA.handleVenueSelect venue st))
     = VariantA.bookings st.
Proof.
  split; [|split].
  - destruct (WizardA.complete st) eqn:C.
    + destruct (VariantA.selectedVenue st) as [v|] eqn:Hv;
        [|unfold WizardA.complete in C; rewrite Hv in C; discriminate C].
      rewrite (WizardAFacts.handleBookingSubmit_complete newId now st v Hv C).
      rewrite WizardAFacts.handleBookingSubmit_incomplete; [reflexivity|].
      unfold WizardA.complete. simpl. destruct (VariantA.selectedVenue st); [|reflexivity].
      now rewrite andb_false_r.
    + rewrite (WizardAFacts.handleBookingSubmit_incomplete newId now st C).
      now rewrite WizardAFacts.handleBookingSubmit_incomplete.
  - rewrite WizardAFacts.handleBookingSubmit_incomplete; [reflexivity|].
    unfold WizardA.complete. simpl. destruct (VariantA.selectedVenue st); [|reflexivity].
    now rewrite andb_false_r.
  - rewrite WizardAFacts.handleBookingSubmit_incomplete; reflexivity.
Qed.

(** X3. After a complete submission the store has one booking more, the
    submitted (venue, date, slot) is reported booked, its slot button is
    disabled, and selecting that slot again is refused with the notice. *)
Theorem submitted_slot_is_taken
    (st : VariantA.State) (venue : VariantA.Venue.t) (newId now : jsstring) :
  VariantA.selectedVenue st = Some venue ->
  WizardA.complete st = true ->
  length (VariantA.bookings (VariantA.handleBookingSubmit newId now st))
    = S (length (VariantA.bookings st))
  /\ VariantA.isTimeSlotBooked
       (VariantA.bookings (VariantA.handleBookingSubmit newId now st))
       (VariantA.Venue.id venue) (VariantA.selectedDate st)
       (VariantA.selectedTimeSlot st) = true
  /\ WizardA.slotDisabled (VariantA.selectedTimeSlot st)
       (VariantA.handleBookingSubmit newId now st) = true
  /\ VariantA.handleTimeSlotSelect (VariantA.selectedTimeSlot st)
       (VariantA.handleBookingSubmit newId now st)
     = VariantA.toast VariantA.TimeSlotUnavailable
         (VariantA.handleBookingSubmit newId now st).
Proof.
  intros Hv C. rewrite (WizardAFacts.handleBookingSubmit_complete newId now st venue Hv C).
  assert (Hd : truthy (VariantA.selectedDate st) = true).
  { unfold WizardA.complete in C. rewrite Hv in C.
    apply andb_true_iff in C as [C _]. now apply andb_true_iff in C as [C _]. }
  assert (B : VariantA.isTimeSlotBooked
                (VariantA.bookings st ++
                 [VariantA.Booking.mk newId (VariantA.Venue.id venue)
                    (VariantA.Venue.name venue) (VariantA.selectedDate st)
                    (VariantA.selectedTimeSlot st)
                    (VariantA.Form.bookerName (VariantA.bookingForm st))
                    (VariantA.Form.department (VariantA.bookingForm st))
                    (VariantA.Form.purpose (VariantA.bookingForm st))
                    VariantA.Pending now])
                (VariantA.Venue.id venue) (VariantA.selectedDate st)
                (VariantA.selectedTimeSlot st) = true).
  { rewrite FactsA.isTimeSlotBooked_app. apply orb_true_iff. right.
    simpl. now rewrite !strictEq_refl. }
  simpl. split; [rewrite length_app; simpl; lia|]. split; [exact B|].
  split.
  - unfold WizardA.slotDisabled, WizardA.slotIsBooked. simpl.
    now rewrite Hv, Hd, B.
  - unfold VariantA.handleTimeSlotSelect. simpl. now rewrite Hv, Hd, B.
Qed.

Lemma submitted_slot_is_taken_witness :
  VariantA.selectedVenue Samples.readyA = Some VariantA.mainAuditorium
  /\ WizardA.complete Samples.readyA = true
  /\ VariantA.isTimeSlotBooked
       (VariantA.bookings
          (VariantA.handleBookingSubmit (lit "booking_1") (lit "2027-03-09T10:00:00.000Z")
             Samples.readyA))
       (lit "auditorium") (lit "2027-03-10") (lit "9-10") = true.
Proof.
  split; [reflexivity|]. split; [reflexivity|].
  exact (proj1 (proj2 (submitted_slot_is_taken Samples.readyA VariantA.mainAuditorium
                         (lit "booking_1") (lit "2027-03-09T10:00:00.000Z")
                         eq_refl eq_refl))).
Defined.

(** X4. Cancelling an active booking of a consistent store frees its
    (venue, date, slot); and a cancellation never makes a slot booked. *)
Theorem cancel_frees_the_slot
    (st : VariantA.State) (i : nat) (b : VariantA.Booking.t) :
  VariantA.uniqueActive (VariantA.bookings st) ->
  nth_error (VariantA.bookings st) i = Some b ->
  VariantA.Booking.status b <> VariantA.Cancelled ->
  VariantA.isTimeSlotBooked
    (VariantA.bookings (VariantA.handleCancelBooking (VariantA.Booking.id b) st))
    (VariantA.Booking.venueId b) (VariantA.Booking.date b)
    (VariantA.Booking.timeSlot b) = false
  /\ forall bookingId v d t,
      VariantA.isTimeSlotBooked (VariantA.bookings st) v d t = false ->
      VariantA.isTimeSlotBooked
        (VariantA.bookings (VariantA.handleCancelBooking bookingId st)) v d t = false.
Proof.
  intros U Hi Hs. split.
  - simpl. now apply (WizardAFacts.cancelIn_frees (VariantA.bookings st) i).
  - intros bookingId v d t F. simpl. now apply InvariantA.isTimeSlotBooked_cancelIn.
Qed.

Lemma cancel_frees_the_slot_witness :
  VariantA.isTimeSlotBooked (VariantA.bookings Samples.bookedA)
    (VariantA.Booking.venueId Samples.boardMeetingBooking)
    (VariantA.Booking.date Samples.boardMeetingBooking)
    (VariantA.Booking.timeSlot Samples.boardMeetingBooking) = true
  /\ VariantA.isTimeSlotBooked
       (VariantA.bookings
          (VariantA.handleCancelBooking
             (VariantA.Booking.id Samples.boardMeetingBooking) Samples.bookedA))
       (VariantA.Booking.venueId Samples.boardMeetingBooking)
       (VariantA.Booking.date Samples.boardMeetingBooking)
       (VariantA.Booking.timeSlot Samples.boardMeetingBooking) = false.
Proof.
  split; [vm_compute; reflexivity|].
  refine (proj1 (cancel_frees_the_slot Samples.bookedA 0 Samples.boardMeetingBooking
                   SamplesFacts.bookedA_consistent SamplesFacts.bookedA_first _)).
  discriminate.
Defined.

(** X5. Cancellations commute, and cancelling twice changes the store no
    more than cancelling once. *)
Theorem cancellations_commute (a b : jsstring) (st : VariantA.State) :
  VariantA.handleCancelBooking a (VariantA.handleCancelBooking b st)
    = VariantA.handleCancelBooking b (VariantA.handleCancelBooking a st)
  /\ VariantA.bookings
       (VariantA.handleCancelBooking a (VariantA.handleCancelBooking a st))
     = VariantA.bookings (VariantA.handleCancelBooking a st).
Proof.
  split.
  - unfold VariantA.handleCancelBooking, VariantA.toast, VariantA.setBookings. simpl.
    now rewrite WizardAFacts.cancelIn_cancelIn.
  - simpl. apply WizardAFacts.cancelIn_idempotent.
Qed.

(** X6. The store of variant A only grows, and a booking only ever changes
    by becoming Cancelled: after any sequence of user actions a booking is
    still at its position, with every field but the status as it was, and
    with the status it had or Cancelled; a Cancelled booking stays so. *)
Theorem store_is_append_only
    (evs : list VariantA.Event) (st : VariantA.State) (i : nat)
    (b : VariantA.Booking.t) :
  nth_error (VariantA.bookings st) i = Some b ->
  length (VariantA.bookings st) <= length (VariantA.bookings (VariantA.run evs st))
  /\ exists b',
      nth_error (VariantA.bookings (VariantA.run evs st)) i = Some b'
      /\ WizardA.frame b' = WizardA.frame b
      /\ (VariantA.Booking.status b' = VariantA.Booking.status b
          \/ VariantA.Booking.status b' = VariantA.Cancelled)
      /\ (VariantA.Booking.status b = VariantA.Cancelled ->
          VariantA.Booking.status b' = VariantA.Cancelled).
Proof.
  revert st b. induction evs as [|ev evs IH]; intros st b Hi.
  - split; [reflexivity|]. exists b. repeat split; auto.
  - rewrite WizardAFacts.run_cons.
    assert (Step : length (VariantA.bookings st)
                   <= length (VariantA.bookings (VariantA.handle ev st))
              /\ exists b1,
                  nth_error (VariantA.bookings (VariantA.handle ev st)) i = Some b1
                  /\ WizardA.frame b1 = WizardA.frame b
                  /\ (VariantA.Booking.status b1 = VariantA.Booking.status b
                      \/ VariantA.Booking.status b1 = VariantA.Cancelled)).
    { destruct (WizardAFacts.bookings_handle ev st) as [E|[(nb & E & _)|(bid & E)]];
        rewrite E.
      - split; [reflexivity|]. exists b. auto.
      - split; [rewrite length_app; lia|]. exists b.
        split; [|auto]. rewrite nth_error_app1; [exact Hi|].
        apply nth_error_Some. congruence.
      - split; [unfold VariantA.cancelIn; now rewrite length_map|].
        rewrite InvariantA.cancelIn_nth_error, Hi. simpl.
        destruct (strictEq (VariantA.Booking.id b) bid).
        + eexists. split; [reflexivity|]. split; [reflexivity|]. now right.
        + exists b. auto. }
    destruct Step as (L1 & b1 & H1 & F1 & S1).
    destruct (IH _ _ H1) as (L2 & b' & H' & F' & S' & T').
    split; [lia|]. exists b'. split; [exact H'|]. split; [congruence|].
    assert (R : VariantA.Booking.status b' = VariantA.Booking.status b
                \/ VariantA.Booking.status b' = VariantA.Cancelled).
    { destruct S1 as [S1|S1]; [rewrite <- S1; exact S'|]. right. now apply T'. }
    split; [exact R|]. intros C. destruct R as [R|R]; congruence.
Qed.

Lemma store_is_append_only_witness :
  nth_error (VariantA.bookings Samples.bookedA) 0 = Some Samples.boardMeetingBooking
  /\ exists b',
      nth_error
        (VariantA.bookings
           (VariantA.run
              [VariantA.CancelBooking (lit "booking_1804672800000_k3x9q2m1z");
               VariantA.TimeSlotSelect (lit "9-10");
               VariantA.BookingSubmit (lit "booking_2") (lit "2027-03-09T11:00:00.000Z")]
              Samples.bookedA)) 0 = Some b'
      /\ WizardA.frame b' = WizardA.frame Samples.boardMeetingBooking.
Proof.
  split; [exact SamplesFacts.bookedA_first|].
  destruct (store_is_append_only
              [VariantA.CancelBooking (lit "booking_1804672800000_k3x9q2m1z");
               VariantA.TimeSlotSelect (lit "9-10");
               VariantA.BookingSubmit (lit "booking_2") (lit "2027-03-09T11:00:00.000Z")]
              Samples.bookedA 0 Samples.boardMeetingBooking
              SamplesFacts.bookedA_first) as (_ & b' & H & F & _).
  exists b'. split; [exact H|exact F].
Defined.

(** X7. No user action of variant A approves a booking: when no booking of
    the store is Approved, none is after any sequence of actions. *)
Theorem no_action_approves
    (evs : list VariantA.Event) (st : VariantA.State) :
  (forall b, In b (VariantA.bookings st) ->
             VariantA.Booking.status b <> VariantA.Approved) ->
  forall b, In b (VariantA.bookings (VariantA.run evs st)) ->
            VariantA.Booking.status b <> VariantA.Approved.
Proof.
  revert st. induction evs as [|ev evs IH]; intros st H; [exact H|].
  rewrite WizardAFacts.run_cons. apply IH. intros b Hb.
  destruct (WizardAFacts.bookings_handle ev st) as [E|[(nb & E & P)|(bid & E)]];
    rewrite E in Hb.
  - now apply H.
  - apply in_app_or in Hb as [Hb|[<-|[]]]; [now apply H|congruence].
  - unfold VariantA.cancelIn in Hb. apply in_map_iff in Hb as (x & <- & Hx).
    destruct (strictEq (VariantA.Booking.id x) bid); [discriminate|now apply H].
Qed.

Lemma no_action_approves_witness :
  (forall b, In b (VariantA.bookings Samples.bookedA) ->
             VariantA.Booking.status b <> VariantA.Approved)
  /\ forall b,
      In b (VariantA.bookings
              (VariantA.run
                 [VariantA.CancelBooking (lit "booking_1804672800000_k3x9q2m1z")]
                 Samples.bookedA)) ->
      VariantA.Booking.status b <> VariantA.Approved.
Proof.
  assert (H : forall b, In b (VariantA.bookings Samples.bookedA) ->
                        VariantA.Booking.status b <> VariantA.Approved).
  { intros b Hb. rewrite SamplesFacts.bookedA_store in Hb.
    destruct Hb as [<-|[]]. discriminate. }
  split; [exact H|].
  exact (no_action_approves
           [VariantA.CancelBooking (lit "booking_1804672800000_k3x9q2m1z")]
           Samples.bookedA H).
Defined.

(** X8. A click on a slot button selects the slot and opens the form when
    the button is rendered and enabled, and does nothing otherwise: the
    refusal branch of [handleTimeSlotSelect] is never taken from a button,
    so a click raises no notice. *)
Theorem slot_button_selects_or_ignores (slotId : jsstring) (st : VariantA.State) :
  WizardA.clickSlotButton slotId st
    = (if WizardA.slotsRendered st && negb (WizardA.slotDisabled slotId st)
       then VariantA.setShowBookingForm true (VariantA.setSelectedTimeSlot slotId st)
       else st)
  /\ VariantA.toasts (WizardA.clickSlotButton slotId st) = VariantA.toasts st
  /\ VariantA.bookings (WizardA.clickSlotButton slotId st) = VariantA.bookings st.
Proof.
  assert (E : WizardA.clickSlotButton slotId st
              = (if WizardA.slotsRendered st && negb (WizardA.slotDisabled slotId st)
                 then VariantA.setShowBookingForm true
                        (VariantA.setSelectedTimeSlot slotId st)
                 else st)).
  { unfold WizardA.clickSlotButton, WizardA.slotsRendered, WizardA.slotDisabled,
      WizardA.slotIsBooked, VariantA.handleTimeSlotSelect.
    destruct (VariantA.selectedVenue st) as [venue|]; [|reflexivity].
    destruct (truthy (VariantA.selectedDate st)); [|reflexivity].
    destruct (VariantA.isTimeSlotBooked _ _ _ _); reflexivity. }
  split; [exact E|]. rewrite E.
  destruct (WizardA.slotsRendered st && negb (WizardA.slotDisabled slotId st));
    split; reflexivity.
Qed.

(** X9. In a state reached from the initial state by user actions, a
    submission adds a booking exactly when a slot is selected and the
    purpose is not blank: the venue and the date are then selected too. *)
Theorem reachable_submit_criterion
    (evs : list VariantA.Event) (newId now : jsstring) :
  length (VariantA.bookings
            (VariantA.handleBookingSubmit newId now
               (VariantA.run evs VariantA.initialState)))
    = S (length (VariantA.bookings (VariantA.run evs VariantA.initialState)))
  <-> VariantA.selectedTimeSlot (VariantA.run evs VariantA.initialState) <> []
      /\ trim (VariantA.Form.purpose
                 (VariantA.bookingForm (VariantA.run evs VariantA.initialState))) <> [].
Proof.
  set (st := VariantA.run evs VariantA.initialState).
  assert (Inv : WizardA.slotImpliesVenueDate st).
  { apply WizardAFacts.run_slotImpliesVenueDate. intros H. now contradiction H. }
  destruct (WizardA.complete st) eqn:C.
  - destruct (VariantA.selectedVenue st) as [v|] eqn:Hv;
      [|unfold WizardA.complete in C; rewrite Hv in C; discriminate C].
    rewrite (WizardAFacts.handleBookingSubmit_complete newId now st v Hv C).
    unfold WizardA.complete in C. rewrite Hv in C.
    apply andb_true_iff in C as [C Hp]. apply andb_true_iff in C as [_ Ht].
    apply truthy_true_iff in Hp, Ht.
    split; [now intros _|]. intros _. simpl. rewrite length_app. simpl. lia.
  - rewrite (WizardAFacts.handleBookingSubmit_incomplete newId now st C).
    split; [simpl; lia|]. intros [Ht Hp]. exfalso.
    destruct (Inv Ht) as [Hv Hd].
    unfold WizardA.complete in C.
    destruct (VariantA.selectedVenue st); [|congruence].
    apply truthy_true_iff in Ht, Hd, Hp. rewrite Ht, Hd, Hp in C. discriminate C.
Qed.

(** X10. A booking made under a booker name other than the mock user's
    holds its slot but is not listed under My Bookings, and a click on its
    position cancels nothing. *)
Theorem booking_under_other_name_is_orphaned
    (st : VariantA.State) (venue : VariantA.Venue.t) (newId now : jsstring) :
  VariantA.selectedVenue st = Some venue ->
  WizardA.complete st = true ->
  VariantA.Form.bookerName (VariantA.bookingForm st) <> VariantA.MOCK_USER_name ->
  WizardA.userBookings (VariantA.bookings (VariantA.handleBookingSubmit newId now st))
    = WizardA.userBookings (VariantA.bookings st)
  /\ VariantA.clickCancel (length (VariantA.bookings st))
       (VariantA.handleBookingSubmit newId now st)
     = VariantA.handleBookingSubmit newId now st
  /\ VariantA.isTimeSlotBooked
       (VariantA.bookings (VariantA.handleBookingSubmit newId now st))
       (VariantA.Venue.id venue) (VariantA.selectedDate st)
       (VariantA.selectedTimeSlot st) = true.
Proof.
  intros Hv C Hn. apply strictEq_false_iff in Hn.
  rewrite (WizardAFacts.handleBookingSubmit_complete newId now st venue Hv C).
  split; [|split].
  - simpl. unfold WizardA.userBookings. rewrite filter_app. simpl.
    rewrite Hn. apply app_nil_r.
  - unfold VariantA.clickCancel. simpl.
    rewrite nth_error_app2 by lia. rewrite Nat.sub_diag. simpl. now rewrite Hn.
  - simpl. rewrite FactsA.isTimeSlotBooked_app. apply orb_true_iff. right.
    simpl. now rewrite !strictEq_refl.
Qed.

Lemma booking_under_other_name_is_orphaned_witness :
  VariantA.selectedVenue Samples.readyOtherNameA = Some VariantA.mainAuditorium
  /\ WizardA.complete Samples.readyOtherNameA = true
  /\ VariantA.Form.bookerName (VariantA.bookingForm Samples.readyOtherNameA)
     <> VariantA.MOCK_USER_name
  /\ WizardA.userBookings
       (VariantA.bookings
          (VariantA.handleBookingSubmit (lit "booking_1") (lit "2027-03-09T10:00:00.000Z")
             Samples.readyOtherNameA)) = []
  /\ VariantA.isTimeSlotBooked
       (VariantA.bookings
          (VariantA.handleBookingSubmit (lit "booking_1") (lit "2027-03-09T10:00:00.000Z")
             Samples.readyOtherNameA))
       (lit "auditorium") (lit "2027-03-10") (lit "9-10") = true.
Proof.
  assert (Hn : VariantA.Form.bookerName (VariantA.bookingForm Samples.readyOtherNameA)
               <> VariantA.MOCK_USER_name) by (vm_compute; discriminate).
  split; [reflexivity|]. split; [reflexivity|]. split; [exact Hn|].
  destruct (booking_under_other_name_is_orphaned Samples.readyOtherNameA
              VariantA.mainAuditorium (lit "booking_1") (lit "2027-03-09T10:00:00.000Z")
              eq_refl eq_refl Hn) as (H1 & _ & H3).
  split; [exact H1|exact H3].
Defined.

(** X11. In variant A, after any sequence of user actions that starts from
    a consistent store with no slot selected, the store is consistent, a
    selected slot is a free slot of the selected venue and date, and a
    submission leaves the store consistent. *)
Theorem variantA_selected_slot_is_free
    (evs : list VariantA.Event) (st : VariantA.State) (newId now : jsstring) :
  VariantA.uniqueActive (VariantA.bookings st) ->
  VariantA.selectedTimeSlot st = [] ->
  VariantA.uniqueActive (VariantA.bookings (VariantA.run evs st))
  /\ (VariantA.selectedTimeSlot (VariantA.run evs st) <> [] ->
      exists venue,
        VariantA.selectedVenue (VariantA.run evs st) = Some venue
        /\ VariantA.isTimeSlotBooked (VariantA.bookings (VariantA.run evs st))
             (VariantA.Venue.id venue) (VariantA.selectedDate (VariantA.run evs st))
             (VariantA.selectedTimeSlot (VariantA.run evs st)) = false)
  /\ VariantA.uniqueActive
       (VariantA.bookings
          (VariantA.handleBookingSubmit newId now (VariantA.run evs st))).
Proof.
  intros U S.
  assert (I : VariantA.wizardInv (VariantA.run evs st)).
  { apply InvariantA.run_wizardInv. split; [exact U|congruence]. }
  split; [apply I|]. split; [apply I|].
  apply (InvariantA.handle_wizardInv (VariantA.BookingSubmit newId now)) in I.
  apply I.
Qed.

Lemma variantA_selected_slot_is_free_witness :
  VariantA.uniqueActive (VariantA.bookings Samples.bookedA)
  /\ VariantA.selectedTimeSlot Samples.bookedA = []
  /\ VariantA.uniqueActive
       (VariantA.bookings
          (VariantA.run [VariantA.TimeSlotSelect (lit "9-10");
                         VariantA.TimeSlotSelect (lit "10-11");
                         VariantA.EditPurpose (lit "Seminar");
                         VariantA.BookingSubmit (lit "booking_2")
                                                (lit "2027-03-09T11:00:00.000Z")]
                        Samples.bookedA)).
Proof.
  assert (U : VariantA.uniqueActive (VariantA.bookings Samples.bookedA)).
  { apply InvariantA.uniqueActiveb_true_iff. reflexivity. }
  split; [exact U|]. split; [reflexivity|].
  exact (proj1 (variantA_selected_slot_is_free
                  [VariantA.TimeSlotSelect (lit "9-10");
                   VariantA.TimeSlotSelect (lit "10-11");
                   VariantA.EditPurpose (lit "Seminar");
                   VariantA.BookingSubmit (lit "booking_2")
                                          (lit "2027-03-09T11:00:00.000Z")]
                  Samples.bookedA [] [] U eq_refl)).
Defined.

(** ** Variant B: how the store evolves *)

Module StoreBFacts.
Import VariantB FactsB LifecycleB.

Lemma uniqueActive_cons_iff (b : Booking.t) (bs : list Booking.t) :
  uniqueActive (b :: bs)
  <-> (forall x, In x bs -> Booking.status b <> rejected ->
                 Booking.status x <> rejected -> slotKey x <> slotKey b)
      /\ uniqueActive bs.
Proof.
  split.
  - intros U. split.
    + intros x Hx Sb Sx. apply In_nth_error in Hx as [k Hk].
      apply (U (S k) 0 x b); simpl; auto.
    + intros i j b1 b2 Hij H1 H2. apply (U (S i) (S j)); simpl; auto.
  - intros [H U] i j b1 b2 Hij H1 H2 S1 S2.
    destruct i as [|i], j as [|j]; simpl in H1, H2.
    + congruence.
    + injection H1 as <-. intros E. symmetry in E. revert E.
      apply H; auto. eapply nth_error_In; eauto.
    + injection H2 as <-. apply H; auto. eapply nth_error_In; eauto.
    + apply (U i j); auto.
Qed.

Lemma uniqueActive_filter (p : Booking.t -> bool) (bs : list Booking.t) :
  uniqueActive bs -> uniqueActive (filter p bs).
Proof.
  induction bs as [|b bs IH]; simpl; intros U; [exact U|].
  apply uniqueActive_cons_iff in U as [H U].
  destruct (p b); [|now apply IH].
  apply uniqueActive_cons_iff. split; [|now apply IH].
  intros x Hx. apply H. now apply filter_In in Hx as [Hx _].
Qed.

(** A change of bookings, each on its own, that activates none and moves
    none keeps the store consistent. *)
Lemma uniqueActive_map (g : Booking.t -> Booking.t) (bs : list Booking.t) :
  (forall x, In x bs -> Booking.status (g x) <> rejected ->
             Booking.status x <> rejected /\ slotKey (g x) = slotKey x) ->
  uniqueActive bs -> uniqueActive (map g bs).
Proof.
  intros Hg U i j b1 b2 Hij H1 H2 S1 S2.
  rewrite nth_error_map in H1, H2.
  destruct (nth_error bs i) as [x1|] eqn:E1; [|discriminate H1].
  destruct (nth_error bs j) as [x2|] eqn:E2; [|discriminate H2].
  simpl in H1, H2. injection H1 as <-. injection H2 as <-.
  destruct (Hg x1) as [A1 K1]; [eapply nth_error_In; eauto|exact S1|].
  destruct (Hg x2) as [A2 K2]; [eapply nth_error_In; eauto|exact S2|].
  rewrite K1, K2. now apply (U i j).
Qed.

Lemma uniqueActive_snoc_B (bs : list Booking.t) (nb : Booking.t) :
  uniqueActive bs ->
  isTimeSlotBooked bs (Booking.venueId nb) (Booking.date nb) (Booking.timeSlot nb) = false ->
  uniqueActive (bs ++ [nb]).
Proof.
  intros U F.
  assert (Free : forall k b, nth_error bs k = Some b -> Booking.status b <> rejected ->
                             slotKey b <> slotKey nb).
  { intros k b Hk Hs Heq. unfold slotKey in Heq. injection Heq as Hv Hd Ht.
    assert (T : isTimeSlotBooked bs (Booking.venueId nb) (Booking.date nb)
                                 (Booking.timeSlot nb) = true).
    { apply isTimeSlotBooked_true_iff_B. exists b. repeat split; auto.
      eapply nth_error_In; eauto. }
    congruence. }
  assert (Last : forall k b, nth_error (bs ++ [nb]) k = Some b -> length bs <= k ->
                             k = length bs /\ b = nb).
  { intros k b Hk Hle. rewrite nth_error_app2 in Hk by exact Hle.
    destruct (k - length bs) as [|m] eqn:E; simpl in Hk.
    - injection Hk as <-. split; [lia|reflexivity].
    - destruct m; discriminate Hk. }
  intros i j b1 b2 Hij H1 H2 A1 A2.
  destruct (Nat.lt_ge_cases i (length bs)) as [Li|Li];
    destruct (Nat.lt_ge_cases j (length bs)) as [Lj|Lj].
  - rewrite nth_error_app1 in H1, H2 by assumption. now apply (U i j).
  - rewrite nth_error_app1 in H1 by assumption.
    apply Last in H2 as [_ ->]; [|exact Lj]. now apply (Free i).
  - rewrite nth_error_app1 in H2 by assumption.
    apply Last in H1 as [_ ->]; [|exact Li].
    intros Heq. symmetry in Heq. revert Heq. now apply (Free j).
  - apply Last in H1 as [-> _]; [|exact Li]. apply Last in H2 as [-> _]; [|exact Lj].
    congruence.
Qed.

Lemma map_id_updateIn (bookingId : jsstring) (s : Decision) (bs : list Booking.t) :
  map Booking.id (updateIn bookingId s bs) = map Booking.id bs.
Proof.
  unfold updateIn. rewrite map_map. apply map_ext. intros x.
  now destruct (strictEq (Booking.id x) bookingId).
Qed.

(** A delete removes ids, it adds none. *)
Lemma deleteIn_ids_NoDup (bookingId : jsstring) (bs : list Booking.t) :
  NoDup (map Booking.id bs) -> NoDup (map Booking.id (deleteIn bookingId bs)).
Proof.
  unfold deleteIn. induction bs as [|b bs IH]; simpl; intros N; [exact N|].
  apply NoDup_cons_iff in N as [Fresh N].
  destruct (negb (strictEq (Booking.id b) bookingId)); simpl; [|now apply IH].
  apply NoDup_cons_iff. split; [|now apply IH].
  intros Hin. apply Fresh.
  apply in_map_iff in Hin as (x & Hid & Hx). apply filter_In in Hx as [Hx _].
  rewrite <- Hid. now apply in_map.
Qed.

(** With ids that differ, the booking of an id is one booking. *)
Lemma NoDup_id_unique (bs : list Booking.t) (x y : Booking.t) :
  NoDup (map Booking.id bs) -> In x bs -> In y bs ->
  Booking.id x = Booking.id y -> x = y.
Proof.
  induction bs as [|b bs IH]; simpl; intros N Hx Hy E; [contradiction|].
  inversion N as [|? ? Hn Hl]; subst.
  destruct Hx as [<-|Hx], Hy as [<-|Hy].
  - reflexivity.
  - exfalso. apply Hn. rewrite E. now apply in_map.
  - exfalso. apply Hn. rewrite <- E. now apply in_map.
  - now apply IH.
Qed.


End StoreBFacts.

(** ** Further properties of variant B *)

(** X12. In variant B a slot click that takes effect, followed at once by
    the submission, keeps a consistent store consistent: the booking that
    is added is on a free (venue, date, slot). *)
Theorem click_then_submit_keeps_store_consistent
    (st : VariantB.State) (venue : VariantB.Venue.t) (slot nowId : jsstring)
    (data : VariantB.BookingFormData.t) :
  VariantB.uniqueActive (VariantB.bookings st) ->
  VariantB.selectedVenue st = Some venue ->
  VariantB.selectedDate st <> [] ->
  VariantB.isTimeSlotBooked (VariantB.bookings st) (VariantB.Venue.id venue)
    (VariantB.selectedDate st) slot = false ->
  VariantB.selectedTimeSlot (VariantB.clickTimeSlot slot st) = slot
  /\ VariantB.uniqueActive
       (VariantB.bookings
          (VariantB.onSubmitBooking nowId data (VariantB.clickTimeSlot slot st))).
Proof.
  intros U Hv Hd F. apply truthy_true_iff in Hd.
  assert (E : VariantB.clickTimeSlot slot st = VariantB.setSelectedTimeSlot slot st).
  { unfold VariantB.clickTimeSlot. now rewrite Hv, Hd, F. }
  rewrite E. split; [reflexivity|].
  unfold VariantB.onSubmitBooking. simpl. rewrite Hv, Hd. simpl.
  destruct (truthy slot); simpl; [|exact U].
  now apply StoreBFacts.uniqueActive_snoc_B.
Qed.

Lemma click_then_submit_keeps_store_consistent_witness :
  VariantB.uniqueActive
    (VariantB.bookings
       (VariantB.run [VariantB.BookVenue VariantB.mainAuditorium;
                      VariantB.DateChange (lit "2027-03-10")]
                     Samples.facultyB))
  /\ VariantB.uniqueActive
       (VariantB.bookings
          (VariantB.onSubmitBooking (lit "1804672800000") VariantB.boardMeeting
             (VariantB.clickTimeSlot (lit "09:00-10:00")
                (VariantB.run [VariantB.BookVenue VariantB.mainAuditorium;
                               VariantB.DateChange (lit "2027-03-10")]
                              Samples.facultyB)))).
Proof.
  assert (U : VariantB.uniqueActive
                (VariantB.bookings
                   (VariantB.run [VariantB.BookVenue VariantB.mainAuditorium;
                                  VariantB.DateChange (lit "2027-03-10")]
                                 Samples.facultyB)))
    by apply LifecycleB.uniqueActive_seedBookings.
  split; [exact U|].
  refine (proj2 (click_then_submit_keeps_store_consistent
                   (VariantB.run [VariantB.BookVenue VariantB.mainAuditorium;
                                  VariantB.DateChange (lit "2027-03-10")]
                                 Samples.facultyB)
                   VariantB.mainAuditorium (lit "09:00-10:00") (lit "1804672800000")
                   VariantB.boardMeeting U eq_refl _ eq_refl)).
  simpl. discriminate.
Defined.


(** X14. [deleteBooking] removes the bookings of the given id and no other,
    keeps the order of what it leaves, keeps a consistent store
    consistent, and has nothing left to remove when run again. *)
Theorem deleteBooking_removes_that_id
    (bookingId : jsstring) (st : VariantB.State) :
  VariantB.uniqueActive (VariantB.bookings st) ->
  VariantB.uniqueActive (VariantB.bookings (VariantB.deleteBooking bookingId st))
  /\ (forall b, In b (VariantB.bookings (VariantB.deleteBooking bookingId st))
                <-> In b (VariantB.bookings st) /\ VariantB.Booking.id b <> bookingId)
  /\ (forall v d t,
        VariantB.isTimeSlotBooked
          (VariantB.bookings (VariantB.deleteBooking bookingId st)) v d t = true ->
        VariantB.isTimeSlotBooked (VariantB.bookings st) v d t = true)
  /\ VariantB.deleteBooking bookingId (VariantB.deleteBooking bookingId st)
     = VariantB.deleteBooking bookingId st.
Proof.
  intros U.
  assert (M : forall b, In b (VariantB.deleteIn bookingId (VariantB.bookings st))
                        <-> In b (VariantB.bookings st)
                            /\ VariantB.Booking.id b <> bookingId).
  { intros b. unfold VariantB.deleteIn.
    now rewrite filter_In, negb_true_iff, strictEq_false_iff. }
  split; [now apply StoreBFacts.uniqueActive_filter|].
  split; [exact M|]. split.
  - intros v d t H. simpl in H.
    apply FactsB.isTimeSlotBooked_true_iff_B in H as (b & Hin & H).
    apply FactsB.isTimeSlotBooked_true_iff_B. exists b. split; [|exact H].
    now apply M in Hin.
  - apply LifecycleB.setBookings_fixed. apply LifecycleB.deleteIn_absent.
    intros b Hb. now apply M in Hb.
Qed.

Lemma deleteBooking_removes_that_id_witness :
  VariantB.uniqueActive (VariantB.bookings Samples.hodB)
  /\ map VariantB.Booking.id
       (VariantB.bookings (VariantB.deleteBooking (lit "1") Samples.hodB))
     = [lit "2"]
  /\ VariantB.uniqueActive
       (VariantB.bookings (VariantB.deleteBooking (lit "1") Samples.hodB)).
Proof.
  split; [apply LifecycleB.uniqueActive_seedBookings|]. split; [reflexivity|].
  exact (proj1 (deleteBooking_removes_that_id (lit "1") Samples.hodB
                  LifecycleB.uniqueActive_seedBookings)).
Defined.

(** X15. A rejection keeps a consistent store consistent, whatever it is
    run on; and with ids that differ, a click on the approve or reject
    control of any card keeps the store consistent. *)
Theorem status_change_keeps_store_consistent
    (st : VariantB.State) (bookingId : jsstring) (i : nat) (s : VariantB.Decision) :
  VariantB.uniqueActive (VariantB.bookings st) ->
  NoDup (map VariantB.Booking.id (VariantB.bookings st)) ->
  VariantB.uniqueActive
    (VariantB.bookings (VariantB.updateBookingStatus bookingId VariantB.Reject st))
  /\ VariantB.uniqueActive (VariantB.bookings (VariantB.clickStatusControl i s st)).
Proof.
  intros U N. split.
  - simpl. unfold VariantB.updateIn. apply StoreBFacts.uniqueActive_map; [|exact U].
    intros x _. destruct (strictEq (VariantB.Booking.id x) bookingId); simpl.
    + congruence.
    + auto.
  - unfold VariantB.clickStatusControl.
    destruct (nth_error (VariantB.bookings st) i) as [card|] eqn:Hi; [|exact U].
    destruct (VariantB.statusControlsShown (VariantB.user st) card) eqn:Shown; [|exact U].
    assert (P : VariantB.Booking.status card = VariantB.pending).
    { unfold VariantB.statusControlsShown in Shown.
      destruct (VariantB.user st); [|discriminate Shown].
      apply andb_true_iff in Shown as [_ Shown].
      now apply FactsB.Status_eqb_true_iff_B. }
    simpl. unfold VariantB.updateIn. apply StoreBFacts.uniqueActive_map; [|exact U].
    intros x Hx. destruct (strictEq (VariantB.Booking.id x) (VariantB.Booking.id card)) eqn:E.
    + apply strictEq_true_iff in E.
      assert (x = card).
      { apply (StoreBFacts.NoDup_id_unique (VariantB.bookings st)); auto.
        eapply nth_error_In; eauto. }
      subst x. intros _. split; [rewrite P; discriminate|reflexivity].
    + auto.
Qed.

Lemma status_change_keeps_store_consistent_witness :
  VariantB.uniqueActive (VariantB.bookings Samples.hodB)
  /\ NoDup (map VariantB.Booking.id (VariantB.bookings Samples.hodB))
  /\ map VariantB.Booking.status
       (VariantB.bookings (VariantB.clickStatusControl 1 VariantB.Approve Samples.hodB))
     = [VariantB.approved; VariantB.approved]
  /\ VariantB.uniqueActive
       (VariantB.bookings (VariantB.clickStatusControl 1 VariantB.Approve Samples.hodB)).
Proof.
  assert (N : NoDup (map VariantB.Booking.id (VariantB.bookings Samples.hodB))).
  { simpl. constructor; [intros [H|[]]; discriminate H|].
    constructor; [intros []|constructor]. }
  split; [apply LifecycleB.uniqueActive_seedBookings|]. split; [exact N|].
  split; [reflexivity|].
  exact (proj2 (status_change_keeps_store_consistent Samples.hodB [] 1 VariantB.Approve
                  LifecycleB.uniqueActive_seedBookings N)).
Defined.

(** X16. What a faculty user can do to the bookings of others, with ids
    that differ: nothing. A click on an approve or reject control changes
    nothing, and after a click on any delete control a booking made by
    somebody else is still in the store. *)
Theorem faculty_deletes_own_bookings_only
    (st : VariantB.State) (i : nat) (s : VariantB.Decision) (u : VariantB.User.t)
    (b : VariantB.Booking.t) :
  VariantB.user st = Some u ->
  VariantB.User.userType u = VariantB.faculty ->
  NoDup (map VariantB.Booking.id (VariantB.bookings st)) ->
  In b (VariantB.bookings st) ->
  VariantB.Booking.bookedBy b <> VariantB.User.username u ->
  In b (VariantB.bookings (VariantB.clickDelete i st))
  /\ VariantB.clickStatusControl i s st = st.
Proof.
  intros Hu Ht N Hb Hn. split.
  - unfold VariantB.clickDelete.
    destruct (nth_error (VariantB.bookings st) i) as [card|] eqn:Hi; [|exact Hb].
    destruct (VariantB.deleteControlShown (VariantB.user st) card) eqn:Shown; [|exact Hb].
    unfold VariantB.deleteControlShown in Shown. rewrite Hu, Ht in Shown.
    simpl in Shown. rewrite orb_false_r in Shown. apply strictEq_true_iff in Shown.
    simpl. unfold VariantB.deleteIn. apply filter_In. split; [exact Hb|].
    apply negb_true_iff, strictEq_false_iff. intros E.
    assert (b = card).
    { apply (StoreBFacts.NoDup_id_unique (VariantB.bookings st)); auto.
      eapply nth_error_In; eauto. }
    subst b. now apply Hn.
  - unfold VariantB.clickStatusControl, VariantB.statusControlsShown.
    destruct (nth_error (VariantB.bookings st) i); [|reflexivity].
    now rewrite Hu, Ht.
Qed.

Lemma faculty_deletes_own_bookings_only_witness :
  VariantB.user Samples.facultyB = Some VariantB.facultyUser
  /\ NoDup (map VariantB.Booking.id (VariantB.bookings Samples.facultyB))
  /\ In Samples.smithBooking (VariantB.bookings Samples.facultyB)
  /\ VariantB.Booking.bookedBy Samples.smithBooking
     <> VariantB.User.username VariantB.facultyUser
  /\ In Samples.smithBooking (VariantB.bookings (VariantB.clickDelete 0 Samples.facultyB)).
Proof.
  assert (N : NoDup (map VariantB.Booking.id (VariantB.bookings Samples.facultyB))).
  { simpl. constructor; [intros [H|[]]; discriminate H|].
    constructor; [intros []|constructor]. }
  assert (I : In Samples.smithBooking (VariantB.bookings Samples.facultyB))
    by (left; reflexivity).
  assert (O : VariantB.Booking.bookedBy Samples.smithBooking
              <> VariantB.User.username VariantB.facultyUser)
    by (simpl; discriminate).
  split; [reflexivity|]. split; [exact N|]. split; [exact I|]. split; [exact O|].
  exact (proj1 (faculty_deletes_own_bookings_only Samples.facultyB 0 VariantB.Reject
                  VariantB.facultyUser Samples.smithBooking eq_refl eq_refl N I O)).
Defined.

(** X17. The ids of the store stay different from one another: a status
    change keeps every id, a delete removes ids, and a submission adds the
    id it is given, so that ids that differ still differ after a user
    action as long as a submission comes with an id not in the store. *)
Theorem ids_stay_unique (ev : VariantB.Event) (st : VariantB.State) :
  NoDup (map VariantB.Booking.id (VariantB.bookings st)) ->
  match ev with
  | VariantB.SubmitBooking nowId _ =>
      ~ In nowId (map VariantB.Booking.id (VariantB.bookings st))
  | _ => True
  end ->
  NoDup (map VariantB.Booking.id (VariantB.bookings (VariantB.handle ev st))).
Proof.
  intros N Fresh. destruct ev; simpl; try exact N.
  - unfold VariantB.inDialog. destruct (VariantB.isBookingDialogOpen st); exact N.
  - unfold VariantB.inDialog, VariantB.clickTimeSlot.
    destruct (VariantB.isBookingDialogOpen st); [|exact N].
    destruct (VariantB.selectedVenue st); [|exact N].
    destruct (truthy (VariantB.selectedDate st)); [|exact N].
    destruct (VariantB.isTimeSlotBooked _ _ _ _); exact N.
  - unfold VariantB.inDialog, VariantB.onSubmitBooking.
    destruct (VariantB.isBookingDialogOpen st); [|exact N].
    destruct (VariantB.selectedVenue st); [|exact N].
    destruct (_ || _); [exact N|]. simpl.
    rewrite map_app. simpl. apply NoDup_app; [exact N|repeat constructor; auto|].
    intros x Hx [<-|[]]. now apply Fresh.
  - unfold VariantB.clickStatusControl.
    destruct (nth_error (VariantB.bookings st) index); [|exact N].
    destruct (VariantB.statusControlsShown _ _); [|exact N].
    simpl. now rewrite StoreBFacts.map_id_updateIn.
  - unfold VariantB.clickDelete.
    destruct (nth_error (VariantB.bookings st) index); [|exact N].
    destruct (VariantB.deleteControlShown _ _); [|exact N].
    simpl. now apply StoreBFacts.deleteIn_ids_NoDup.
Qed.

Lemma ids_stay_unique_witness :
  NoDup (map VariantB.Booking.id (VariantB.bookings VariantB.readyToSubmit))
  /\ ~ In (lit "1804672800000")
          (map VariantB.Booking.id (VariantB.bookings VariantB.readyToSubmit))
  /\ NoDup (map VariantB.Booking.id
              (VariantB.bookings
                 (VariantB.handle
                    (VariantB.SubmitBooking (lit "1804672800000") VariantB.boardMeeting)
                    VariantB.readyToSubmit))).
Proof.
  assert (N : NoDup (map VariantB.Booking.id (VariantB.bookings VariantB.readyToSubmit))).
  { simpl. constructor; [intros [H|[]]; discriminate H|].
    constructor; [intros []|constructor]. }
  assert (F : ~ In (lit "1804672800000")
                   (map VariantB.Booking.id (VariantB.bookings VariantB.readyToSubmit))).
  { simpl. intros [H|[H|[]]]; discriminate H. }
  split; [exact N|]. split; [exact F|].
  exact (ids_stay_unique
           (VariantB.SubmitBooking (lit "1804672800000") VariantB.boardMeeting)
           VariantB.readyToSubmit N F).
Defined.

(** ** The session hook *)



(** X19. After [logout] nobody is logged in, neither in the state nor for a
    later [checkAuth] on the storage; the page asked for is the login page;
    and every key but the three session keys keeps its value, so that the
    bookings saved by variant A load as before. *)
Theorem logout_ends_the_session (storage : Storage.t) (st : Auth.State) :
  Auth.isAuthenticated (snd (fst (Auth.logout storage st))) = false
  /\ Auth.user (snd (fst (Auth.logout storage st))) = None
  /\ snd (Auth.logout storage st) = lit "/login"
  /\ Auth.checkAuth (fst (fst (Auth.logout storage st))) Auth.initialState
     = Auth.mkState false None false
  /\ Auth.sessionUser
       (Auth.checkAuth (fst (fst (Auth.logout storage st))) Auth.initialState) = None
  /\ (forall key,
        key <> lit "isAuthenticated" -> key <> lit "userName" -> key <> lit "userType" ->
        Storage.getItem key (fst (fst (Auth.logout storage st)))
        = Storage.getItem key storage)
  /\ Persistence.loadFrom (fst (fst (Auth.logout storage st)))
     = Persistence.loadFrom storage.
Proof.
  repeat (split; [reflexivity|]).
  assert (K : forall key,
             key <> lit "isAuthenticated" -> key <> lit "userName" ->
             key <> lit "userType" ->
             Storage.getItem key (fst (fst (Auth.logout storage st)))
             = Storage.getItem key storage).
  { intros key H1 H2 H3. unfold Auth.logout, Storage.getItem, Storage.removeItem. simpl.
    apply strictEq_false_iff in H1, H2, H3. now rewrite H1, H2, H3. }
  split; [exact K|].
  unfold Persistence.loadFrom. rewrite K; [reflexivity| | |]; discriminate.
Qed.

Lemma logout_ends_the_session_witness :
  Storage.getItem Persistence.BOOKINGS_KEY
    (fst (fst (Auth.logout
                 (Persistence.saveBookings (VariantA.bookings Samples.bookedA)
                    Samples.sessionStorage)
                 (Auth.checkAuth Samples.sessionStorage Auth.initialState))))
  = Storage.getItem Persistence.BOOKINGS_KEY
      (Persistence.saveBookings (VariantA.bookings Samples.bookedA)
         Samples.sessionStorage).
Proof.
  destruct (logout_ends_the_session
              (Persistence.saveBookings (VariantA.bookings Samples.bookedA)
                 Samples.sessionStorage)
              (Auth.checkAuth Samples.sessionStorage Auth.initialState))
    as (_ & _ & _ & _ & _ & K & _).
  apply K; discriminate.
Defined.

(** X20. The session that [checkAuth] builds from a storage area in which a
    department head is logged in gives variant B the rights of a
    department head: the approve and reject controls are shown on every
    pending booking, and the delete control on every booking. *)
Theorem stored_hod_session_has_hod_rights
    (storage : Storage.t) (n : jsstring) (b : VariantB.Booking.t) :
  Storage.getItem (lit "isAuthenticated") storage = Some (lit "true") ->
  Storage.getItem (lit "userName") storage = Some n ->
  n <> [] ->
  Storage.getItem (lit "userType") storage = Some (lit "hod") ->
  VariantB.deleteControlShown
    (Auth.sessionUser (Auth.checkAuth storage Auth.initialState)) b = true
  /\ VariantB.statusControlsShown
       (Auth.sessionUser (Auth.checkAuth storage Auth.initialState)) b
     = VariantB.Status_eqb (VariantB.Booking.status b) VariantB.pending.
Proof.
  intros Ha Hn Nn Ht. unfold Auth.checkAuth. rewrite Ha, Hn, Ht.
  apply truthy_true_iff in Nn. rewrite strictEq_refl, Nn. simpl.
  split; [apply orb_true_r|reflexivity].
Qed.

Lemma stored_hod_session_has_hod_rights_witness :
  Storage.getItem (lit "isAuthenticated") Samples.sessionStorage = Some (lit "true")
  /\ Storage.getItem (lit "userName") Samples.sessionStorage = Some (lit "dr.mehta")
  /\ lit "dr.mehta" <> []
  /\ Storage.getItem (lit "userType") Samples.sessionStorage = Some (lit "hod")
  /\ VariantB.deleteControlShown
       (Auth.sessionUser (Auth.checkAuth Samples.sessionStorage Auth.initialState))
       Samples.smithBooking = true.
Proof.
  assert (Nn : lit "dr.mehta" <> []) by discriminate.
  split; [reflexivity|]. split; [reflexivity|]. split; [exact Nn|].
  split; [reflexivity|].
  exact (proj1 (stored_hod_session_has_hod_rights Samples.sessionStorage
                  (lit "dr.mehta") Samples.smithBooking
                  eq_refl eq_refl Nn eq_refl)).
Defined.

(** ** Variant B: the venue grid *)

Module CatalogBFacts.
Import VariantB CatalogB.

Lemma includes_nil (s : jsstring) : includes s [] = true.
Proof. destruct s; reflexivity. Qed.

Lemma filter_all {A : Type} (p : A -> bool) (l : list A) :
  (forall x, In x l -> p x = true) -> filter p l = l.
Proof.
  induction l as [|a l IH]; simpl; intros H; [reflexivity|].
  rewrite (H a) by now left. f_equal. apply IH. intros x Hx. apply H. now right.
Qed.

End CatalogBFacts.

(** X21. The venue grid with no search term lists, in the order of the
    catalog, the venues of the chosen type (every venue for the type all)
    whose capacity is at least the minimum asked for (every venue for the
    minimum 0); with the initial filters it lists the whole catalog. *)
Theorem venue_grid_without_search
    (toLowerCase : jsstring -> jsstring) (filterType : jsstring)
    (filterCapacity : Z) (vs : list VariantB.Venue.t) :
  toLowerCase [] = [] ->
  CatalogB.filteredVenues toLowerCase [] (lit "all") 0 vs = vs
  /\ CatalogB.filteredVenues toLowerCase [] filterType filterCapacity vs
     = filter (fun venue =>
                 (strictEq filterType (lit "all")
                  || strictEq (CatalogB.typeName (VariantB.Venue.type venue)) filterType)
                 && (Z.eqb filterCapacity 0
                     || Z.leb filterCapacity (VariantB.Venue.capacity venue)))
              vs
  /\ (forall venue,
        In venue (CatalogB.filteredVenues toLowerCase [] filterType filterCapacity vs) ->
        In venue vs
        /\ (filterCapacity = 0%Z \/ (filterCapacity <= VariantB.Venue.capacity venue)%Z)
        /\ (filterType = lit "all"
            \/ CatalogB.typeName (VariantB.Venue.type venue) = filterType)).
Proof.
  intros H0.
  assert (S : forall venue ty cap,
             CatalogB.venueMatches toLowerCase [] ty cap venue
             = (strictEq ty (lit "all")
                || strictEq (CatalogB.typeName (VariantB.Venue.type venue)) ty)
               && (Z.eqb cap 0 || Z.leb cap (VariantB.Venue.capacity venue))).
  { intros venue ty cap. unfold CatalogB.venueMatches.
    rewrite H0, CatalogBFacts.includes_nil. reflexivity. }
  split; [|split].
  - unfold CatalogB.filteredVenues. apply CatalogBFacts.filter_all.
    intros venue _. now rewrite S.
  - unfold CatalogB.filteredVenues. apply filter_ext. intros venue. apply S.
  - intros venue Hin. unfold CatalogB.filteredVenues in Hin.
    apply filter_In in Hin as [Hin M]. rewrite S in M.
    apply andb_true_iff in M as [Mt Mc].
    split; [exact Hin|]. split.
    + apply orb_true_iff in Mc as [Mc|Mc]; [left; now apply Z.eqb_eq|right; now apply Z.leb_le].
    + apply orb_true_iff in Mt as [Mt|Mt]; [left|right]; now apply strictEq_true_iff.
Qed.

Lemma venue_grid_without_search_witness :
  CatalogB.lowerASCII [] = []
  /\ CatalogB.filteredVenues CatalogB.lowerASCII [] (lit "all") 0 CatalogB.venues
     = CatalogB.venues
  /\ map VariantB.Venue.name
       (CatalogB.filteredVenues CatalogB.lowerASCII [] (lit "auditorium") 200
          CatalogB.venues)
     = [lit "Main Auditorium"].
Proof.
  split; [reflexivity|].
  split; [exact (proj1 (venue_grid_without_search CatalogB.lowerASCII
                          (lit "auditorium") 200 CatalogB.venues eq_refl))|].
  reflexivity.
Defined.

(** ** Cancel, reject and delete give the slot back *)

(** X22. In variant A, once the active booking of a slot is cancelled, the
    button of that slot, disabled before for the venue and date of the
    booking, is enabled, and a click on it selects the slot and opens the
    form. *)
Theorem cancelled_slot_can_be_selected_again
    (st : VariantA.State) (i : nat) (b : VariantA.Booking.t)
    (venue : VariantA.Venue.t) :
  VariantA.uniqueActive (VariantA.bookings st) ->
  nth_error (VariantA.bookings st) i = Some b ->
  VariantA.Booking.status b <> VariantA.Cancelled ->
  VariantA.selectedVenue st = Some venue ->
  VariantA.Venue.id venue = VariantA.Booking.venueId b ->
  VariantA.selectedDate st = VariantA.Booking.date b ->
  VariantA.Booking.date b <> [] ->
  WizardA.slotDisabled (VariantA.Booking.timeSlot b) st = true
  /\ WizardA.slotDisabled (VariantA.Booking.timeSlot b)
       (VariantA.handleCancelBooking (VariantA.Booking.id b) st) = false
  /\ VariantA.selectedTimeSlot
       (WizardA.clickSlotButton (VariantA.Booking.timeSlot b)
          (VariantA.handleCancelBooking (VariantA.Booking.id b) st))
     = VariantA.Booking.timeSlot b
  /\ VariantA.showBookingForm
       (WizardA.clickSlotButton (VariantA.Booking.timeSlot b)
          (VariantA.handleCancelBooking (VariantA.Booking.id b) st)) = true.
Proof.
  intros U Hi Hs Hv Hid Hd Hne.
  assert (T : truthy (VariantA.selectedDate st) = true)
    by (apply truthy_true_iff; congruence).
  assert (Before : VariantA.isTimeSlotBooked (VariantA.bookings st)
                     (VariantA.Venue.id venue) (VariantA.selectedDate st)
                     (VariantA.Booking.timeSlot b) = true).
  { apply FactsA.isTimeSlotBooked_true_iff. exists b.
    repeat split; auto. eapply nth_error_In; eauto. }
  assert (After : VariantA.isTimeSlotBooked
                    (VariantA.cancelIn (VariantA.Booking.id b) (VariantA.bookings st))
                    (VariantA.Venue.id venue) (VariantA.selectedDate st)
                    (VariantA.Booking.timeSlot b) = false).
  { rewrite Hid, Hd. now apply (WizardAFacts.cancelIn_frees (VariantA.bookings st) i). }
  split.
  - unfold WizardA.slotDisabled, WizardA.slotIsBooked. now rewrite Hv, T, Before.
  - assert (D : WizardA.slotDisabled (VariantA.Booking.timeSlot b)
                  (VariantA.handleCancelBooking (VariantA.Booking.id b) st) = false).
    { unfold WizardA.slotDisabled, WizardA.slotIsBooked. simpl.
      now rewrite Hv, T, After. }
    split; [exact D|].
    unfold WizardA.clickSlotButton. rewrite D.
    unfold WizardA.slotsRendered, WizardA.slotIsBooked, VariantA.handleTimeSlotSelect.
    simpl. rewrite Hv, T, After. simpl. split; reflexivity.
Qed.

Lemma cancelled_slot_can_be_selected_again_witness :
  VariantA.uniqueActive (VariantA.bookings Samples.bookedA)
  /\ WizardA.slotDisabled (VariantA.Booking.timeSlot Samples.boardMeetingBooking)
       Samples.bookedA = true
  /\ VariantA.selectedTimeSlot
       (WizardA.clickSlotButton (VariantA.Booking.timeSlot Samples.boardMeetingBooking)
          (VariantA.handleCancelBooking
             (VariantA.Booking.id Samples.boardMeetingBooking) Samples.bookedA))
     = VariantA.Booking.timeSlot Samples.boardMeetingBooking.
Proof.
  assert (A : VariantA.Booking.status Samples.boardMeetingBooking
              <> VariantA.Cancelled) by discriminate.
  assert (V : VariantA.selectedVenue Samples.bookedA = Some VariantA.mainAuditorium)
    by (vm_compute; reflexivity).
  assert (I : VariantA.Venue.id VariantA.mainAuditorium
              = VariantA.Booking.venueId Samples.boardMeetingBooking)
    by (vm_compute; reflexivity).
  assert (E : VariantA.selectedDate Samples.bookedA
              = VariantA.Booking.date Samples.boardMeetingBooking)
    by (vm_compute; reflexivity).
  assert (D : VariantA.Booking.date Samples.boardMeetingBooking <> [])
    by (vm_compute; discriminate).
  destruct (cancelled_slot_can_be_selected_again Samples.bookedA 0
              Samples.boardMeetingBooking VariantA.mainAuditorium
              SamplesFacts.bookedA_consistent SamplesFacts.bookedA_first A V I E D)
    as (H1 & _ & H3 & _).
  split; [exact SamplesFacts.bookedA_consistent|]. split; [exact H1|exact H3].
Defined.

(** X23. In variant A, as long as the slot ids that are selected are not
    empty, the booking form is shown for a selected slot only: whenever the
    form is on the screen, a purpose that is not blank is all a submission
    needs to add its booking. *)
Theorem shown_form_submits_with_a_purpose
    (evs : list VariantA.Event) (newId now : jsstring) :
  Forall WizardA.slotIdGiven evs ->
  VariantA.showBookingForm (VariantA.run evs VariantA.initialState) = true ->
  trim (VariantA.Form.purpose
          (VariantA.bookingForm (VariantA.run evs VariantA.initialState))) <> [] ->
  VariantA.selectedTimeSlot (VariantA.run evs VariantA.initialState) <> []
  /\ length (VariantA.bookings
               (VariantA.handleBookingSubmit newId now
                  (VariantA.run evs VariantA.initialState)))
     = S (length (VariantA.bookings (VariantA.run evs VariantA.initialState))).
Proof.
  intros G Shown Hp.
  assert (I : forall l st, Forall WizardA.slotIdGiven l ->
                WizardA.formImpliesSlot st /\ WizardA.slotImpliesVenueDate st ->
                WizardA.formImpliesSlot (VariantA.run l st)
                /\ WizardA.slotImpliesVenueDate (VariantA.run l st)).
  { induction l as [|ev l IH]; intros st Hl [F V]; [now split|].
    inversion Hl as [|? ? Hev Hl']; subst.
    rewrite WizardAFacts.run_cons. apply IH; [exact Hl'|]. split.
    - now apply WizardAFacts.handle_formImpliesSlot.
    - now apply WizardAFacts.handle_slotImpliesVenueDate. }
  destruct (I evs VariantA.initialState G) as [F V].
  { split; [intros H; discriminate H|intros H; now contradiction H]. }
  set (st := VariantA.run evs VariantA.initialState) in *.
  assert (Ht : VariantA.selectedTimeSlot st <> []) by now apply F.
  split; [exact Ht|].
  destruct (V Ht) as [Hv Hd].
  destruct (VariantA.selectedVenue st) as [venue|] eqn:Ev; [|congruence].
  rewrite (WizardAFacts.handleBookingSubmit_complete newId now st venue Ev).
  - simpl. rewrite length_app. simpl. lia.
  - unfold WizardA.complete. rewrite Ev.
    apply truthy_true_iff in Ht, Hd, Hp. now rewrite Ht, Hd, Hp.
Qed.

Lemma shown_form_submits_with_a_purpose_witness :
  Forall WizardA.slotIdGiven
    [VariantA.VenueSelect VariantA.mainAuditorium;
     VariantA.DateSelect (lit "2027-03-10");
     VariantA.TimeSlotSelect (lit "9-10");
     VariantA.EditPurpose (lit "Board Meeting")]
  /\ VariantA.showBookingForm Samples.readyA = true
  /\ length (VariantA.bookings
               (VariantA.handleBookingSubmit (lit "booking_1")
                  (lit "2027-03-09T10:00:00.000Z") Samples.readyA)) = 1.
Proof.
  assert (G : Forall WizardA.slotIdGiven
                [VariantA.VenueSelect VariantA.mainAuditorium;
                 VariantA.DateSelect (lit "2027-03-10");
                 VariantA.TimeSlotSelect (lit "9-10");
                 VariantA.EditPurpose (lit "Board Meeting")]).
  { repeat constructor. simpl. discriminate. }
  assert (P : trim (VariantA.Form.purpose (VariantA.bookingForm Samples.readyA)) <> [])
    by (vm_compute; discriminate).
  split; [exact G|]. split; [reflexivity|].
  exact (proj2 (shown_form_submits_with_a_purpose
                  [VariantA.VenueSelect VariantA.mainAuditorium;
                   VariantA.DateSelect (lit "2027-03-10");
                   VariantA.TimeSlotSelect (lit "9-10");
                   VariantA.EditPurpose (lit "Board Meeting")]
                  (lit "booking_1") (lit "2027-03-09T10:00:00.000Z")
                  G eq_refl P)).
Defined.

(** X24. In variant B, for an active booking of a consistent store: an
    approval keeps its slot booked, and a rejection or a deletion frees
    its slot. *)
Theorem approve_keeps_reject_and_delete_free
    (st : VariantB.State) (i : nat) (b : VariantB.Booking.t) :
  VariantB.uniqueActive (VariantB.bookings st) ->
  nth_error (VariantB.bookings st) i = Some b ->
  VariantB.Booking.status b <> VariantB.rejected ->
  VariantB.isTimeSlotBooked
    (VariantB.bookings
       (VariantB.updateBookingStatus (VariantB.Booking.id b) VariantB.Approve st))
    (VariantB.Booking.venueId b) (VariantB.Booking.date b)
    (VariantB.Booking.timeSlot b) = true
  /\ VariantB.isTimeSlotBooked
       (VariantB.bookings
          (VariantB.updateBookingStatus (VariantB.Booking.id b) VariantB.Reject st))
       (VariantB.Booking.venueId b) (VariantB.Booking.date b)
       (VariantB.Booking.timeSlot b) = false
  /\ VariantB.isTimeSlotBooked
       (VariantB.bookings (VariantB.deleteBooking (VariantB.Booking.id b) st))
       (VariantB.Booking.venueId b) (VariantB.Booking.date b)
       (VariantB.Booking.timeSlot b) = false.
Proof.
  intros U Hi Hs.
  assert (Hin : In b (VariantB.bookings st)) by (eapply nth_error_In; eauto).
  assert (Other : forall x, In x (VariantB.bookings st) ->
            VariantB.Booking.id x <> VariantB.Booking.id b ->
            VariantB.Booking.status x <> VariantB.rejected ->
            VariantB.Booking.venueId x = VariantB.Booking.venueId b ->
            VariantB.Booking.date x = VariantB.Booking.date b ->
            VariantB.Booking.timeSlot x = VariantB.Booking.timeSlot b -> False).
  { intros x Hx Hid Sx Hv Hd Ht. apply In_nth_error in Hx as [j Hj].
    apply (U j i x b); auto.
    - intros ->. rewrite Hi in Hj. injection Hj as <-. now apply Hid.
    - unfold VariantB.slotKey. congruence. }
  split; [|split].
  - apply FactsB.isTimeSlotBooked_true_iff_B.
    exists (VariantB.Booking.withStatus VariantB.approved b). simpl.
    split; [|repeat split; discriminate].
    unfold VariantB.updateIn. apply in_map_iff. exists b. split; [|exact Hin].
    now rewrite strictEq_refl.
  - destruct (VariantB.isTimeSlotBooked _ _ _ _) eqn:E; [|reflexivity]. exfalso.
    apply FactsB.isTimeSlotBooked_true_iff_B in E as (x' & Hx' & Hv & Hd & Ht & Sx).
    simpl in Hx'. unfold VariantB.updateIn in Hx'.
    apply in_map_iff in Hx' as (x & <- & Hx).
    destruct (strictEq (VariantB.Booking.id x) (VariantB.Booking.id b)) eqn:Eid.
    + simpl in Sx. congruence.
    + apply strictEq_false_iff in Eid. now apply (Other x).
  - destruct (VariantB.isTimeSlotBooked _ _ _ _) eqn:E; [|reflexivity]. exfalso.
    apply FactsB.isTimeSlotBooked_true_iff_B in E as (x & Hx & Hv & Hd & Ht & Sx).
    simpl in Hx. unfold VariantB.deleteIn in Hx. apply filter_In in Hx as [Hx Hid].
    apply negb_true_iff, strictEq_false_iff in Hid. now apply (Other x).
Qed.

Lemma approve_keeps_reject_and_delete_free_witness :
  VariantB.uniqueActive (VariantB.bookings Samples.hodB)
  /\ VariantB.isTimeSlotBooked (VariantB.bookings Samples.hodB)
       (lit "2") (lit "2024-01-16") (lit "14:00-16:00") = true
  /\ VariantB.isTimeSlotBooked
       (VariantB.bookings
          (VariantB.updateBookingStatus (lit "2") VariantB.Reject Samples.hodB))
       (lit "2") (lit "2024-01-16") (lit "14:00-16:00") = false.
Proof.
  split; [apply LifecycleB.uniqueActive_seedBookings|]. split; [reflexivity|].
  refine (proj1 (proj2 (approve_keeps_reject_and_delete_free Samples.hodB 1 _
                          LifecycleB.uniqueActive_seedBookings eq_refl _))).
  simpl. discriminate.
Defined.

(** X25. In variant B, a logged-in user who submits a booking under an id
    not yet in the store can delete it at once, and the store is then what
    it was before the submission. *)
Theorem submit_then_delete_restores_store
    (st : VariantB.State) (venue : VariantB.Venue.t) (u : VariantB.User.t)
    (nowId : jsstring) (data : VariantB.BookingFormData.t) :
  VariantB.selectedVenue st = Some venue ->
  VariantB.selectedDate st <> [] ->
  VariantB.selectedTimeSlot st <> [] ->
  VariantB.user st = Some u ->
  VariantB.User.username u <> [] ->
  ~ In nowId (map VariantB.Booking.id (VariantB.bookings st)) ->
  length (VariantB.bookings (VariantB.onSubmitBooking nowId data st))
    = S (length (VariantB.bookings st))
  /\ VariantB.bookings
       (VariantB.clickDelete (length (VariantB.bookings st))
          (VariantB.onSubmitBooking nowId data st))
     = VariantB.bookings st.
Proof.
  intros Hv Hd Ht Hu Hn Fresh.
  apply truthy_true_iff in Hd, Ht, Hn.
  unfold VariantB.onSubmitBooking. rewrite Hv, Hd, Ht. simpl.
  split; [rewrite length_app; simpl; lia|].
  unfold VariantB.clickDelete. simpl.
  rewrite nth_error_app2 by lia. rewrite Nat.sub_diag. simpl.
  unfold VariantB.deleteControlShown, VariantB.bookedByOf. simpl.
  rewrite Hu, Hn, strictEq_refl. simpl.
  unfold VariantB.deleteIn. rewrite filter_app. simpl.
  rewrite strictEq_refl. simpl. rewrite app_nil_r.
  apply CatalogBFacts.filter_all. intros x Hx.
  apply negb_true_iff, strictEq_false_iff. intros E. apply Fresh.
  rewrite <- E. now apply in_map.
Qed.

Lemma submit_then_delete_restores_store_witness :
  VariantB.selectedVenue VariantB.readyToSubmit = Some VariantB.mainAuditorium
  /\ ~ In (lit "1804672800000")
          (map VariantB.Booking.id (VariantB.bookings VariantB.readyToSubmit))
  /\ VariantB.bookings
       (VariantB.clickDelete 2
          (VariantB.onSubmitBooking (lit "1804672800000") VariantB.boardMeeting
             VariantB.readyToSubmit))
     = VariantB.bookings VariantB.readyToSubmit.
Proof.
  assert (F : ~ In (lit "1804672800000")
                   (map VariantB.Booking.id (VariantB.bookings VariantB.readyToSubmit))).
  { simpl. intros [H|[H|[]]]; discriminate H. }
  assert (D : VariantB.selectedDate VariantB.readyToSubmit <> [])
    by (vm_compute; discriminate).
  assert (T : VariantB.selectedTimeSlot VariantB.readyToSubmit <> [])
    by (vm_compute; discriminate).
  assert (N : VariantB.User.username VariantB.facultyUser <> [])
    by (vm_compute; discriminate).
  split; [reflexivity|]. split; [exact F|].
  exact (proj2 (submit_then_delete_restores_store VariantB.readyToSubmit
                  VariantB.mainAuditorium VariantB.facultyUser (lit "1804672800000")
                  VariantB.boardMeeting eq_refl D T eq_refl N F)).
Defined.
